(** * EV charger platform: the charger record store and its two HTTP front ends

    The repository holds two implementations of one CRUD service over a
    single [chargers] table: a Flask application (src/app/app.py) and a
    FastAPI application (src/fastapi_backend/main.py, models.py).  Both sit on
    the SQLAlchemy ORM.  This development embeds

    - the table and the mapped class [Charger] (module [models]),
    - the part of the ORM unit of work that the handlers rely on: column
      defaults at INSERT, [onupdate] at UPDATE, NOT NULL constraints, keys
      of 64 bits (module [orm]),
    - the route handlers of each application (modules [Flask], [FastAPI]),
      with the request and response schemas of the FastAPI routes,

    and proves the properties of the specification about them.

    Conventions.  A timestamp is the integer number of microseconds since the
    epoch; [isoformat] is an injective rendering and is left out, so a
    serialized record carries the timestamp itself.  Every call of
    [datetime.utcnow] reads the system clock anew: the world carries the
    sequence of readings still to come. *)

From stdpp Require Import base numbers option list strings gmap fin_maps.

#[local] Set Warnings "-clear-no-such-hyp".

Local Open Scope string_scope.
Local Open Scope Z_scope.

(** ** Python values *)

Definition datetime := Z.

(** A key of a JSON object (or a field of a pydantic model): missing, or
    present with a value that may be [null]/[None]. *)
Inductive field (A : Type) : Type :=
| Absent
| Present (v : option A).
Arguments Absent {A}.
Arguments Present {A} v.

#[global] Instance field_eq_dec `{EqDecision A} : EqDecision (field A).
Proof. solve_decision. Defined.

(** [key in data] *)
Definition contains {A} (f : field A) : bool :=
  match f with Absent => false | Present _ => true end.

(** [data.get(key, dflt)]; [data[key]] is [item] further down, once
    exceptions are in place. *)
Definition get_default {A} (f : field A) (dflt : option A) : option A :=
  match f with Absent => dflt | Present v => v end.

(** [str.lower] on the ASCII range; bytes outside it are kept, which is
    what matters for a comparison with ['true']. *)
Definition lower_ascii (c : Ascii.ascii) : Ascii.ascii :=
  let n := Ascii.nat_of_ascii c in
  if (Nat.leb 65 n && Nat.leb n 90)%bool
  then Ascii.ascii_of_nat (n + 32)%nat else c.

Fixpoint lower (s : string) : string :=
  match s with
  | String.EmptyString => String.EmptyString
  | String.String c s' => String.String (lower_ascii c) (lower s')
  end.

(** ** models.Charger *)

Module models.

Record Charger : Type := mkCharger {
  id : option Z;
  location : option string;
  available : option bool;
  power : option string;
  type : option string;
  notes : option string;
  last_used : option datetime;
  created_at : option datetime;
  updated_at : option datetime
}.

#[global] Instance Charger_eq_dec : EqDecision Charger.
Proof. solve_decision. Defined.

(** Attribute assignment, [obj.attr = v]. *)
Definition set_id v (c : Charger) :=
  mkCharger v (location c) (available c) (power c) (type c) (notes c)
            (last_used c) (created_at c) (updated_at c).
Definition set_location v (c : Charger) :=
  mkCharger (id c) v (available c) (power c) (type c) (notes c)
            (last_used c) (created_at c) (updated_at c).
Definition set_available v (c : Charger) :=
  mkCharger (id c) (location c) v (power c) (type c) (notes c)
            (last_used c) (created_at c) (updated_at c).
Definition set_power v (c : Charger) :=
  mkCharger (id c) (location c) (available c) v (type c) (notes c)
            (last_used c) (created_at c) (updated_at c).
Definition set_type v (c : Charger) :=
  mkCharger (id c) (location c) (available c) (power c) v (notes c)
            (last_used c) (created_at c) (updated_at c).
Definition set_notes v (c : Charger) :=
  mkCharger (id c) (location c) (available c) (power c) (type c) v
            (last_used c) (created_at c) (updated_at c).
Definition set_last_used v (c : Charger) :=
  mkCharger (id c) (location c) (available c) (power c) (type c) (notes c)
            v (created_at c) (updated_at c).
Definition set_created_at v (c : Charger) :=
  mkCharger (id c) (location c) (available c) (power c) (type c) (notes c)
            (last_used c) v (updated_at c).
Definition set_updated_at v (c : Charger) :=
  mkCharger (id c) (location c) (available c) (power c) (type c) (notes c)
            (last_used c) (created_at c) v.

(** [Charger(location=.., available=.., power=.., type=.., notes=..)]: a
    transient object; the remaining attributes are [None] until flushed. *)
Definition new (location : option string) (available : option bool)
           (power type notes : option string) : Charger :=
  mkCharger None location available power type notes None None None.

End models.
Import models.

(** ** The world: the table and the clock *)

Record World : Type := mkWorld {
  chargers : list Charger;       (* rows of the table, in rowid order *)
  clock : nat → datetime         (* readings [utcnow] will return, in order *)
}.

Inductive exn : Type :=
| NotFound                               (* werkzeug's 404 abort *)
| HTTPException (status_code : Z) (detail : string)
| IntegrityError                         (* NOT NULL constraint failed *)
| AttributeError
| KeyError
| OverflowError                          (* int too large for SQLite INTEGER *)
| RequestValidationError.                (* pydantic rejected the request *)

Inductive outcome (A : Type) : Type :=
| Returns (a : A)
| Raises (e : exn).
Arguments Returns {A} a.
Arguments Raises {A} e.

(** Computations that read and write the world and may raise. *)
Definition M (A : Type) : Type := World → outcome A * World.

Definition ret {A} (a : A) : M A := λ w, (Returns a, w).

Definition bind {A B} (m : M A) (k : A → M B) : M B :=
  λ w, match m w with
       | (Returns a, w') => k a w'
       | (Raises e, w') => (Raises e, w')
       end.

Definition raise {A} (e : exn) : M A := λ w, (Raises e, w).

Notation "x <- m ;; k" := (bind m (λ x, k))
  (at level 100, m at next level, right associativity).
Notation "m ;;; k" := (bind m (λ _, k))
  (at level 100, right associativity).

(** The world after one reading of the clock. *)
Definition tick (w : World) : World :=
  mkWorld (chargers w) (λ n, clock w (S n)).

(** [datetime.utcnow()] *)
Definition utcnow : M datetime := λ w, (Returns (clock w 0%nat), tick w).

Definition read_table : M (list Charger) := λ w, (Returns (chargers w), w).

Definition write_table (t : list Charger) : M unit :=
  λ w, (Returns tt, mkWorld t (clock w)).

(** [data[key]] *)
Definition item {A} (f : field A) : M (option A) :=
  match f with
  | Present v => ret v
  | Absent => raise KeyError
  end.

(** [[f(x) for x in l]] *)
Fixpoint traverse {A B} (f : A → M B) (l : list A) : M (list B) :=
  match l with
  | [] => ret []
  | x :: l' => y <- f x ;; ys <- traverse f l' ;; ret (y :: ys)
  end.

(** ** The ORM unit of work, as far as the handlers use it *)

Module orm.

(** A Python-side column default ([default=...]) is evaluated at INSERT
    for an attribute that is [None] on the flushed object; a callable
    default is called once per column. *)
Definition column_default {A} (dflt : M A) (v : option A) : M (option A) :=
  match v with
  | Some a => ret (Some a)
  | None => a <- dflt ;; ret (Some a)
  end.

(** SQLite's rowid for an INTEGER PRIMARY KEY: one more than the largest
    id in the table. *)
Definition next_rowid (t : list Charger) : Z :=
  1 + foldr (λ c m, Z.max (default 0 (id c)) m) 0 t.

(** [nullable=False] on location, power and type. *)
Definition not_null (c : Charger) : bool :=
  bool_decide (is_Some (location c)) && bool_decide (is_Some (power c))
  && bool_decide (is_Some (type c)).

(** A column of a persistent row set from a value to [None]. *)
Definition sets_null {A} (old new : option A) : bool :=
  match old, new with
  | Some _, None => true
  | _, _ => false
  end.

Definition INSERT (c : Charger) : M Charger :=
  t <- read_table ;;
  if not_null c
  then let c' := set_id (Some (next_rowid t)) c in
       write_table (t ++ [c']) ;;; ret c'
  else raise IntegrityError.

Definition UPDATE (c : Charger) : M unit :=
  t <- read_table ;;
  write_table ((λ r, if decide (id r = id c) then c else r) <$> t).

Definition DELETE (c : Charger) : M unit :=
  t <- read_table ;;
  write_table (filter (λ r, id r ≠ id c) t).

(** The first row with primary key [charger_id]. *)
Definition row (charger_id : Z) (t : list Charger) : option Charger :=
  head (filter (λ c, id c = Some charger_id) t).

(** SQLite keeps an INTEGER in 64 bits, signed. *)
Definition int64 (n : Z) : Prop := - 2 ^ 63 ≤ n < 2 ^ 63.

(** [query.get(pk)] and [query.filter(Charger.id == pk).first()].  The key
    is a bound parameter of the SELECT, and the sqlite3 driver raises
    OverflowError for a Python int that does not fit 64 bits.  A key that is
    stored fits, so such a lookup is one that finds no row. *)
Definition get (charger_id : Z) : M (option Charger) :=
  t <- read_table ;;
  match row charger_id t with
  | Some c => ret (Some c)
  | None => if decide (int64 charger_id) then ret None
            else raise OverflowError
  end.

(** [session.commit()] with one persistent object [obj] that was
    [loaded] from the table and then assigned to.  The flush compares every
    attribute with its loaded value: without a net change no UPDATE is
    emitted (and no [onupdate] runs); otherwise the UPDATE carries the
    changed columns, and [updated_at], when not among them, is filled by its
    [onupdate=datetime.utcnow]. *)
Definition flush_dirty (loaded obj : Charger) : M Charger :=
  if decide (obj = loaded) then ret obj
  else
    obj' <- (if decide (updated_at obj = updated_at loaded)
             then now <- utcnow ;; ret (set_updated_at (Some now) obj)
             else ret obj) ;;
    if sets_null (location loaded) (location obj')
       || sets_null (power loaded) (power obj')
       || sets_null (type loaded) (type obj')
    then raise IntegrityError
    else UPDATE obj' ;;; ret obj'.

End orm.

(** ** What a handler answers *)

Module dict.
(** The dictionary built by [to_dict] / [format_charger]. *)
Record t : Type := mk {
  id : option Z;
  location : option string;
  available : option bool;
  power : option string;
  type : option string;
  notes : option string;
  lastUsed : option datetime;
  createdAt : datetime;
  updatedAt : datetime
}.
End dict.

Record Stats : Type := mkStats {
  totalChargers : Z;
  availableChargers : Z;
  unavailableChargers : Z;
  chargerTypes : gmap (option string) Z
}.

Inductive body : Type :=
| JsonCharger (d : dict.t)
| JsonList (l : list dict.t)
| JsonError (error : string)             (* {'error': ...} *)
| JsonMessage (message : string)         (* {'message': ...} *)
| JsonDetail (detail : string)           (* {"detail": ...} *)
| JsonStats (s : Stats)
| JsonValidationErrors                   (* {"detail": [...]}, list left out *)
| PlainText (text : string).

Record Response : Type := mkResponse { status : Z; content : body }.

(** [to_dict] (app.py) and [format_charger] (main.py) are the same function:
    [isoformat] is called on [created_at] and [updated_at] unguarded. *)
Definition dict_of (c : Charger) : option dict.t :=
  match created_at c, updated_at c with
  | Some ca, Some ua =>
      Some (dict.mk (id c) (location c) (available c) (power c) (type c)
                    (notes c) (last_used c) ca ua)
  | _, _ => None
  end.

Definition to_dict (c : Charger) : M dict.t :=
  match dict_of c with
  | Some d => ret d
  | None => raise AttributeError
  end.

Definition format_charger := to_dict.

(** GROUP BY type with count(id): one row per distinct type, counting the
    rows of the group whose id is not NULL. *)
Definition group_by_type (t : list Charger) : list (option string * Z) :=
  (λ ty, (ty, Z.of_nat (length (filter (λ c, type c = ty ∧ is_Some (id c)) t))))
    <$> remove_dups (type <$> t).

(** [for charger_type, count in types: charger_types[charger_type] = count] *)
Definition collect_types (types : list (option string * Z))
  : gmap (option string) Z :=
  foldl (λ m p, <[p.1 := p.2]> m) ∅ types.

(** The six rows both applications insert into an empty table. *)
Definition sample_chargers : list Charger :=
  [ models.new (Some "Downtown Parking Garage") (Some true) (Some "50kW")
      (Some "CCS") (Some "Located near the elevator on level 2");
    models.new (Some "City Hall - North Lot") (Some false) (Some "150kW")
      (Some "CCS/CHAdeMO") (Some "Available to public during business hours");
    models.new (Some "Shopping Mall - Level 2") (Some true) (Some "22kW")
      (Some "Type 2") (Some "4 hour maximum charging time");
    models.new (Some "Public Library") (Some true) (Some "11kW")
      (Some "Type 2") (Some "Free charging for library card holders");
    models.new (Some "Central Park - East Entrance") (Some false) (Some "7kW")
      (Some "Type 1") (Some "Solar powered charger");
    models.new (Some "Tech Campus - Building A") (Some true) (Some "350kW")
      (Some "CCS") (Some "High-speed charging station") ].

(** A JSON request body with the five writable keys. *)
Module payload.
Record t : Type := mk {
  location : field string;
  available : field bool;
  power : field string;
  type : field string;
  notes : field string
}.

(** [key in data] *)
Definition has_key (key : string) (data : t) : bool :=
  if decide (key = "location") then contains (location data)
  else if decide (key = "available") then contains (available data)
  else if decide (key = "power") then contains (power data)
  else if decide (key = "type") then contains (type data)
  else if decide (key = "notes") then contains (notes data)
  else false.

Definition empty : t := mk Absent Absent Absent Absent Absent.
End payload.

(** ** src/app/app.py *)

Module Flask.

(** Column defaults of the Flask model (app.py, lines 23 and 27-29), in
    column order. *)
Definition insert_defaults (c : Charger) : M Charger :=
  av <- orm.column_default (ret true) (available c) ;;
  lu <- orm.column_default utcnow (last_used c) ;;
  ca <- orm.column_default utcnow (created_at c) ;;
  ua <- orm.column_default utcnow (updated_at c) ;;
  ret (set_updated_at ua (set_created_at ca
         (set_last_used lu (set_available av c)))).

(** [db.session.add(c); db.session.commit()] for a transient object. *)
Definition add_commit (c : Charger) : M Charger :=
  c' <- insert_defaults c ;; orm.INSERT c'.

Definition get_or_404 (charger_id : Z) : M Charger :=
  o <- orm.get charger_id ;;
  match o with
  | Some c => ret c
  | None => raise NotFound
  end.

Definition jsonify (b : body) : Response := mkResponse 200 b.

(** Lines 44-98: the table is seeded when it is empty at start-up.  The
    six objects are added to one session and flushed in order. *)
Definition init_db : M unit :=
  t <- read_table ;;
  if decide (length t = 0%nat)
  then traverse add_commit sample_chargers ;;; ret tt
  else ret tt.

(** GET /chargers; [args] is [request.args]. *)
Definition get_chargers (args : gmap string string) : M Response :=
  let available := args !! "available" in
  t <- read_table ;;
  let query :=
    match available with
    | Some a =>
        filter (λ c, models.available c
                     = Some (bool_decide (lower a = "true"))) t
    | None => t
    end in
  ds <- traverse to_dict query ;;
  ret (jsonify (JsonList ds)).

(** GET /chargers/<int:charger_id> *)
Definition get_charger (charger_id : Z) : M Response :=
  charger <- get_or_404 charger_id ;;
  d <- to_dict charger ;;
  ret (jsonify (JsonCharger d)).

Definition required_fields : list string := ["location"; "power"; "type"].

(** POST /chargers *)
Definition add_charger (data : payload.t) : M Response :=
  match List.find (λ f, negb (payload.has_key f data)) required_fields with
  | Some f =>
      ret (mkResponse 400 (JsonError ("Missing required field: " +:+ f)))
  | None =>
      loc <- item (payload.location data) ;;
      pow <- item (payload.power data) ;;
      typ <- item (payload.type data) ;;
      let new_charger :=
        models.new loc
                   (get_default (payload.available data) (Some true))
                   pow typ
                   (get_default (payload.notes data) (Some "")) in
      c <- add_commit new_charger ;;
      d <- to_dict c ;;
      ret (mkResponse 201 (JsonCharger d))
  end.

(** The assignments of [update_charger], lines 150-162. *)
Definition assign_fields (data : payload.t) (charger : Charger) : M Charger :=
  let c1 := match payload.location data with
            | Present v => set_location v charger
            | Absent => charger
            end in
  c2 <- match payload.available data with
        | Present v =>
            let c := set_available v c1 in
            if decide (v = Some false)
            then now <- utcnow ;; ret (set_last_used (Some now) c)
            else ret c
        | Absent => ret c1
        end ;;
  let c3 := match payload.power data with
            | Present v => set_power v c2
            | Absent => c2
            end in
  let c4 := match payload.type data with
            | Present v => set_type v c3
            | Absent => c3
            end in
  let c5 := match payload.notes data with
            | Present v => set_notes v c4
            | Absent => c4
            end in
  ret c5.

(** PUT and PATCH /chargers/<int:charger_id> *)
Definition update_charger (charger_id : Z) (data : payload.t) : M Response :=
  charger <- get_or_404 charger_id ;;
  obj <- assign_fields data charger ;;
  c <- orm.flush_dirty charger obj ;;
  d <- to_dict c ;;
  ret (jsonify (JsonCharger d)).

(** DELETE /chargers/<int:charger_id> *)
Definition delete_charger (charger_id : Z) : M Response :=
  charger <- get_or_404 charger_id ;;
  orm.DELETE charger ;;;
  ret (mkResponse 200 (JsonMessage "Charger deleted successfully")).

(** GET /chargers/stats *)
Definition get_charger_stats : M Response :=
  t <- read_table ;;
  let total_chargers := Z.of_nat (length t) in
  let available_chargers :=
    Z.of_nat (length (filter (λ c, available c = Some true) t)) in
  let unavailable_chargers := total_chargers - available_chargers in
  let types := group_by_type t in
  let charger_types := collect_types types in
  ret (jsonify (JsonStats (mkStats total_chargers available_chargers
                                   unavailable_chargers charger_types))).

(** The error handlers, lines 198-206; a failed commit leaves the table
    as it was, so the rollback has nothing to undo. *)
Definition not_found_error : Response :=
  mkResponse 404 (JsonError "Resource not found").
Definition internal_error : Response :=
  mkResponse 500 (JsonError "Internal server error").

Definition respond (h : M Response) (w : World) : Response * World :=
  match h w with
  | (Returns r, w') => (r, w')
  | (Raises NotFound, w') => (not_found_error, w')
  | (Raises _, w') => (internal_error, w')
  end.

(** [charger_id] is what the [<int:charger_id>] converter of the route has
    matched: digits only, so never a negative number. *)
Inductive request : Type :=
| GET_chargers (args : gmap string string)
| GET_charger (charger_id : Z)
| POST_chargers (data : payload.t)
| PUT_charger (charger_id : Z) (data : payload.t)
| PATCH_charger (charger_id : Z) (data : payload.t)
| DELETE_charger (charger_id : Z)
| GET_stats.

Definition route (r : request) : M Response :=
  match r with
  | GET_chargers args => get_chargers args
  | GET_charger i => get_charger i
  | POST_chargers data => add_charger data
  | PUT_charger i data => update_charger i data
  | PATCH_charger i data => update_charger i data
  | DELETE_charger i => delete_charger i
  | GET_stats => get_charger_stats
  end.

Definition serve (r : request) (w : World) : Response * World :=
  respond (route r) w.

(** The worlds the application can be in: it starts on an empty table,
    seeds it, and then serves requests. *)
Inductive reachable (w0 : World) : World → Prop :=
| reach_start : reachable w0 (init_db w0).2
| reach_serve r w : reachable w0 w → reachable w0 (serve r w).2.

End Flask.

(** ** src/fastapi_backend/main.py *)

Module ChargerCreate.
(** [ChargerBase]/[ChargerCreate], lines 34-42. *)
Record t : Type := mk {
  location : string;
  available : bool;
  power : string;
  type : string;
  notes : option string
}.

(** Validation of a request body against the schema: a field without a
    default is required, [None] is accepted by [Optional] fields only. *)
Definition parse (data : payload.t) : option t :=
  match payload.location data, payload.power data, payload.type data with
  | Present (Some l), Present (Some p), Present (Some ty) =>
      let nt := get_default (payload.notes data) None in
      match payload.available data with
      | Absent => Some (mk l true p ty nt)
      | Present (Some b) => Some (mk l b p ty nt)
      | Present None => None
      end
  | _, _, _ => None
  end.
End ChargerCreate.

Module ChargerResponse.
(** [ChargerResponse], lines 51-58: [id], [location], [available], [power]
    and [type] are required and not [Optional], so null is refused;
    [createdAt] and [updatedAt] are strings in every dictionary that
    [format_charger] builds. *)
Definition validate (d : dict.t) : bool :=
  bool_decide (is_Some (dict.id d))
  && bool_decide (is_Some (dict.location d))
  && bool_decide (is_Some (dict.available d))
  && bool_decide (is_Some (dict.power d))
  && bool_decide (is_Some (dict.type d)).
End ChargerResponse.

Module ChargerUpdate.
(** [ChargerUpdate], lines 44-49: every field is [Optional] with default
    [None]; [Absent] is a field the request did not set, which
    [dict(exclude_unset=True)] leaves out. *)
Record t : Type := mk {
  location : field string;
  available : field bool;
  power : field string;
  type : field string;
  notes : field string
}.
End ChargerUpdate.

Module FastAPI.

(** Column defaults of models.py, lines 11, 16 and 17; [last_used] has
    none. *)
Definition insert_defaults (c : Charger) : M Charger :=
  av <- orm.column_default (ret true) (available c) ;;
  ca <- orm.column_default utcnow (created_at c) ;;
  ua <- orm.column_default utcnow (updated_at c) ;;
  ret (set_updated_at ua (set_created_at ca (set_available av c))).

(** [db.add(c); db.commit(); db.refresh(c)] *)
Definition add_commit (c : Charger) : M Charger :=
  c' <- insert_defaults c ;; orm.INSERT c'.

(** The attributes of [sqlalchemy.orm.Session] that main.py uses. *)
Definition session_attributes : list string :=
  ["query"; "add"; "commit"; "refresh"; "delete"].

(** [db.<name>] on the [Session] injected by [Depends(get_db)] *)
Definition session_getattr (name : string) : M unit :=
  if decide (name ∈ session_attributes) then ret tt
  else raise AttributeError.

(** [add_sample_data], lines 68-122. *)
Definition add_sample_data : M unit :=
  t <- read_table ;;
  if decide (0 < length t)%nat then ret tt
  else traverse add_commit sample_chargers ;;; ret tt.

(** GET /chargers *)
Definition get_chargers (available : option bool) (type : option string)
  : M Response :=
  t <- read_table ;;
  let query := t in
  let query := match available with
               | Some a => filter (λ c, models.available c = Some a) query
               | None => query
               end in
  let query := match type with
               | Some ty => filter (λ c, models.type c = Some ty) query
               | None => query
               end in
  ds <- traverse format_charger query ;;
  ret (mkResponse 200 (JsonList ds)).

Definition first_or_404 (charger_id : Z) : M Charger :=
  o <- orm.get charger_id ;;
  match o with
  | Some c => ret c
  | None => raise (HTTPException 404 "Charger not found")
  end.

(** GET /chargers/{charger_id} *)
Definition get_charger (charger_id : Z) : M Response :=
  charger <- first_or_404 charger_id ;;
  d <- format_charger charger ;;
  ret (mkResponse 200 (JsonCharger d)).

(** POST /chargers *)
Definition add_charger (charger : ChargerCreate.t) : M Response :=
  let db_charger :=
    models.new (Some (ChargerCreate.location charger))
               (Some (ChargerCreate.available charger))
               (Some (ChargerCreate.power charger))
               (Some (ChargerCreate.type charger))
               (ChargerCreate.notes charger) in
  c <- add_commit db_charger ;;
  d <- format_charger c ;;
  ret (mkResponse 201 (JsonCharger d)).

(** [for key, value in update_data.items(): setattr(db_charger, key, value)] *)
Definition setattrs (update_data : ChargerUpdate.t) (c : Charger) : Charger :=
  let c := match ChargerUpdate.location update_data with
           | Present v => set_location v c | Absent => c end in
  let c := match ChargerUpdate.available update_data with
           | Present v => set_available v c | Absent => c end in
  let c := match ChargerUpdate.power update_data with
           | Present v => set_power v c | Absent => c end in
  let c := match ChargerUpdate.type update_data with
           | Present v => set_type v c | Absent => c end in
  match ChargerUpdate.notes update_data with
  | Present v => set_notes v c | Absent => c end.

(** PUT /chargers/{charger_id} *)
Definition update_charger (charger_id : Z) (charger : ChargerUpdate.t)
  : M Response :=
  db_charger <- first_or_404 charger_id ;;
  let update_data := charger in
  c1 <- (if decide (ChargerUpdate.available update_data = Present (Some false)
                    ∧ available db_charger = Some true)
         then now <- utcnow ;; ret (set_last_used (Some now) db_charger)
         else ret db_charger) ;;
  let c2 := setattrs update_data c1 in
  now <- utcnow ;;
  let c3 := set_updated_at (Some now) c2 in
  c <- orm.flush_dirty db_charger c3 ;;
  d <- format_charger c ;;
  ret (mkResponse 200 (JsonCharger d)).

(** PATCH /chargers/{charger_id}: the body of the PUT handler, repeated. *)
Definition partial_update_charger (charger_id : Z) (charger : ChargerUpdate.t)
  : M Response :=
  db_charger <- first_or_404 charger_id ;;
  let update_data := charger in
  c1 <- (if decide (ChargerUpdate.available update_data = Present (Some false)
                    ∧ available db_charger = Some true)
         then now <- utcnow ;; ret (set_last_used (Some now) db_charger)
         else ret db_charger) ;;
  let c2 := setattrs update_data c1 in
  now <- utcnow ;;
  let c3 := set_updated_at (Some now) c2 in
  c <- orm.flush_dirty db_charger c3 ;;
  d <- format_charger c ;;
  ret (mkResponse 200 (JsonCharger d)).

(** DELETE /chargers/{charger_id} *)
Definition delete_charger (charger_id : Z) : M Response :=
  db_charger <- first_or_404 charger_id ;;
  orm.DELETE db_charger ;;;
  ret (mkResponse 200 (JsonMessage "Charger deleted successfully")).

(** GET /chargers/stats/summary.  The grouped query is written
    [db.query(models.Charger.type, db.func.count(models.Charger.id))] with
    [db] the session; [func] is looked up on it before the query is built. *)
Definition get_charger_stats : M Response :=
  t <- read_table ;;
  let total_chargers := Z.of_nat (length t) in
  let available_chargers :=
    Z.of_nat (length (filter (λ c, available c = Some true) t)) in
  let unavailable_chargers := total_chargers - available_chargers in
  session_getattr "func" ;;;
  let types_query := group_by_type t in
  let charger_types := collect_types types_query in
  ret (mkResponse 200 (JsonStats (mkStats total_chargers available_chargers
                                          unavailable_chargers charger_types))).

(** [response_model=ChargerResponse] on the routes that return a charger
    (lines 156, 168, 188, 214) and [List[ChargerResponse]] on the list (line
    135): what the handler returns is validated against the schema.  The
    statistics are validated against [StatsResponse], which integers and a
    dictionary always pass; the delete route has no [response_model]. *)
Definition response_model (b : body) : bool :=
  match b with
  | JsonCharger d => ChargerResponse.validate d
  | JsonList ds => forallb ChargerResponse.validate ds
  | _ => true
  end.

(** No exception handler is registered: [HTTPException] and request
    validation errors get the framework's responses, anything else, a
    return value that fails the [response_model] included, a 500. *)
Definition respond (h : M Response) (w : World) : Response * World :=
  match h w with
  | (Returns r, w') =>
      if response_model (content r) then (r, w')
      else (mkResponse 500 (PlainText "Internal Server Error"), w')
  | (Raises (HTTPException s d), w') => (mkResponse s (JsonDetail d), w')
  | (Raises RequestValidationError, w') =>
      (mkResponse 422 JsonValidationErrors, w')
  | (Raises _, w') => (mkResponse 500 (PlainText "Internal Server Error"), w')
  end.

Inductive request : Type :=
| GET_chargers (available : option bool) (type : option string)
| GET_charger (charger_id : Z)
| POST_chargers (data : payload.t)
| PUT_charger (charger_id : Z) (charger : ChargerUpdate.t)
| PATCH_charger (charger_id : Z) (charger : ChargerUpdate.t)
| DELETE_charger (charger_id : Z)
| GET_stats_summary.

Definition route (r : request) : M Response :=
  match r with
  | GET_chargers a ty => get_chargers a ty
  | GET_charger i => get_charger i
  | POST_chargers data =>
      match ChargerCreate.parse data with
      | Some charger => add_charger charger
      | None => raise RequestValidationError
      end
  | PUT_charger i charger => update_charger i charger
  | PATCH_charger i charger => partial_update_charger i charger
  | DELETE_charger i => delete_charger i
  | GET_stats_summary => get_charger_stats
  end.

(** The [initialize_db] middleware, lines 126-131, runs [add_sample_data]
    before every request. *)
Definition initialize_db (call_next : M Response) : M Response :=
  add_sample_data ;;; call_next.

(** A request as the route handlers see it, and as the application
    serves it. *)
Definition handle (r : request) (w : World) : Response * World :=
  respond (route r) w.

Definition serve (r : request) (w : World) : Response * World :=
  respond (initialize_db (route r)) w.



Inductive reachable (w0 : World) : World → Prop :=
| reach_start : reachable w0 w0
| reach_serve r w : reachable w0 w → reachable w0 (serve r w).2.

End FastAPI.

(** A clock whose readings never go back. *)
Definition monotone (clk : nat → datetime) : Prop :=
  ∀ n, clk n ≤ clk (S n).

(** A ticking clock for the examples: 1000, 1001, 1002, ... *)
Definition ticking : nat → datetime := λ n, 1000 + Z.of_nat n.

(** ** Specification-side vocabulary *)

(** A row passes the list filters: each filter that is supplied must equal
    the row's column. *)
Definition matches (available : option bool) (type : option string)
           (c : Charger) : Prop :=
  (∀ a, available = Some a → models.available c = Some a)
  ∧ (∀ ty, type = Some ty → models.type c = Some ty).

#[global] Instance matches_dec a ty c : Decision (matches a ty c).
Proof.
  unfold matches.
  destruct a as [a|], ty as [ty|].
  - destruct (decide (available c = Some a)), (decide (type c = Some ty));
      [left | right | right | right]; naive_solver.
  - destruct (decide (available c = Some a)); [left | right]; naive_solver.
  - destruct (decide (type c = Some ty)); [left | right]; naive_solver.
  - left; naive_solver.
Defined.

(** The JSON list answered for a selection of rows. *)
Definition listing (rows : list Charger) : M Response :=
  ds <- traverse to_dict rows ;; ret (mkResponse 200 (JsonList ds)).

(** The body of a create request that gives the three required strings
    and nothing else. *)
Definition minimal_body (l p ty : string) : payload.t :=
  payload.mk (Present (Some l)) Absent (Present (Some p))
             (Present (Some ty)) Absent.

(** The first required key that a body lacks, in the order of
    [required_fields]. *)
Definition first_missing (data : payload.t) : string :=
  if contains (payload.location data) then
    if contains (payload.power data) then "type" else "power"
  else "location".

(** The number of rows of a given type, whatever their availability. *)
Definition count_type (ty : option string) (t : list Charger) : Z :=
  Z.of_nat (length (filter (λ c, type c = ty) t)).

(** The sum of the values of a [chargerTypes] dictionary. *)
Definition sum_values (m : gmap (option string) Z) : Z :=
  foldr Z.add 0 (map_to_list m).*2.


(** The table after the row(s) keyed like [c] are replaced by [c]. *)
Definition replaced (c : Charger) (t : list Charger) : list Charger :=
  (λ r, if decide (id r = id c) then c else r) <$> t.








(** Both timestamps of a row are set and [updated_at] is not before
    [created_at]. *)
Definition stamped (c : Charger) : Prop :=
  ∃ tc tu, created_at c = Some tc ∧ updated_at c = Some tu ∧ tc ≤ tu.

(** The same, for a row created no later than [now]. *)
Definition row_ok (now : datetime) (c : Charger) : Prop :=
  ∃ tc tu, created_at c = Some tc ∧ updated_at c = Some tu
           ∧ tc ≤ tu ∧ tc ≤ now.

(** The invariant of the worlds an application goes through when its clock
    never goes back. *)
Definition Inv (w : World) : Prop :=
  monotone (clock w) ∧ Forall (row_ok (clock w 0%nat)) (chargers w).

(** A computation keeps the invariant, whether it returns or raises. *)
Definition preserves {A} (m : M A) : Prop :=
  ∀ w, Inv w → Inv (m w).2.

(** The world after the FastAPI application has served a sequence of
    requests. *)
Definition fastapi_run (rs : list FastAPI.request) (w : World) : World :=
  foldl (λ w r, (FastAPI.serve r w).2) w rs.

(** [ds] are the dictionaries of [rows], in order. *)
Definition serialized (rows : list Charger) (ds : list dict.t) : Prop :=
  Forall2 (λ c d, dict_of c = Some d) rows ds.

(** The seeded table of each application under the ticking clock. *)
Definition flask_seeded : World := (Flask.init_db (mkWorld [] ticking)).2.
Definition fastapi_seeded : World :=
  (FastAPI.add_sample_data (mkWorld [] ticking)).2.

(** A computation keeps a property of the world, whether it returns or
    raises. *)
Definition keeps (I : World → Prop) {A} (m : M A) : Prop :=
  ∀ w, I w → I (m w).2.

(** A computation that leaves the world as it is. *)
Definition readonly {A} (m : M A) : Prop := ∀ w, (m w).2 = w.

(** The table constraints: primary keys are set and pairwise distinct, the
    [nullable=False] columns are set. *)
Definition Keyed (w : World) : Prop :=
  NoDup (id <$> chargers w)
  ∧ Forall (λ c, is_Some (id c) ∧ orm.not_null c = true) (chargers w).

(** No row is stamped later than the next reading of a clock that never
    goes back. *)
Definition Timed (w : World) : Prop :=
  monotone (clock w)
  ∧ Forall (λ c, ∃ tu, updated_at c = Some tu ∧ tu ≤ clock w 0%nat)
           (chargers w).

(** The record a request updates or deletes, if any. *)
Definition flask_target (r : Flask.request) : option Z :=
  match r with
  | Flask.PUT_charger i _ | Flask.PATCH_charger i _
  | Flask.DELETE_charger i => Some i
  | _ => None
  end.

Definition fastapi_target (r : FastAPI.request) : option Z :=
  match r with
  | FastAPI.PUT_charger i _ | FastAPI.PATCH_charger i _
  | FastAPI.DELETE_charger i => Some i
  | _ => None
  end.

(** A row without the columns the database fills in: the id and the three
    timestamps. *)
Definition as_added (c : Charger) : Charger :=
  set_updated_at None (set_created_at None (set_last_used None
    (set_id None c))).

(** Both timestamps that the serializers format are set. *)
Definition dated (c : Charger) : Prop :=
  is_Some (created_at c) ∧ is_Some (updated_at c).

(** A body that carries the three required keys. *)
Definition has_required (data : payload.t) : Prop :=
  contains (payload.location data) = true
  ∧ contains (payload.power data) = true
  ∧ contains (payload.type data) = true.

(** A body that sets one of the [nullable=False] columns to null. *)
Definition nulls_required (lo po ty : field string) : Prop :=
  lo = Present None ∨ po = Present None ∨ ty = Present None.

(** * Proofs *)

Ltac in_list :=
  repeat first [ by (apply elem_of_cons; left) | (apply elem_of_cons; right) ].

Ltac munfold :=
  unfold bind, ret, raise, read_table, write_table, utcnow, tick in *;
  simpl in *.

Section monad.

Context {A B : Type}.

Lemma bind_returns (m : M A) (k : A → M B) w a w' :
  m w = (Returns a, w') → bind m k w = k a w'.
Proof. unfold bind. by intros ->. Qed.

Lemma bind_raises (m : M A) (k : A → M B) w e w' :
  m w = (Raises e, w') → bind m k w = (Raises e, w').
Proof. unfold bind. by intros ->. Qed.

Lemma bind_inv (m : M A) (k : A → M B) w b w' :
  bind m k w = (Returns b, w') →
  ∃ a w1, m w = (Returns a, w1) ∧ k a w1 = (Returns b, w').
Proof.
  unfold bind. destruct (m w) as [[a|e] w1]; [eauto | discriminate].
Qed.

End monad.

Lemma get_found cid w c :
  orm.row cid (chargers w) = Some c → orm.get cid w = (Returns (Some c), w).
Proof.
  intros H. unfold orm.get.
  rewrite (bind_returns read_table _ _ _ _ eq_refl). by rewrite H.
Qed.

(** A lookup that finds no row: nothing for a key of 64 bits, OverflowError
    for any other. *)
Lemma get_missing cid w :
  orm.row cid (chargers w) = None →
  orm.get cid w
  = if decide (orm.int64 cid) then (Returns None, w)
    else (Raises OverflowError, w).
Proof.
  intros H. unfold orm.get.
  rewrite (bind_returns read_table _ _ _ _ eq_refl). rewrite H.
  by destruct (decide _).
Qed.

Lemma get_world cid w : (orm.get cid w).2 = w.
Proof.
  unfold orm.get. rewrite (bind_returns read_table _ _ _ _ eq_refl).
  destruct (orm.row cid (chargers w)); [done|]. by destruct (decide _).
Qed.

Lemma get_or_404_found cid w c :
  orm.row cid (chargers w) = Some c → Flask.get_or_404 cid w = (Returns c, w).
Proof.
  intros H. unfold Flask.get_or_404.
  by rewrite (bind_returns _ _ _ _ _ (get_found cid w c H)).
Qed.

Lemma get_or_404_missing cid w :
  orm.row cid (chargers w) = None →
  Flask.get_or_404 cid w
  = (Raises (if decide (orm.int64 cid) then NotFound else OverflowError), w).
Proof.
  intros H. unfold Flask.get_or_404. unfold bind.
  rewrite (get_missing cid w H). by destruct (decide _).
Qed.

Lemma first_or_404_found cid w c :
  orm.row cid (chargers w) = Some c →
  FastAPI.first_or_404 cid w = (Returns c, w).
Proof.
  intros H. unfold FastAPI.first_or_404.
  by rewrite (bind_returns _ _ _ _ _ (get_found cid w c H)).
Qed.

Lemma first_or_404_missing cid w :
  orm.row cid (chargers w) = None →
  FastAPI.first_or_404 cid w
  = (Raises (if decide (orm.int64 cid)
             then HTTPException 404 "Charger not found"
             else OverflowError), w).
Proof.
  intros H. unfold FastAPI.first_or_404. unfold bind.
  rewrite (get_missing cid w H). by destruct (decide _).
Qed.

Section listing.

Lemma filter_ext_dec (P Q : Charger → Prop)
      `{!∀ c, Decision (P c)} `{!∀ c, Decision (Q c)} (l : list Charger) :
  (∀ c, P c ↔ Q c) → filter P l = filter Q l.
Proof.
  intros HPQ. induction l as [|c l IH]; [done|].
  rewrite !filter_cons, IH.
  destruct (decide (P c)), (decide (Q c)); naive_solver.
Qed.

Lemma fastapi_get_chargers_listing a ty w :
  FastAPI.get_chargers a ty w = listing (filter (matches a ty) (chargers w)) w.
Proof.
  unfold FastAPI.get_chargers, listing, format_charger.
  unfold bind at 1, read_table. simpl.
  replace (filter (matches a ty) (chargers w))
    with (match ty with
          | Some ty0 => filter (λ c, type c = Some ty0)
          | None => λ q, q
          end (match a with
               | Some a0 => filter (λ c, available c = Some a0) (chargers w)
               | None => chargers w
               end)); [by destruct ty|].
  destruct a as [a|], ty as [ty|].
  - rewrite list_filter_filter. apply filter_ext_dec.
    unfold matches. naive_solver.
  - apply filter_ext_dec. unfold matches. naive_solver.
  - apply filter_ext_dec. unfold matches. naive_solver.
  - symmetry. induction (chargers w) as [|c l IH]; [done|].
    rewrite filter_cons, IH.
    destruct (decide (matches None None c)) as [|n]; [done|].
    destruct n. unfold matches. naive_solver.
Qed.

Lemma flask_get_chargers_listing args w :
  Flask.get_chargers args w
  = listing (filter (matches ((λ a, bool_decide (lower a = "true"))
                                <$> args !! "available") None)
                    (chargers w)) w.
Proof.
  unfold Flask.get_chargers, listing, Flask.jsonify.
  unfold bind at 1, read_table. simpl.
  replace (filter (matches ((λ a, bool_decide (lower a = "true"))
                              <$> args !! "available") None) (chargers w))
    with (match args !! "available" with
          | Some a => filter (λ c, available c
                                   = Some (bool_decide (lower a = "true")))
                             (chargers w)
          | None => chargers w
          end); [done|].
  destruct (args !! "available") as [a|]; simpl.
  - apply filter_ext_dec. unfold matches. naive_solver.
  - symmetry. induction (chargers w) as [|c l IH]; [done|].
    rewrite filter_cons, IH.
    destruct (decide (matches None None c)) as [|n]; [done|].
    destruct n. unfold matches. naive_solver.
Qed.

Lemma traverse_to_dict_stamped rows w :
  Forall stamped rows →
  ∃ ds, traverse to_dict rows w = (Returns ds, w) ∧ serialized rows ds.
Proof.
  induction 1 as [|c rows (tc & tu & Hc & Hu & _) Hrows (ds & Hds & Hser)].
  - exists []. split; [done | constructor].
  - assert (∃ d, dict_of c = Some d) as [d Hd]
      by (unfold dict_of; rewrite Hc, Hu; by eexists).
    exists (d :: ds). split; [|by constructor].
    simpl.
    assert (to_dict c w = (Returns d, w)) as Hto
      by (unfold to_dict; by rewrite Hd).
    rewrite (bind_returns _ _ _ _ _ Hto).
    by rewrite (bind_returns _ _ _ _ _ Hds).
Qed.

(** On stamped rows the listing is answered 200 with their dictionaries. *)
Lemma listing_stamped rows w :
  Forall stamped rows →
  ∃ ds, listing rows w = (Returns (mkResponse 200 (JsonList ds)), w)
        ∧ serialized rows ds.
Proof.
  intros H. destruct (traverse_to_dict_stamped rows w H) as (ds & Hds & Hser).
  exists ds. split; [|done]. unfold listing.
  by rewrite (bind_returns _ _ _ _ _ Hds).
Qed.

Lemma Forall_stamped_filter (P : Charger → Prop) `{!∀ c, Decision (P c)} t :
  Forall stamped t → Forall stamped (filter P t).
Proof.
  intros Hall. apply Forall_forall. intros r Hr.
  apply list_elem_of_filter in Hr as [_ Hr].
  by eapply Forall_forall in Hall.
Qed.

End listing.

(** C10.  In the Flask application, an [available] query parameter whose
    lower-cased form is not ["true"] selects exactly the rows whose
    [available] is false: the request is neither rejected nor left
    unfiltered, and on a table of stamped rows it is answered 200 with the
    dictionaries of those rows. *)
Theorem flask_available_other_than_true_selects_false
        (args : gmap string string) (a : string) (w : World) :
  args !! "available" = Some a →
  lower a ≠ "true" →
  let selected := filter (λ c, available c = Some false) (chargers w) in
  Flask.get_chargers args w = listing selected w
  ∧ (Forall stamped (chargers w) →
     ∃ ds, Flask.get_chargers args w
           = (Returns (mkResponse 200 (JsonList ds)), w)
           ∧ serialized selected ds).
Proof.
  intros Ha Hlow selected.
  assert (Flask.get_chargers args w = listing selected w) as Heq.
  { rewrite flask_get_chargers_listing, Ha. simpl.
    rewrite bool_decide_eq_false_2 by done.
    f_equal. apply filter_ext_dec. unfold matches. naive_solver. }
  split; [done|].
  intros Hst. rewrite Heq. apply listing_stamped.
  by apply Forall_stamped_filter.
Qed.

(** The parameter value "banana" on the seeded table. *)
Lemma flask_available_banana :
  Flask.get_chargers {["available" := "banana"]} flask_seeded
  = listing (filter (λ c, available c = Some false) (chargers flask_seeded))
            flask_seeded.
Proof.
  apply (flask_available_other_than_true_selects_false
           {["available" := "banana"]} "banana" flask_seeded).
  - reflexivity.
  - vm_compute. discriminate.
Defined.

Section case_of_letters.





End case_of_letters.

Section validated_list.

Lemma serialized_elem_of rows ds d :
  serialized rows ds → d ∈ ds → ∃ c, c ∈ rows ∧ dict_of c = Some d.
Proof.
  induction 1 as [|c d' rows ds Hc Hser IH]; intros Hd.
  - by apply elem_of_nil in Hd.
  - apply elem_of_cons in Hd as [->|Hd].
    + exists c. split; [apply elem_of_cons; by left | done].
    + destruct (IH Hd) as (c' & Hin & Hc').
      exists c'. split; [apply elem_of_cons; by right | done].
Qed.


End validated_list.






Section creation.

Lemma next_rowid_bound (t : list Charger) (c : Charger) (i : Z) :
  c ∈ t → id c = Some i → i < orm.next_rowid t.
Proof.
  unfold orm.next_rowid. intros Hin Hid.
  induction Hin as [c t|c c' t Hin IH]; simpl.
  - rewrite Hid. simpl. lia.
  - specialize (IH Hid). lia.
Qed.

Lemma next_rowid_fresh (t : list Charger) (c : Charger) :
  c ∈ t → id c ≠ Some (orm.next_rowid t).
Proof.
  intros Hin Hid. pose proof (next_rowid_bound t c _ Hin Hid). lia.
Qed.

(** The INSERT of a transient object, in closed form. *)
Lemma flask_add_commit_new lo av po ty no w :
  let c := mkCharger (Some (orm.next_rowid (chargers w))) lo
                     (Some (default true av)) po ty no
                     (Some (clock w 0%nat)) (Some (clock w 1%nat))
                     (Some (clock w 2%nat)) in
  Flask.add_commit (models.new lo av po ty no) w
  = if orm.not_null c
    then (Returns c,
          mkWorld (chargers w ++ [c]) (clock (tick (tick (tick w)))))
    else (Raises IntegrityError, tick (tick (tick w))).
Proof. destruct av, lo, po, ty; reflexivity. Qed.

Lemma fastapi_add_commit_new lo av po ty no w :
  let c := mkCharger (Some (orm.next_rowid (chargers w))) lo
                     (Some (default true av)) po ty no None
                     (Some (clock w 0%nat)) (Some (clock w 1%nat)) in
  FastAPI.add_commit (models.new lo av po ty no) w
  = if orm.not_null c
    then (Returns c, mkWorld (chargers w ++ [c]) (clock (tick (tick w))))
    else (Raises IntegrityError, tick (tick w)).
Proof. destruct av, lo, po, ty; reflexivity. Qed.

End creation.

(** C4, as the code has it.  A create request with [available] and [notes]
    omitted is answered 201 with a record whose id is new in the table and
    whose [available] is true.  In the FastAPI application [notes] and
    [lastUsed] are null; in the Flask application [notes] is the empty string
    and [lastUsed] is the clock reading of its column default.  The row is
    appended to the table. *)
Theorem create_minimal_body (l p ty : string) (w : World) :
  let fresh := orm.next_rowid (chargers w) in
  let fast_row := mkCharger (Some fresh) (Some l) (Some true) (Some p)
                            (Some ty) None None
                            (Some (clock w 0%nat)) (Some (clock w 1%nat)) in
  let flask_row := mkCharger (Some fresh) (Some l) (Some true) (Some p)
                             (Some ty) (Some "") (Some (clock w 0%nat))
                             (Some (clock w 1%nat)) (Some (clock w 2%nat)) in
  (∀ c, c ∈ chargers w → id c ≠ Some fresh)
  ∧ FastAPI.handle (FastAPI.POST_chargers (minimal_body l p ty)) w
    = (mkResponse 201
         (JsonCharger (dict.mk (Some fresh) (Some l) (Some true) (Some p)
                               (Some ty) None None
                               (clock w 0%nat) (clock w 1%nat))),
       mkWorld (chargers w ++ [fast_row]) (λ n, clock w (S (S n))))
  ∧ Flask.serve (Flask.POST_chargers (minimal_body l p ty)) w
    = (mkResponse 201
         (JsonCharger (dict.mk (Some fresh) (Some l) (Some true) (Some p)
                               (Some ty) (Some "") (Some (clock w 0%nat))
                               (clock w 1%nat) (clock w 2%nat))),
       mkWorld (chargers w ++ [flask_row]) (λ n, clock w (S (S (S n))))).
Proof.
  intros fresh fast_row flask_row. split; [|split].
  - intros c Hc. by apply next_rowid_fresh.
  - reflexivity.
  - reflexivity.
Qed.

(** C4 as stated fails on the Flask application: the record created from
    {location: "Lot A", power: "50kW", type: "CCS"} has [notes] equal to the
    empty string and a non-null [lastUsed]. *)
Lemma flask_create_notes_and_last_used :
  ∃ d,
    (Flask.serve (Flask.POST_chargers (minimal_body "Lot A" "50kW" "CCS"))
                 flask_seeded).1
    = mkResponse 201 (JsonCharger d)
    ∧ dict.notes d = Some ""
    ∧ dict.notes d ≠ None
    ∧ dict.lastUsed d = Some 1018
    ∧ dict.lastUsed d ≠ None.
Proof.
  eexists. split; [vm_compute; reflexivity|].
  repeat split; done.
Qed.

(** C2, as the code has it.  A create request in which [location], [power]
    or [type] is absent creates no row.  The Flask application answers 400
    with {error: "Missing required field: <name>"}, naming the first absent
    key; the FastAPI application rejects the body in schema validation and
    answers 422. *)
Theorem create_without_required_field (data : payload.t) (w : World) :
  payload.location data = Absent ∨ payload.power data = Absent
  ∨ payload.type data = Absent →
  Flask.serve (Flask.POST_chargers data) w
  = (mkResponse 400
       (JsonError ("Missing required field: " +:+ first_missing data)), w)
  ∧ payload.has_key (first_missing data) data = false
  ∧ FastAPI.handle (FastAPI.POST_chargers data) w
    = (mkResponse 422 JsonValidationErrors, w).
Proof.
  destruct data as [lo av po ty no]. simpl.
  intros Hmiss.
  destruct lo as [|[lo|]], po as [|[po|]], ty as [|[ty|]];
    try (exfalso; naive_solver);
    (split; [reflexivity | split; reflexivity]).
Qed.

(** A body without [location] on the seeded table. *)
Lemma create_without_location :
  Flask.serve
    (Flask.POST_chargers
       (payload.mk Absent Absent (Present (Some "50kW")) (Present (Some "CCS"))
                   Absent)) flask_seeded
  = (mkResponse 400 (JsonError "Missing required field: location"),
     flask_seeded)
  ∧ FastAPI.handle
      (FastAPI.POST_chargers
         (payload.mk Absent Absent (Present (Some "50kW"))
                     (Present (Some "CCS")) Absent)) flask_seeded
    = (mkResponse 422 JsonValidationErrors, flask_seeded).
Proof.
  pose proof (create_without_required_field
                (payload.mk Absent Absent (Present (Some "50kW"))
                            (Present (Some "CCS")) Absent)
                flask_seeded (or_introl eq_refl)) as (HF & _ & HA).
  split; [exact HF | exact HA].
Defined.

(** C2 as stated fails for an empty value: the Flask application accepts
    [location] equal to the empty string, answers 201 and inserts the row. *)
Lemma flask_create_accepts_empty_location :
  let data := payload.mk (Present (Some "")) Absent (Present (Some "50kW"))
                         (Present (Some "CCS")) Absent in
  let r := Flask.serve (Flask.POST_chargers data) flask_seeded in
  status r.1 = 201
  ∧ length (chargers flask_seeded) = 6%nat
  ∧ length (chargers r.2) = 7%nat.
Proof. vm_compute. done. Qed.

Section lookup.

Lemma row_Some_id cid t c : orm.row cid t = Some c → id c = Some cid.
Proof.
  unfold orm.row. intros H.
  apply head_Some_elem_of in H.
  by apply list_elem_of_filter in H as [? _].
Qed.

Lemma row_Some_elem_of cid t c : orm.row cid t = Some c → c ∈ t.
Proof.
  unfold orm.row. intros H.
  apply head_Some_elem_of in H.
  by apply list_elem_of_filter in H as [_ ?].
Qed.

Lemma row_None cid t :
  orm.row cid t = None ↔ ∀ c, c ∈ t → id c ≠ Some cid.
Proof.
  unfold orm.row. split.
  - intros H c Hc Hid.
    assert (c ∈ filter (λ c, id c = Some cid) t) as Hin
      by (by apply list_elem_of_filter).
    destruct (filter _ t); [by apply elem_of_nil in Hin | done].
  - intros H.
    destruct (filter _ t) as [|c l] eqn:E; [done|].
    assert (c ∈ filter (λ c, id c = Some cid) t) as Hin
      by (rewrite E; left).
    apply list_elem_of_filter in Hin as [Hid Hin]. by destruct (H c).
Qed.

Lemma row_deleted cid t :
  orm.row cid (filter (λ r, id r ≠ Some cid) t) = None.
Proof.
  apply row_None. intros c Hc.
  by apply list_elem_of_filter in Hc as [? _].
Qed.

End lookup.

Section seeding.

Lemma traverse_returns {A B} (f : A → M B) (l : list A) :
  Forall (λ x, ∀ w, ∃ y w', f x w = (Returns y, w')) l →
  ∀ w, ∃ ys w', traverse f l w = (Returns ys, w').
Proof.
  induction 1 as [|x l Hx Hl IH]; intros w; simpl.
  - by eexists _, _.
  - destruct (Hx w) as (y & w1 & Hy). destruct (IH w1) as (ys & w2 & Hys).
    exists (y :: ys), w2.
    rewrite (bind_returns _ _ _ _ _ Hy).
    by rewrite (bind_returns _ _ _ _ _ Hys).
Qed.

Lemma add_sample_data_nonempty w :
  chargers w ≠ [] → FastAPI.add_sample_data w = (Returns tt, w).
Proof.
  intros Hne. unfold FastAPI.add_sample_data.
  rewrite (bind_returns read_table _ _ _ _ eq_refl).
  destruct (decide (0 < length (chargers w))%nat) as [|Hn]; [done|].
  destruct (chargers w); [done | simpl in Hn; lia].
Qed.

Lemma add_sample_data_returns w :
  ∃ w', FastAPI.add_sample_data w = (Returns tt, w').
Proof.
  unfold FastAPI.add_sample_data.
  rewrite (bind_returns read_table _ _ _ _ eq_refl).
  destruct (decide _); [by eexists|].
  destruct (traverse_returns FastAPI.add_commit sample_chargers)
    with (w := w) as (cs & w' & Hcs).
  { unfold sample_chargers.
    repeat (apply Forall_cons; split;
            [intros w0; rewrite fastapi_add_commit_new; by eexists _, _|]).
    apply Forall_nil_2. }
  exists w'. by rewrite (bind_returns _ _ _ _ _ Hcs).
Qed.

(** A FastAPI request is served by its handler on the table the middleware
    leaves, which is the table itself unless it was empty. *)
Lemma fastapi_serve_handle r w :
  FastAPI.serve r w = FastAPI.handle r (FastAPI.add_sample_data w).2.
Proof.
  unfold FastAPI.serve, FastAPI.handle, FastAPI.respond,
    FastAPI.initialize_db.
  destruct (add_sample_data_returns w) as (w' & Hw').
  by rewrite (bind_returns _ _ _ _ _ Hw'), Hw'.
Qed.

Lemma fastapi_serve_nonempty r w :
  chargers w ≠ [] → FastAPI.serve r w = FastAPI.handle r w.
Proof.
  intros Hne. rewrite fastapi_serve_handle.
  by rewrite add_sample_data_nonempty.
Qed.

End seeding.

Section missing_rows.

Lemma flask_get_missing cid w :
  orm.row cid (chargers w) = None →
  Flask.get_charger cid w
  = (Raises (if decide (orm.int64 cid) then NotFound else OverflowError), w).
Proof.
  intros H. unfold Flask.get_charger.
  by rewrite (bind_raises _ _ _ _ _ (get_or_404_missing _ _ H)).
Qed.

Lemma flask_delete_missing cid w :
  orm.row cid (chargers w) = None →
  Flask.delete_charger cid w
  = (Raises (if decide (orm.int64 cid) then NotFound else OverflowError), w).
Proof.
  intros H. unfold Flask.delete_charger.
  by rewrite (bind_raises _ _ _ _ _ (get_or_404_missing _ _ H)).
Qed.

Lemma flask_update_missing cid data w :
  orm.row cid (chargers w) = None →
  Flask.update_charger cid data w
  = (Raises (if decide (orm.int64 cid) then NotFound else OverflowError), w).
Proof.
  intros Hrow. unfold Flask.update_charger.
  by rewrite (bind_raises _ _ _ _ _ (get_or_404_missing _ _ Hrow)).
Qed.

Lemma fastapi_get_missing cid w :
  orm.row cid (chargers w) = None →
  FastAPI.get_charger cid w
  = (Raises (if decide (orm.int64 cid)
             then HTTPException 404 "Charger not found"
             else OverflowError), w).
Proof.
  intros H. unfold FastAPI.get_charger.
  by rewrite (bind_raises _ _ _ _ _ (first_or_404_missing _ _ H)).
Qed.

Lemma fastapi_delete_missing cid w :
  orm.row cid (chargers w) = None →
  FastAPI.delete_charger cid w
  = (Raises (if decide (orm.int64 cid)
             then HTTPException 404 "Charger not found"
             else OverflowError), w).
Proof.
  intros H. unfold FastAPI.delete_charger.
  by rewrite (bind_raises _ _ _ _ _ (first_or_404_missing _ _ H)).
Qed.

Lemma fastapi_update_missing cid u w :
  orm.row cid (chargers w) = None →
  FastAPI.update_charger cid u w
  = (Raises (if decide (orm.int64 cid)
             then HTTPException 404 "Charger not found"
             else OverflowError), w).
Proof.
  intros Hrow. unfold FastAPI.update_charger.
  by rewrite (bind_raises _ _ _ _ _ (first_or_404_missing _ _ Hrow)).
Qed.

Lemma partial_update_is_update cid u :
  FastAPI.partial_update_charger cid u = FastAPI.update_charger cid u.
Proof. reflexivity. Qed.

(** What the two applications answer for an id that no row has. *)
Lemma flask_serve_missing cid data w r :
  orm.row cid (chargers w) = None →
  r ∈ [Flask.GET_charger cid; Flask.PUT_charger cid data;
       Flask.PATCH_charger cid data; Flask.DELETE_charger cid] →
  Flask.serve r w
  = (if decide (orm.int64 cid) then Flask.not_found_error
     else Flask.internal_error, w).
Proof.
  intros Hnone Hr. unfold Flask.serve, Flask.respond.
  repeat (apply elem_of_cons in Hr as [->|Hr]);
    [| | | | by apply elem_of_nil in Hr]; cbn [Flask.route].
  - rewrite (flask_get_missing _ _ Hnone). by destruct (decide _).
  - rewrite (flask_update_missing _ _ _ Hnone). by destruct (decide _).
  - rewrite (flask_update_missing _ _ _ Hnone). by destruct (decide _).
  - rewrite (flask_delete_missing _ _ Hnone). by destruct (decide _).
Qed.

Lemma fastapi_handle_missing cid u w r :
  orm.row cid (chargers w) = None →
  r ∈ [FastAPI.GET_charger cid; FastAPI.PUT_charger cid u;
       FastAPI.PATCH_charger cid u; FastAPI.DELETE_charger cid] →
  FastAPI.handle r w
  = (if decide (orm.int64 cid)
     then mkResponse 404 (JsonDetail "Charger not found")
     else mkResponse 500 (PlainText "Internal Server Error"), w).
Proof.
  intros Hnone Hr. unfold FastAPI.handle, FastAPI.respond.
  repeat (apply elem_of_cons in Hr as [->|Hr]);
    [| | | | by apply elem_of_nil in Hr]; cbn [FastAPI.route].
  - rewrite (fastapi_get_missing _ _ Hnone). by destruct (decide _).
  - rewrite (fastapi_update_missing _ _ _ Hnone). by destruct (decide _).
  - rewrite partial_update_is_update.
    rewrite (fastapi_update_missing _ _ _ Hnone). by destruct (decide _).
  - rewrite (fastapi_delete_missing _ _ Hnone). by destruct (decide _).
Qed.

End missing_rows.

Section answers.

(** A charger that the FastAPI application answers was returned by the
    handler and has passed the [response_model]. *)
Lemma fastapi_respond_charger (h : M Response) w s d w' :
  FastAPI.respond h w = (mkResponse s (JsonCharger d), w') →
  h w = (Returns (mkResponse s (JsonCharger d)), w')
  ∧ ChargerResponse.validate d = true.
Proof.
  unfold FastAPI.respond.
  destruct (h w) as [[r|e] w1]; [|by destruct e].
  destruct (FastAPI.response_model (content r)) eqn:Hv; [|discriminate].
  intros [= -> ->]. by split.
Qed.

Lemma fastapi_get_row i c d w :
  orm.row i (chargers w) = Some c → dict_of c = Some d →
  ChargerResponse.validate d = true →
  FastAPI.handle (FastAPI.GET_charger i) w
  = (mkResponse 200 (JsonCharger d), w).
Proof.
  intros Hrow Hd Hv. unfold FastAPI.handle, FastAPI.respond.
  cbn [FastAPI.route]. unfold FastAPI.get_charger.
  rewrite (bind_returns _ _ _ _ _ (first_or_404_found _ _ _ Hrow)).
  unfold format_charger, to_dict. rewrite Hd.
  unfold bind, ret. cbn [content FastAPI.response_model]. by rewrite Hv.
Qed.

End answers.

(** C9, as the code has it.  The id of a request is bound as a parameter of
    the lookup, which SQLite takes in 64 bits.  When the table has no record
    with the id, get, update and delete answer 404 (NotFound) for an id of
    64 bits and 500 (OverflowError) for a larger one, and change nothing.  A
    delete of an existing record answers 200 and removes the row for good: no
    row with that id remains.  A get by the same id is then answered 404 by
    the Flask application, and by the FastAPI application when the delete
    did not empty the table (its middleware seeds an empty table before the
    handler runs). *)
Theorem missing_id_not_found_and_delete_is_hard
        (cid : Z) (data : payload.t) (u : ChargerUpdate.t) (w : World) :
  (orm.row cid (chargers w) = None → orm.int64 cid →
     Flask.serve (Flask.GET_charger cid) w = (Flask.not_found_error, w)
     ∧ Flask.serve (Flask.PUT_charger cid data) w = (Flask.not_found_error, w)
     ∧ Flask.serve (Flask.PATCH_charger cid data) w
       = (Flask.not_found_error, w)
     ∧ Flask.serve (Flask.DELETE_charger cid) w = (Flask.not_found_error, w)
     ∧ FastAPI.handle (FastAPI.GET_charger cid) w
       = (mkResponse 404 (JsonDetail "Charger not found"), w)
     ∧ FastAPI.handle (FastAPI.PUT_charger cid u) w
       = (mkResponse 404 (JsonDetail "Charger not found"), w)
     ∧ FastAPI.handle (FastAPI.PATCH_charger cid u) w
       = (mkResponse 404 (JsonDetail "Charger not found"), w)
     ∧ FastAPI.handle (FastAPI.DELETE_charger cid) w
       = (mkResponse 404 (JsonDetail "Charger not found"), w))
  ∧ (orm.row cid (chargers w) = None → 2 ^ 63 ≤ cid →
     Flask.serve (Flask.GET_charger cid) w = (Flask.internal_error, w)
     ∧ Flask.serve (Flask.PUT_charger cid data) w = (Flask.internal_error, w)
     ∧ Flask.serve (Flask.PATCH_charger cid data) w
       = (Flask.internal_error, w)
     ∧ Flask.serve (Flask.DELETE_charger cid) w = (Flask.internal_error, w))
  ∧ (orm.row cid (chargers w) = None → ¬ orm.int64 cid →
     FastAPI.handle (FastAPI.GET_charger cid) w
     = (mkResponse 500 (PlainText "Internal Server Error"), w)
     ∧ FastAPI.handle (FastAPI.PUT_charger cid u) w
       = (mkResponse 500 (PlainText "Internal Server Error"), w)
     ∧ FastAPI.handle (FastAPI.PATCH_charger cid u) w
       = (mkResponse 500 (PlainText "Internal Server Error"), w)
     ∧ FastAPI.handle (FastAPI.DELETE_charger cid) w
       = (mkResponse 500 (PlainText "Internal Server Error"), w))
  ∧ (is_Some (orm.row cid (chargers w)) →
     let w' := mkWorld (filter (λ r, id r ≠ Some cid) (chargers w))
                       (clock w) in
     Flask.serve (Flask.DELETE_charger cid) w
     = (mkResponse 200 (JsonMessage "Charger deleted successfully"), w')
     ∧ FastAPI.serve (FastAPI.DELETE_charger cid) w
       = (mkResponse 200 (JsonMessage "Charger deleted successfully"), w')
     ∧ (∀ r, r ∈ chargers w' → id r ≠ Some cid)
     ∧ (orm.int64 cid →
        Flask.serve (Flask.GET_charger cid) w' = (Flask.not_found_error, w')
        ∧ FastAPI.handle (FastAPI.GET_charger cid) w'
          = (mkResponse 404 (JsonDetail "Charger not found"), w')
        ∧ (chargers w' ≠ [] →
           FastAPI.serve (FastAPI.GET_charger cid) w'
           = (mkResponse 404 (JsonDetail "Charger not found"), w')))).
Proof.
  assert (∀ w r, orm.row cid (chargers w) = None → orm.int64 cid →
            r ∈ [Flask.GET_charger cid; Flask.PUT_charger cid data;
                 Flask.PATCH_charger cid data; Flask.DELETE_charger cid] →
            Flask.serve r w = (Flask.not_found_error, w)) as HF.
  { intros w0 r Hnone Hin Hr.
    rewrite (flask_serve_missing cid data w0 r Hnone Hr).
    by rewrite decide_True. }
  assert (∀ w r, orm.row cid (chargers w) = None → orm.int64 cid →
            r ∈ [FastAPI.GET_charger cid; FastAPI.PUT_charger cid u;
                 FastAPI.PATCH_charger cid u; FastAPI.DELETE_charger cid] →
            FastAPI.handle r w
            = (mkResponse 404 (JsonDetail "Charger not found"), w)) as HA.
  { intros w0 r Hnone Hin Hr.
    rewrite (fastapi_handle_missing cid u w0 r Hnone Hr).
    by rewrite decide_True. }
  split; [|split; [|split]].
  - intros Hnone Hin.
    repeat split; first [apply HF | apply HA]; try done;
      in_list.
  - intros Hnone Hbig.
    assert (¬ orm.int64 cid) as Hout by (unfold orm.int64; lia).
    repeat split;
      (rewrite (flask_serve_missing cid data w _ Hnone);
       [by rewrite decide_False|]);
      in_list.
  - intros Hnone Hout.
    repeat split;
      (rewrite (fastapi_handle_missing cid u w _ Hnone);
       [by rewrite decide_False|]);
      in_list.
  - intros [c Hc] w'.
    pose proof (row_Some_id _ _ _ Hc) as Hid.
    pose proof (row_deleted cid (chargers w)) as Hdel.
    assert (∀ r, r ∈ chargers w' → id r ≠ Some cid) as Hgone
      by (by apply row_None).
    assert (chargers w ≠ []) as Hne.
    { intros He. apply row_Some_elem_of in Hc. rewrite He in Hc.
      by apply elem_of_nil in Hc. }
    rewrite (fastapi_serve_nonempty _ w Hne).
    split; [|split; [|split; [done|]]].
    + unfold Flask.serve, Flask.respond. cbn [Flask.route].
      unfold Flask.delete_charger.
      rewrite (bind_returns _ _ _ _ _ (get_or_404_found _ _ _ Hc)).
      unfold orm.DELETE. munfold. by rewrite Hid.
    + unfold FastAPI.handle, FastAPI.respond. cbn [FastAPI.route].
      unfold FastAPI.delete_charger.
      rewrite (bind_returns _ _ _ _ _ (first_or_404_found _ _ _ Hc)).
      unfold orm.DELETE. munfold. by rewrite Hid.
    + intros Hin.
      assert (FastAPI.handle (FastAPI.GET_charger cid) w'
              = (mkResponse 404 (JsonDetail "Charger not found"), w'))
        as Hget by (apply HA; [done | done | in_list]).
      split; [apply HF; [done | done | in_list]|].
      split; [done|].
      intros Hne'. by rewrite (fastapi_serve_nonempty _ w' Hne').
Qed.

(** Charger 99 does not exist in the seeded table; charger 1 does and is
    deleted. *)
Lemma delete_then_get_seeded :
  Flask.serve (Flask.GET_charger 99) flask_seeded
  = (Flask.not_found_error, flask_seeded)
  ∧ FastAPI.handle (FastAPI.DELETE_charger (2 ^ 63)) fastapi_seeded
    = (mkResponse 500 (PlainText "Internal Server Error"), fastapi_seeded)
  ∧ Flask.serve (Flask.DELETE_charger 1) flask_seeded
    = (mkResponse 200 (JsonMessage "Charger deleted successfully"),
       mkWorld (filter (λ r, id r ≠ Some 1) (chargers flask_seeded))
               (clock flask_seeded))
  ∧ Flask.serve (Flask.GET_charger 1)
      (mkWorld (filter (λ r, id r ≠ Some 1) (chargers flask_seeded))
               (clock flask_seeded))
    = (Flask.not_found_error,
       mkWorld (filter (λ r, id r ≠ Some 1) (chargers flask_seeded))
               (clock flask_seeded)).
Proof.
  assert (orm.row 99 (chargers flask_seeded) = None) as Hnone
    by (vm_compute; reflexivity).
  assert (orm.row (2 ^ 63) (chargers fastapi_seeded) = None) as Hbig
    by (vm_compute; reflexivity).
  assert (is_Some (orm.row 1 (chargers flask_seeded))) as Hsome
    by (vm_compute; eauto).
  assert (orm.int64 99) as H99 by (unfold orm.int64; lia).
  assert (orm.int64 1) as H1 by (unfold orm.int64; lia).
  assert (¬ orm.int64 (2 ^ 63)) as Hout by (unfold orm.int64; lia).
  pose proof (missing_id_not_found_and_delete_is_hard
                99 payload.empty
                (ChargerUpdate.mk Absent Absent Absent Absent Absent)
                flask_seeded) as [Ha _].
  pose proof (missing_id_not_found_and_delete_is_hard
                (2 ^ 63) payload.empty
                (ChargerUpdate.mk Absent Absent Absent Absent Absent)
                fastapi_seeded) as (_ & _ & Hb & _).
  pose proof (missing_id_not_found_and_delete_is_hard
                1 payload.empty
                (ChargerUpdate.mk Absent Absent Absent Absent Absent)
                flask_seeded) as (_ & _ & _ & Hc).
  specialize (Ha Hnone H99). specialize (Hb Hbig Hout).
  specialize (Hc Hsome). cbv zeta in Hc.
  destruct Ha as [Ha _]. destruct Hb as (_ & _ & _ & Hb).
  destruct Hc as (Hc & _ & _ & Hd). destruct (Hd H1) as [Hd' _].
  split; [exact Ha|]. split; [exact Hb|]. split; [exact Hc | exact Hd'].
Defined.

(** C9 as stated fails for an id that does not fit 64 bits: no charger of
    the seeded table has the id 2^63, and GET, PUT and DELETE
    /chargers/9223372036854775808 are answered 500, not 404, by both
    applications. *)
Lemma missing_id_beyond_int64_is_answered_500 :
  orm.row (2 ^ 63) (chargers flask_seeded) = None
  ∧ orm.row (2 ^ 63) (chargers fastapi_seeded) = None
  ∧ Flask.serve (Flask.GET_charger (2 ^ 63)) flask_seeded
    = (mkResponse 500 (JsonError "Internal server error"), flask_seeded)
  ∧ Flask.serve (Flask.PUT_charger (2 ^ 63) payload.empty) flask_seeded
    = (mkResponse 500 (JsonError "Internal server error"), flask_seeded)
  ∧ Flask.serve (Flask.DELETE_charger (2 ^ 63)) flask_seeded
    = (mkResponse 500 (JsonError "Internal server error"), flask_seeded)
  ∧ FastAPI.serve (FastAPI.GET_charger (2 ^ 63)) fastapi_seeded
    = (mkResponse 500 (PlainText "Internal Server Error"), fastapi_seeded)
  ∧ FastAPI.serve (FastAPI.DELETE_charger (2 ^ 63)) fastapi_seeded
    = (mkResponse 500 (PlainText "Internal Server Error"), fastapi_seeded).
Proof. vm_compute. repeat split; reflexivity. Qed.

(** The FastAPI application when a delete empties the table: with
    charger 1 the only row left, DELETE /chargers/1 is answered
    200, and the GET /chargers/1 that follows is answered 200 as well, with
    the sample charger that the middleware has inserted again under id 1. *)
Lemma fastapi_get_after_delete_of_last_row :
  let w := fastapi_run [FastAPI.DELETE_charger 2; FastAPI.DELETE_charger 3;
                        FastAPI.DELETE_charger 4; FastAPI.DELETE_charger 5;
                        FastAPI.DELETE_charger 6] (mkWorld [] ticking) in
  let r1 := FastAPI.serve (FastAPI.DELETE_charger 1) w in
  let r2 := FastAPI.serve (FastAPI.GET_charger 1) r1.2 in
  id <$> chargers w = [Some 1]
  ∧ r1.1 = mkResponse 200 (JsonMessage "Charger deleted successfully")
  ∧ chargers r1.2 = []
  ∧ status r2.1 = 200
  ∧ r2.1 ≠ mkResponse 404 (JsonDetail "Charger not found").
Proof. vm_compute. repeat split; done. Qed.

Section stats.

Implicit Types (t : list Charger) (ty : option string).

Lemma collect_types_foldl (l : list (option string * Z))
      (m : gmap (option string) Z) :
  NoDup l.*1 →
  foldl (λ m p, <[p.1 := p.2]> m) m l = list_to_map l ∪ m.
Proof.
  revert m. induction l as [|[k v] l IH]; intros m Hnd; simpl.
  - by rewrite (left_id_L ∅ (∪)).
  - apply NoDup_cons in Hnd as [Hk Hnd].
    rewrite IH by done.
    rewrite <-insert_union_l.
    apply symmetry, insert_union_r.
    by apply not_elem_of_list_to_map_1.
Qed.

Lemma collect_types_list_to_map (l : list (option string * Z)) :
  NoDup l.*1 → collect_types l = list_to_map l.
Proof.
  intros Hnd. unfold collect_types.
  rewrite collect_types_foldl by done. by rewrite (right_id_L ∅ (∪)).
Qed.

Lemma lookup_tabulate (h : option string → Z) (ks : list (option string)) ty :
  (list_to_map ((λ k, (k, h k)) <$> ks) : gmap (option string) Z) !! ty
  = if decide (ty ∈ ks) then Some (h ty) else None.
Proof.
  induction ks as [|k ks IH].
  - rewrite fmap_nil, list_to_map_nil, lookup_empty.
    destruct (decide (ty ∈ [])) as [Hin|]; [|done].
    by apply elem_of_nil in Hin.
  - rewrite fmap_cons, list_to_map_cons, lookup_insert, IH.
    destruct (decide (k = ty)) as [->|Hne],
             (decide (ty ∈ ks)) as [Hin|Hin],
             (decide (ty ∈ _ :: ks)) as [Hin'|Hin'];
      try done.
    + destruct Hin'. left.
    + destruct Hin'. left.
    + destruct Hin'. by right.
    + apply elem_of_cons in Hin' as [->|?]; done.
Qed.

Lemma fst_tabulate (h : option string → Z) (ks : list (option string)) :
  ((λ k, (k, h k)) <$> ks).*1 = ks.
Proof. induction ks; simpl; by f_equal. Qed.

Lemma sum_values_list_to_map (l : list (option string * Z)) :
  NoDup l.*1 → sum_values (list_to_map l) = foldr Z.add 0 l.*2.
Proof.
  intros Hnd. unfold sum_values.
  apply (foldr_permutation_proper' (=) Z.add 0).
  by rewrite map_to_list_to_map.
Qed.

Lemma sum_indicator_absent (ks : list (option string)) ty :
  ty ∉ ks →
  foldr Z.add 0 ((λ k, if decide (ty = k) then 1 else 0) <$> ks) = 0.
Proof.
  induction ks as [|k ks IH]; intros Hk; [done|].
  apply not_elem_of_cons in Hk as [Hne Hk].
  rewrite fmap_cons. cbn [foldr].
  rewrite IH by done. by rewrite decide_False.
Qed.

(** Each row falls in the group of exactly one of the distinct keys. *)
Lemma sum_indicator (ks : list (option string)) ty :
  NoDup ks → ty ∈ ks →
  foldr Z.add 0 ((λ k, if decide (ty = k) then 1 else 0) <$> ks) = 1.
Proof.
  induction 1 as [|k ks Hk Hnd IH]; intros Hin.
  - by apply elem_of_nil in Hin.
  - rewrite fmap_cons. cbn [foldr].
    destruct (decide (ty = k)) as [->|Hne].
    + by rewrite sum_indicator_absent.
    + apply elem_of_cons in Hin as [?|Hin]; [done|]. by rewrite IH.
Qed.

Lemma sum_group_counts (ks : list (option string)) t :
  NoDup ks → (∀ c, c ∈ t → type c ∈ ks) →
  foldr Z.add 0 ((λ k, count_type k t) <$> ks) = Z.of_nat (length t).
Proof.
  intros Hnd. induction t as [|c t IH]; intros Hks.
  - clear Hks Hnd.
    induction ks as [|k ks IH]; [done|].
    rewrite fmap_cons. cbn [foldr]. by rewrite IH.
  - assert (foldr Z.add 0 ((λ k, count_type k (c :: t)) <$> ks)
            = foldr Z.add 0 ((λ k, count_type k t) <$> ks)
              + foldr Z.add 0
                  ((λ k, if decide (type c = k) then 1 else 0) <$> ks))
      as ->.
    { clear. induction ks as [|k ks IH]; [done|].
      rewrite !fmap_cons. cbn [foldr]. rewrite IH.
      unfold count_type. rewrite filter_cons.
      destruct (decide (type c = k)); simpl length; lia. }
    rewrite IH by (intros; apply Hks; by right).
    rewrite sum_indicator; [simpl; lia | done | apply Hks; left].
Qed.

Lemma group_by_type_counts t :
  Forall (λ c, is_Some (id c)) t →
  group_by_type t
  = (λ ty, (ty, count_type ty t)) <$> remove_dups (type <$> t).
Proof.
  intros Hid. unfold group_by_type, count_type.
  apply list_fmap_ext. intros _ ty _. do 3 f_equal.
  induction Hid as [|c t Hc Hid IH]; [done|].
  rewrite !filter_cons, IH.
  destruct (decide (type c = ty ∧ is_Some (id c))),
           (decide (type c = ty)); naive_solver.
Qed.

(** The statistics of the Flask application. *)
Lemma flask_stats (w : World) :
  Forall (λ c, is_Some (id c)) (chargers w) →
  ∃ s,
    Flask.get_charger_stats w = (Returns (mkResponse 200 (JsonStats s)), w)
    ∧ totalChargers s = Z.of_nat (length (chargers w))
    ∧ availableChargers s
      = Z.of_nat (length (filter (λ c, available c = Some true)
                                 (chargers w)))
    ∧ unavailableChargers s = totalChargers s - availableChargers s
    ∧ totalChargers s = availableChargers s + unavailableChargers s
    ∧ (∀ ty, chargerTypes s !! ty
             = if decide (ty ∈ type <$> chargers w)
               then Some (count_type ty (chargers w)) else None)
    ∧ sum_values (chargerTypes s) = totalChargers s.
Proof.
  intros Hid. eexists. split; [by destruct w|]. simpl.
  rewrite group_by_type_counts by done.
  pose proof (NoDup_remove_dups (type <$> chargers w)) as Hnd.
  rewrite collect_types_list_to_map by (by rewrite fst_tabulate).
  repeat split; [lia| |].
  - intros ty. rewrite lookup_tabulate.
    destruct (decide (ty ∈ remove_dups (type <$> chargers w))) as [Hin|Hin];
      rewrite elem_of_remove_dups in Hin.
    + by rewrite decide_True.
    + by rewrite decide_False.
  - rewrite sum_values_list_to_map by (by rewrite fst_tabulate).
    rewrite <-list_fmap_compose.
    apply sum_group_counts; [done|].
    intros c Hc. apply elem_of_remove_dups. by apply list_elem_of_fmap_2.
Qed.

End stats.

(** C7 on the FastAPI application: the statistics handler looks up [func]
    on the session, which raises, so every request for the summary is
    answered 500 and no statistics are produced.  (The Flask handler computes
    them: [flask_stats].) *)
Theorem fastapi_stats_raises (w : World) :
  FastAPI.get_charger_stats w = (Raises AttributeError, w)
  ∧ FastAPI.handle FastAPI.GET_stats_summary w
    = (mkResponse 500 (PlainText "Internal Server Error"), w).
Proof. split; by destruct w. Qed.

Section update.

Lemma row_replaced cid t c c' :
  orm.row cid t = Some c → id c' = Some cid →
  orm.row cid (replaced c' t) = Some c'.
Proof.
  unfold orm.row, replaced. intros Hrow Hid.
  induction t as [|r t IH]; [done|].
  rewrite fmap_cons.
  destruct (decide (id r = id c')) as [Hr|Hr].
  - by rewrite filter_cons_True.
  - assert (id r ≠ Some cid) as Hne by congruence.
    rewrite filter_cons_False by done.
    rewrite filter_cons_False in Hrow by done. by apply IH.
Qed.


(** The flush, case by case. *)
Lemma flush_dirty_unfold loaded obj w :
  orm.flush_dirty loaded obj w
  = if decide (obj = loaded) then (Returns obj, w)
    else
      let stamp := bool_decide (updated_at obj = updated_at loaded) in
      let obj' := if stamp then set_updated_at (Some (clock w 0%nat)) obj
                  else obj in
      let w1 := if stamp then tick w else w in
      if orm.sets_null (location loaded) (location obj')
         || orm.sets_null (power loaded) (power obj')
         || orm.sets_null (type loaded) (type obj')
      then (Raises IntegrityError, w1)
      else (Returns obj', mkWorld (replaced obj' (chargers w)) (clock w1)).
Proof.
  unfold orm.flush_dirty.
  destruct (decide (obj = loaded)); [done|].
  unfold bind at 1.
  destruct (decide (updated_at obj = updated_at loaded)) as [He|He].
  - rewrite bool_decide_eq_true_2 by done. cbn zeta.
    unfold bind at 1, utcnow, ret.
    destruct (_ || _); [done|].
    by destruct w.
  - rewrite bool_decide_eq_false_2 by done. cbn zeta. unfold ret.
    destruct (_ || _); [done|].
    by destruct w.
Qed.

(** The assignments of the Flask handler, in closed form. *)
Lemma assign_fields_unfold data c w :
  let hit := bool_decide (payload.available data = Present (Some false)) in
  Flask.assign_fields data c w
  = (Returns
       (mkCharger (id c)
          (get_default (payload.location data) (location c))
          (get_default (payload.available data) (available c))
          (get_default (payload.power data) (power c))
          (get_default (payload.type data) (type c))
          (get_default (payload.notes data) (notes c))
          (if hit then Some (clock w 0%nat) else last_used c)
          (created_at c) (updated_at c)),
     if hit then tick w else w).
Proof.
  destruct data as [lo av po ty no], c. simpl.
  unfold Flask.assign_fields. simpl.
  destruct av as [|[[|]|]], lo, po, ty, no; reflexivity.
Qed.

(** The assignments of the FastAPI handler, in closed form. *)
Lemma setattrs_unfold u c :
  FastAPI.setattrs u c
  = mkCharger (id c)
      (get_default (ChargerUpdate.location u) (location c))
      (get_default (ChargerUpdate.available u) (available c))
      (get_default (ChargerUpdate.power u) (power c))
      (get_default (ChargerUpdate.type u) (type c))
      (get_default (ChargerUpdate.notes u) (notes c))
      (last_used c) (created_at c) (updated_at c).
Proof.
  destruct u as [lo av po ty no], c. unfold FastAPI.setattrs. simpl.
  destruct av, lo, po, ty, no; reflexivity.
Qed.


End update.

Section update_handlers.

(** The Flask update handler on an existing record, in closed form. *)
Lemma flask_update_unfold cid data w c :
  orm.row cid (chargers w) = Some c →
  let hit := bool_decide (payload.available data = Present (Some false)) in
  let obj :=
    mkCharger (id c)
      (get_default (payload.location data) (location c))
      (get_default (payload.available data) (available c))
      (get_default (payload.power data) (power c))
      (get_default (payload.type data) (type c))
      (get_default (payload.notes data) (notes c))
      (if hit then Some (clock w 0%nat) else last_used c)
      (created_at c) (updated_at c) in
  Flask.update_charger cid data w
  = (c' <- orm.flush_dirty c obj ;;
     d <- to_dict c' ;;
     ret (mkResponse 200 (JsonCharger d))) (if hit then tick w else w).
Proof.
  intros Hrow hit obj.
  unfold Flask.update_charger.
  rewrite (bind_returns _ _ _ _ _ (get_or_404_found _ _ _ Hrow)).
  by rewrite (bind_returns _ _ _ _ _ (assign_fields_unfold data c w)).
Qed.

(** The FastAPI update handler on an existing record, in closed form. *)
Lemma fastapi_update_unfold cid u w c :
  orm.row cid (chargers w) = Some c →
  let hit := bool_decide (ChargerUpdate.available u = Present (Some false)
                          ∧ available c = Some true) in
  let w1 := if hit then tick w else w in
  let obj :=
    mkCharger (id c)
      (get_default (ChargerUpdate.location u) (location c))
      (get_default (ChargerUpdate.available u) (available c))
      (get_default (ChargerUpdate.power u) (power c))
      (get_default (ChargerUpdate.type u) (type c))
      (get_default (ChargerUpdate.notes u) (notes c))
      (if hit then Some (clock w 0%nat) else last_used c)
      (created_at c) (Some (clock w1 0%nat)) in
  FastAPI.update_charger cid u w
  = (c' <- orm.flush_dirty c obj ;;
     d <- format_charger c' ;;
     ret (mkResponse 200 (JsonCharger d))) (tick w1).
Proof.
  intros Hrow hit w1 obj.
  unfold FastAPI.update_charger.
  rewrite (bind_returns _ _ _ _ _ (first_or_404_found _ _ _ Hrow)).
  cbn zeta. subst obj w1 hit.
  destruct (decide (ChargerUpdate.available u = Present (Some false)
                    ∧ available c = Some true)) as [Hh|Hh].
  - rewrite bool_decide_eq_true_2 by done.
    unfold bind at 1. unfold bind at 1. unfold utcnow at 1, ret at 1.
    unfold bind at 1. unfold utcnow at 1.
    rewrite setattrs_unfold. by destruct c.
  - rewrite bool_decide_eq_false_2 by done.
    unfold bind at 1. unfold ret at 1.
    unfold bind at 1. unfold utcnow at 1.
    rewrite setattrs_unfold. by destruct c.
Qed.

End update_handlers.

Section commit.

(** What a successful commit of an update leaves: the committed row is the
    assigned object, except for [updated_at] when [onupdate] stamped it. *)
Lemma commit_returns (c obj : Charger) (w0 w' : World) (resp : Response) :
  (c' <- orm.flush_dirty c obj ;;
   d <- to_dict c' ;;
   ret (mkResponse 200 (JsonCharger d))) w0 = (Returns resp, w') →
  ∃ c' d,
    resp = mkResponse 200 (JsonCharger d)
    ∧ dict_of c' = Some d
    ∧ ((obj = c ∧ c' = obj ∧ w' = w0)
       ∨ (obj ≠ c ∧ updated_at obj = updated_at c
          ∧ c' = set_updated_at (Some (clock w0 0%nat)) obj
          ∧ w' = mkWorld (replaced c' (chargers w0)) (clock (tick w0)))
       ∨ (obj ≠ c ∧ updated_at obj ≠ updated_at c
          ∧ c' = obj
          ∧ w' = mkWorld (replaced c' (chargers w0)) (clock w0))).
Proof.
  intros H.
  apply bind_inv in H as (c' & w1 & Hflush & H).
  apply bind_inv in H as (d & w2 & Hdict & H).
  unfold ret in H. injection H as <- <-.
  unfold to_dict in Hdict.
  destruct (dict_of c') as [d'|] eqn:Hd; [|discriminate].
  unfold ret in Hdict. injection Hdict as -> ->.
  exists c', d. split; [done|]. split; [done|].
  rewrite flush_dirty_unfold in Hflush.
  destruct (decide (obj = c)) as [->|Hne].
  { injection Hflush as <- <-. by left. }
  right. cbn zeta in Hflush.
  destruct (decide (updated_at obj = updated_at c)) as [He|He].
  - rewrite bool_decide_eq_true_2 in Hflush by done.
    destruct (_ || _); [discriminate|].
    injection Hflush as <- <-. by left.
  - rewrite bool_decide_eq_false_2 in Hflush by done.
    destruct (_ || _); [discriminate|].
    injection Hflush as <- <-. by right.
Qed.


End commit.

Section keys_of_update.



End keys_of_update.

Section timestamps_of_update.

(** The row a successful update commits, and where its [updated_at]
    comes from. *)
Lemma commit_row (cid : Z) (c obj : Charger) (w0 w' : World)
      (resp : Response) :
  orm.row cid (chargers w0) = Some c →
  id obj = id c →
  (c' <- orm.flush_dirty c obj ;;
   d <- to_dict c' ;;
   ret (mkResponse 200 (JsonCharger d))) w0 = (Returns resp, w') →
  ∃ c' d,
    resp = mkResponse 200 (JsonCharger d)
    ∧ dict_of c' = Some d
    ∧ orm.row cid (chargers w') = Some c'
    ∧ c' = set_updated_at (updated_at c') obj
    ∧ ((obj = c ∧ c' = c ∧ w' = w0)
       ∨ (obj ≠ c ∧ updated_at obj = updated_at c
          ∧ updated_at c' = Some (clock w0 0%nat))
       ∨ (obj ≠ c ∧ updated_at obj ≠ updated_at c
          ∧ updated_at c' = updated_at obj)).
Proof.
  intros Hrow Hid H.
  pose proof (row_Some_id _ _ _ Hrow) as Hcid.
  apply commit_returns in H as (c' & d & -> & Hd & Hcases).
  exists c', d. split; [done|]. split; [done|].
  destruct Hcases as [(-> & -> & ->)|[(Hne & He & -> & ->)
                                     |(Hne & He & -> & ->)]].
  - split; [done|]. split; [by destruct c|]. by left.
  - split; [apply row_replaced with c; [done|simpl; congruence]|].
    split; [by destruct obj|]. right. by left.
  - split; [apply row_replaced with c; [done|congruence]|].
    split; [by destruct obj|]. right. by right.
Qed.

(** FastAPI: [last_used] is stamped exactly when the request sets
    [available] to false on a record whose [available] is true, and
    [updated_at] is always a reading of the clock taken by this request. *)
Lemma fastapi_update_timestamps (cid : Z) (u : ChargerUpdate.t)
      (w w' : World) (resp : Response) :
  FastAPI.update_charger cid u w = (Returns resp, w') →
  ∃ c c',
    orm.row cid (chargers w) = Some c
    ∧ orm.row cid (chargers w') = Some c'
    ∧ last_used c'
      = (if bool_decide (ChargerUpdate.available u = Present (Some false)
                         ∧ available c = Some true)
         then Some (clock w 0%nat) else last_used c)
    ∧ ∃ k, (k ≤ 2)%nat ∧ updated_at c' = Some (clock w k).
Proof.
  intros H.
  destruct (orm.row cid (chargers w)) as [c|] eqn:Hrow;
    [|by rewrite fastapi_update_missing in H].
  rewrite (fastapi_update_unfold _ _ _ _ Hrow) in H. cbn zeta in H.
  set (hit := bool_decide _) in *.
  apply (commit_row cid) in H
      as (c' & d & _ & _ & Hrow' & Hc' & Hcases);
    [| by destruct hit | done].
  exists c, c'. split; [done|]. split; [done|]. split.
  - rewrite Hc'. simpl. done.
  - destruct Hcases as [(Ho & -> & _)|[(_ & _ & ->)|(_ & _ & ->)]].
    + rewrite <-Ho. simpl.
      destruct hit; [exists 1%nat | exists 0%nat]; (split; [lia | done]).
    + destruct hit; simpl; [exists 2%nat | exists 1%nat];
        (split; [lia | done]).
    + simpl.
      destruct hit; [exists 1%nat | exists 0%nat]; (split; [lia | done]).
Qed.

(** Flask: [last_used] is stamped whenever the request sets [available]
    to false, whatever the record's current value. *)
Lemma flask_update_last_used (cid : Z) (data : payload.t)
      (w w' : World) (resp : Response) :
  Flask.update_charger cid data w = (Returns resp, w') →
  ∃ c c',
    orm.row cid (chargers w) = Some c
    ∧ orm.row cid (chargers w') = Some c'
    ∧ last_used c'
      = (if bool_decide (payload.available data = Present (Some false))
         then Some (clock w 0%nat) else last_used c).
Proof.
  intros H.
  destruct (orm.row cid (chargers w)) as [c|] eqn:Hrow;
    [|by rewrite flask_update_missing in H].
  rewrite (flask_update_unfold _ _ _ _ Hrow) in H. cbn zeta in H.
  set (hit := bool_decide _) in *.
  apply (commit_row cid) in H
      as (c' & d & _ & _ & Hrow' & Hc' & _);
    [| by destruct hit | done].
  exists c, c'. split; [done|]. split; [done|].
  by rewrite Hc'.
Qed.

(** Flask: an update that assigns nothing new commits nothing; the record,
    its [updated_at] included, and the clock are as before. *)
Lemma flask_update_without_net_change (cid : Z) (w : World)
      (c : Charger) (d : dict.t) :
  orm.row cid (chargers w) = Some c →
  dict_of c = Some d →
  Flask.update_charger cid payload.empty w
  = (Returns (mkResponse 200 (JsonCharger d)), w).
Proof.
  intros Hrow Hd.
  rewrite (flask_update_unfold _ _ _ _ Hrow). simpl.
  assert (orm.flush_dirty c
            (mkCharger (id c) (location c) (available c) (power c) (type c)
                       (notes c) (last_used c) (created_at c) (updated_at c))
            w = (Returns c, w)) as Hf.
  { rewrite flush_dirty_unfold. destruct c. by rewrite decide_True. }
  rewrite (bind_returns _ _ _ _ _ Hf).
  unfold to_dict. rewrite Hd. reflexivity.
Qed.

End timestamps_of_update.

Section frame_of_update.



End frame_of_update.




(** C1 on the Flask application: an update that sets [available] to false
    on a charger whose [available] is already false stamps [last_used] anew.
    (The FastAPI handler stamps it on the true-to-false change only:
    [fastapi_update_timestamps].) *)
Theorem flask_false_to_false_stamps_last_used :
  let data := payload.mk Absent (Present (Some false)) Absent Absent Absent in
  let r := Flask.serve (Flask.PATCH_charger 2 data) flask_seeded in
  available <$> orm.row 2 (chargers flask_seeded) = Some (Some false)
  ∧ last_used <$> orm.row 2 (chargers flask_seeded) = Some (Some 1003)
  ∧ status r.1 = 200
  ∧ last_used <$> orm.row 2 (chargers r.2) = Some (Some 1018).
Proof. vm_compute. done. Qed.

(** C3 on the Flask application: an update with an empty body, or one that
    repeats the record's current values, is answered 200 and leaves
    [updated_at] at its prior value although the clock has moved on.  (The
    FastAPI handler assigns [updated_at] itself:
    [fastapi_update_timestamps].) *)
Theorem flask_noop_update_keeps_updated_at :
  let same := payload.mk (Present (Some "Downtown Parking Garage"))
                         (Present (Some true)) Absent Absent Absent in
  let r0 := Flask.serve (Flask.PATCH_charger 1 payload.empty) flask_seeded in
  let r1 := Flask.serve (Flask.PUT_charger 1 same) flask_seeded in
  updated_at <$> orm.row 1 (chargers flask_seeded) = Some (Some 1002)
  ∧ clock flask_seeded 0%nat = 1018
  ∧ status r0.1 = 200
  ∧ updated_at <$> orm.row 1 (chargers r0.2) = Some (Some 1002)
  ∧ status r1.1 = 200
  ∧ updated_at <$> orm.row 1 (chargers r1.2) = Some (Some 1002).
Proof. vm_compute. done. Qed.

Section invariant.

Lemma monotone_le (clk : nat → datetime) (n k : nat) :
  monotone clk → clk n ≤ clk (n + k)%nat.
Proof.
  intros Hm. induction k as [|k IH].
  - by rewrite Nat.add_0_r.
  - rewrite Nat.add_succ_r. specialize (Hm (n + k)%nat). lia.
Qed.

Lemma row_ok_mono (now now' : datetime) (c : Charger) :
  now ≤ now' → row_ok now c → row_ok now' c.
Proof.
  intros Hle (tc & tu & ? & ? & ? & ?). exists tc, tu.
  repeat split; try done. lia.
Qed.

Lemma row_ok_stamped now c : row_ok now c → stamped c.
Proof. intros (tc & tu & ? & ? & ? & ?). by exists tc, tu. Qed.

Lemma Inv_tick w : Inv w → Inv (tick w).
Proof.
  intros [Hm Hrows]. split.
  - intros n. apply Hm.
  - simpl. eapply Forall_impl; [done|].
    intros c. apply row_ok_mono. apply Hm.
Qed.

(** Replacing the table by rows that satisfy the row invariant. *)
Lemma Inv_table w (t : list Charger) :
  Inv w → Forall (row_ok (clock w 0%nat)) t → Inv (mkWorld t (clock w)).
Proof. intros [Hm _] Ht. by split. Qed.

Lemma Inv_row w cid c :
  Inv w → orm.row cid (chargers w) = Some c → row_ok (clock w 0%nat) c.
Proof.
  intros [_ Hrows] Hrow. apply row_Some_elem_of in Hrow.
  by eapply Forall_forall in Hrows.
Qed.

Lemma Forall_replaced (P : Charger → Prop) c t :
  P c → Forall P t → Forall P (replaced c t).
Proof.
  intros Hc Ht. unfold replaced. apply Forall_fmap.
  eapply Forall_impl; [done|]. intros r Hr. simpl.
  by destruct (decide _).
Qed.

Lemma preserves_ret {A} (a : A) : preserves (ret a).
Proof. by intros w. Qed.

Lemma preserves_raise {A} e : preserves (@raise A e).
Proof. by intros w. Qed.

Lemma preserves_bind {A B} (m : M A) (k : A → M B) :
  preserves m → (∀ a, preserves (k a)) → preserves (bind m k).
Proof.
  intros Hm Hk w Hw. unfold bind.
  specialize (Hm w Hw). destruct (m w) as [[a|e] w1]; simpl in *.
  - by apply Hk.
  - done.
Qed.

Lemma preserves_utcnow : preserves utcnow.
Proof. intros w. apply Inv_tick. Qed.

Lemma preserves_read_table : preserves read_table.
Proof. by intros w. Qed.

Lemma preserves_to_dict c : preserves (to_dict c).
Proof.
  unfold to_dict. destruct (dict_of c);
    [apply preserves_ret | apply preserves_raise].
Qed.

Lemma preserves_traverse {A B} (f : A → M B) (l : list A) :
  (∀ x, preserves (f x)) → preserves (traverse f l).
Proof.
  intros Hf. induction l as [|x l IH]; simpl.
  - apply preserves_ret.
  - apply preserves_bind; [apply Hf|]. intros y.
    apply preserves_bind; [apply IH|]. intros ys. apply preserves_ret.
Qed.

Lemma preserves_item {A} (f : field A) : preserves (item f).
Proof. destruct f; [apply preserves_raise | apply preserves_ret]. Qed.

Lemma preserves_get cid : preserves (orm.get cid).
Proof. intros w Hw. by rewrite get_world. Qed.

Lemma preserves_DELETE c : preserves (orm.DELETE c).
Proof.
  intros w Hw. simpl. apply Inv_table; [done|].
  destruct Hw as [_ Hrows]. apply Forall_forall. intros r Hr.
  apply list_elem_of_filter in Hr as [_ Hr].
  by eapply Forall_forall in Hrows.
Qed.

(** The flush keeps the invariant when the assigned object satisfies the
    row invariant at the time of the flush. *)
Lemma flush_dirty_Inv (c obj : Charger) (w : World) :
  Inv w → row_ok (clock w 0%nat) obj → Inv (orm.flush_dirty c obj w).2.
Proof.
  intros Hw Hobj. rewrite flush_dirty_unfold.
  destruct (decide (obj = c)); [done|]. cbn zeta.
  destruct (bool_decide (updated_at obj = updated_at c)).
  - destruct (_ || _); simpl.
    + by apply Inv_tick.
    + apply (Inv_table (tick w)); [by apply Inv_tick|].
      apply Forall_replaced.
      * destruct Hobj as (tc & tu & Hc & Hu & ? & ?).
        exists tc, (clock w 0%nat). simpl.
        destruct Hw as [Hm _]. specialize (Hm 0%nat).
        repeat split; try done. lia.
      * apply Inv_tick in Hw. by destruct Hw.
  - destruct (_ || _); simpl; [done|].
    apply Inv_table; [done|].
    apply Forall_replaced; [done|]. by destruct Hw.
Qed.

Lemma commit_world (c obj : Charger) (w : World) :
  ((c' <- orm.flush_dirty c obj ;;
    d <- to_dict c' ;;
    ret (mkResponse 200 (JsonCharger d))) w).2
  = (orm.flush_dirty c obj w).2.
Proof.
  unfold bind at 1.
  destruct (orm.flush_dirty c obj w) as [[c'|e] w1]; [|done].
  unfold bind, to_dict. by destruct (dict_of c').
Qed.

End invariant.

Section invariant_of_handlers.

Lemma Inv_append w k (c : Charger) tc tu :
  Inv w →
  created_at c = Some tc → updated_at c = Some tu →
  tc ≤ tu → tc ≤ clock w k →
  (∀ n, clock (Nat.iter k tick w) n = clock w (k + n)%nat) →
  Inv (mkWorld (chargers w ++ [c]) (clock (Nat.iter k tick w))).
Proof.
  intros [Hm Hrows] Hc Hu Hle Hnow Hclk. split.
  - intros n. simpl. rewrite !Hclk, Nat.add_succ_r. apply Hm.
  - simpl. rewrite Hclk, Nat.add_0_r. apply Forall_app. split.
    + eapply Forall_impl; [done|]. intros r. apply row_ok_mono.
      by apply (monotone_le _ 0%nat k).
    + apply Forall_singleton. by exists tc, tu.
Qed.

Lemma preserves_flask_add_commit lo av po ty no :
  preserves (Flask.add_commit (models.new lo av po ty no)).
Proof.
  intros w Hw. rewrite flask_add_commit_new. cbn zeta.
  destruct (orm.not_null _); simpl.
  - apply (Inv_append w 3) with (clock w 1%nat) (clock w 2%nat);
      try done.
    + destruct Hw as [Hm _]. apply Hm.
    + destruct Hw as [Hm _].
      pose proof (Hm 1%nat). pose proof (Hm 2%nat). lia.
  - by do 3 apply Inv_tick.
Qed.

Lemma preserves_fastapi_add_commit lo av po ty no :
  preserves (FastAPI.add_commit (models.new lo av po ty no)).
Proof.
  intros w Hw. rewrite fastapi_add_commit_new. cbn zeta.
  destruct (orm.not_null _); simpl.
  - apply (Inv_append w 2) with (clock w 0%nat) (clock w 1%nat);
      try done.
    + destruct Hw as [Hm _]. apply Hm.
    + destruct Hw as [Hm _].
      pose proof (Hm 0%nat). pose proof (Hm 1%nat). lia.
  - by do 2 apply Inv_tick.
Qed.

Lemma preserves_seed (add : Charger → M Charger) :
  (∀ lo av po ty no, preserves (add (models.new lo av po ty no))) →
  preserves (traverse add sample_chargers).
Proof.
  intros Hadd.
  assert (Forall (λ x, preserves (add x)) sample_chargers) as Hall
    by (unfold sample_chargers;
        repeat (apply Forall_cons; split; [apply Hadd|]);
        apply Forall_nil_2).
  induction Hall as [|x l Hx Hl IH]; simpl.
  - apply preserves_ret.
  - apply preserves_bind; [done|]. intros y.
    apply preserves_bind; [apply IH|]. intros ys. apply preserves_ret.
Qed.

Lemma preserves_flask_update cid data :
  preserves (Flask.update_charger cid data).
Proof.
  intros w Hw.
  destruct (orm.row cid (chargers w)) as [c|] eqn:Hrow;
    [|by rewrite flask_update_missing].
  rewrite (flask_update_unfold _ _ _ _ Hrow). cbn zeta.
  rewrite commit_world.
  pose proof (Inv_row _ _ _ Hw Hrow) as (tc & tu & Hc & Hu & Hle & Hnow).
  destruct (bool_decide _).
  - apply flush_dirty_Inv; [by apply Inv_tick|].
    exists tc, tu. repeat split; try done. simpl.
    destruct Hw as [Hm _]. specialize (Hm 0%nat). lia.
  - apply flush_dirty_Inv; [done|]. by exists tc, tu.
Qed.

Lemma preserves_fastapi_update cid u :
  preserves (FastAPI.update_charger cid u).
Proof.
  intros w Hw.
  destruct (orm.row cid (chargers w)) as [c|] eqn:Hrow;
    [|by rewrite fastapi_update_missing].
  rewrite (fastapi_update_unfold _ _ _ _ Hrow). cbn zeta.
  rewrite commit_world.
  pose proof (Inv_row _ _ _ Hw Hrow) as (tc & tu & Hc & Hu & Hle & Hnow).
  pose proof Hw as [Hm _].
  pose proof (Hm 0%nat). pose proof (Hm 1%nat).
  destruct (bool_decide _).
  - apply flush_dirty_Inv; [by do 2 apply Inv_tick|].
    exists tc, (clock w 1%nat). simpl. repeat split; try done; lia.
  - apply flush_dirty_Inv; [by apply Inv_tick|].
    exists tc, (clock w 0%nat). simpl. repeat split; try done; lia.
Qed.

Lemma preserves_flask_route r : preserves (Flask.route r).
Proof.
  destruct r as [args|cid|data|cid data|cid data|cid|]; simpl.
  - unfold Flask.get_chargers.
    apply preserves_bind; [apply preserves_read_table|]. intros t.
    apply preserves_bind;
      [apply preserves_traverse, preserves_to_dict|].
    intros ds. apply preserves_ret.
  - unfold Flask.get_charger, Flask.get_or_404.
    apply preserves_bind.
    { apply preserves_bind; [apply preserves_get|].
      intros [c|]; [apply preserves_ret | apply preserves_raise]. }
    intros c. apply preserves_bind; [apply preserves_to_dict|].
    intros d. apply preserves_ret.
  - unfold Flask.add_charger.
    destruct (List.find _ _); [apply preserves_ret|].
    repeat (apply preserves_bind; [apply preserves_item|]; intros ?).
    apply preserves_bind; [apply preserves_flask_add_commit|]. intros c.
    apply preserves_bind; [apply preserves_to_dict|].
    intros d. apply preserves_ret.
  - apply preserves_flask_update.
  - apply preserves_flask_update.
  - unfold Flask.delete_charger, Flask.get_or_404.
    apply preserves_bind.
    { apply preserves_bind; [apply preserves_get|].
      intros [c|]; [apply preserves_ret | apply preserves_raise]. }
    intros c. apply preserves_bind; [apply preserves_DELETE|].
    intros _. apply preserves_ret.
  - unfold Flask.get_charger_stats.
    apply preserves_bind; [apply preserves_read_table|]. intros t.
    apply preserves_ret.
Qed.

Lemma preserves_fastapi_route r : preserves (FastAPI.route r).
Proof.
  destruct r as [a ty|cid|data|cid u|cid u|cid|]; simpl.
  - unfold FastAPI.get_chargers.
    apply preserves_bind; [apply preserves_read_table|]. intros t.
    apply preserves_bind;
      [apply preserves_traverse, preserves_to_dict|].
    intros ds. apply preserves_ret.
  - unfold FastAPI.get_charger, FastAPI.first_or_404.
    apply preserves_bind.
    { apply preserves_bind; [apply preserves_get|].
      intros [c|]; [apply preserves_ret | apply preserves_raise]. }
    intros c. apply preserves_bind; [apply preserves_to_dict|].
    intros d. apply preserves_ret.
  - destruct (ChargerCreate.parse data) as [charger|];
      [|apply preserves_raise].
    unfold FastAPI.add_charger.
    apply preserves_bind; [apply preserves_fastapi_add_commit|]. intros c.
    apply preserves_bind; [apply preserves_to_dict|].
    intros d. apply preserves_ret.
  - apply preserves_fastapi_update.
  - rewrite partial_update_is_update. apply preserves_fastapi_update.
  - unfold FastAPI.delete_charger, FastAPI.first_or_404.
    apply preserves_bind.
    { apply preserves_bind; [apply preserves_get|].
      intros [c|]; [apply preserves_ret | apply preserves_raise]. }
    intros c. apply preserves_bind; [apply preserves_DELETE|].
    intros _. apply preserves_ret.
  - unfold FastAPI.get_charger_stats.
    apply preserves_bind; [apply preserves_read_table|]. intros t.
    apply preserves_bind; [|intros; apply preserves_ret].
    unfold FastAPI.session_getattr.
    destruct (decide _); [apply preserves_ret | apply preserves_raise].
Qed.

Lemma preserves_init_db : preserves Flask.init_db.
Proof.
  unfold Flask.init_db.
  apply preserves_bind; [apply preserves_read_table|]. intros t.
  destruct (decide _); [|apply preserves_ret].
  apply preserves_bind; [|intros; apply preserves_ret].
  apply preserves_seed, preserves_flask_add_commit.
Qed.

Lemma preserves_add_sample_data : preserves FastAPI.add_sample_data.
Proof.
  unfold FastAPI.add_sample_data.
  apply preserves_bind; [apply preserves_read_table|]. intros t.
  destruct (decide _); [apply preserves_ret|].
  apply preserves_bind; [|intros; apply preserves_ret].
  apply preserves_seed, preserves_fastapi_add_commit.
Qed.

Lemma flask_serve_Inv r w : Inv w → Inv (Flask.serve r w).2.
Proof.
  intros Hw. pose proof (preserves_flask_route r w Hw) as H.
  unfold Flask.serve, Flask.respond.
  destruct (Flask.route r w) as [[resp|[]] w1]; exact H.
Qed.

Lemma fastapi_serve_Inv r w : Inv w → Inv (FastAPI.serve r w).2.
Proof.
  intros Hw.
  assert (preserves (FastAPI.initialize_db (FastAPI.route r))) as Hp.
  { unfold FastAPI.initialize_db.
    apply preserves_bind; [apply preserves_add_sample_data|].
    intros _. apply preserves_fastapi_route. }
  specialize (Hp w Hw).
  unfold FastAPI.serve, FastAPI.respond.
  destruct (FastAPI.initialize_db (FastAPI.route r) w) as [[resp|[]] w1];
    try exact Hp.
  destruct (FastAPI.response_model _); exact Hp.
Qed.

Lemma Inv_empty w : monotone (clock w) → chargers w = [] → Inv w.
Proof. intros Hm He. split; [done|]. rewrite He. constructor. Qed.

Lemma flask_reachable_Inv w0 w :
  monotone (clock w0) → chargers w0 = [] →
  Flask.reachable w0 w → Inv w.
Proof.
  intros Hm He. induction 1 as [|r w Hreach IH].
  - apply preserves_init_db. by apply Inv_empty.
  - by apply flask_serve_Inv.
Qed.

Lemma fastapi_reachable_Inv w0 w :
  monotone (clock w0) → chargers w0 = [] →
  FastAPI.reachable w0 w → Inv w.
Proof.
  intros Hm He. induction 1 as [|r w Hreach IH].
  - by apply Inv_empty.
  - by apply fastapi_serve_Inv.
Qed.

End invariant_of_handlers.

Section creation_timestamps.

Lemma flask_created_readings data d w w' :
  Flask.add_charger data w
  = (Returns (mkResponse 201 (JsonCharger d)), w') →
  dict.createdAt d = clock w 1%nat ∧ dict.updatedAt d = clock w 2%nat.
Proof.
  destruct data as [lo av po ty no]. unfold Flask.add_charger.
  destruct lo as [|lo], po as [|po], ty as [|ty]; try discriminate.
  simpl. unfold item.
  rewrite !(bind_returns (ret _) _ _ _ _ eq_refl).
  intros H. apply bind_inv in H as (c & w1 & Hadd & H).
  rewrite flask_add_commit_new in Hadd. cbn zeta in Hadd.
  destruct (orm.not_null _); [|discriminate].
  injection Hadd as <- <-.
  vm_compute in H. by injection H as <- <-.
Qed.

Lemma fastapi_created_readings charger d w w' :
  FastAPI.add_charger charger w
  = (Returns (mkResponse 201 (JsonCharger d)), w') →
  dict.createdAt d = clock w 0%nat ∧ dict.updatedAt d = clock w 1%nat.
Proof.
  unfold FastAPI.add_charger.
  intros H. apply bind_inv in H as (c & w1 & Hadd & H).
  rewrite fastapi_add_commit_new in Hadd. cbn zeta in Hadd.
  destruct (orm.not_null _); [|discriminate].
  injection Hadd as <- <-.
  vm_compute in H. by injection H as <- <-.
Qed.

End creation_timestamps.

(** C8, as the code has it.  With a clock that never goes back, every row
    of every table that either application reaches from an empty one has both
    timestamps set, with [updated_at] not before [created_at].  At creation
    the two timestamps are two successive readings of the clock, [created_at]
    first; they are equal only when the two readings coincide. *)
Theorem timestamps_ordered (w0 w : World) :
  monotone (clock w0) →
  chargers w0 = [] →
  Flask.reachable w0 w ∨ FastAPI.reachable w0 w →
  Forall stamped (chargers w)
  ∧ (∀ data d w',
       Flask.add_charger data w
       = (Returns (mkResponse 201 (JsonCharger d)), w') →
       dict.createdAt d = clock w 1%nat
       ∧ dict.updatedAt d = clock w 2%nat
       ∧ dict.createdAt d ≤ dict.updatedAt d)
  ∧ (∀ charger d w',
       FastAPI.add_charger charger w
       = (Returns (mkResponse 201 (JsonCharger d)), w') →
       dict.createdAt d = clock w 0%nat
       ∧ dict.updatedAt d = clock w 1%nat
       ∧ dict.createdAt d ≤ dict.updatedAt d).
Proof.
  intros Hm He Hreach.
  assert (Inv w) as [Hmw Hrows].
  { destruct Hreach;
      [by eapply flask_reachable_Inv | by eapply fastapi_reachable_Inv]. }
  split; [|split].
  - eapply Forall_impl; [done|]. intros c. apply row_ok_stamped.
  - intros data d w' H.
    apply flask_created_readings in H as [-> ->].
    repeat split. apply Hmw.
  - intros charger d w' H.
    apply fastapi_created_readings in H as [-> ->].
    repeat split. apply Hmw.
Qed.

Lemma monotone_ticking : monotone ticking.
Proof. intros n. unfold ticking. lia. Qed.

(** The table seeded at start-up is reachable from the empty one. *)
Lemma timestamps_ordered_seeded : Forall stamped (chargers flask_seeded).
Proof.
  apply (timestamps_ordered (mkWorld [] ticking) flask_seeded).
  - exact monotone_ticking.
  - reflexivity.
  - left. apply Flask.reach_start.
Defined.

(** C8 as stated fails at creation: under the ticking clock the record
    created by either application has [updatedAt] one reading after
    [createdAt]. *)
Lemma created_at_differs_from_updated_at :
  ∃ d1 d2,
    (Flask.serve (Flask.POST_chargers (minimal_body "Lot A" "50kW" "CCS"))
                 flask_seeded).1
    = mkResponse 201 (JsonCharger d1)
    ∧ dict.createdAt d1 = 1019 ∧ dict.updatedAt d1 = 1020
    ∧ dict.createdAt d1 ≠ dict.updatedAt d1
    ∧ (FastAPI.handle
         (FastAPI.POST_chargers (minimal_body "Lot A" "50kW" "CCS"))
         fastapi_seeded).1
      = mkResponse 201 (JsonCharger d2)
    ∧ dict.createdAt d2 = 1012 ∧ dict.updatedAt d2 = 1013
    ∧ dict.createdAt d2 ≠ dict.updatedAt d2.
Proof.
  eexists _, _.
  split; [vm_compute; reflexivity|].
  split; [reflexivity|]. split; [reflexivity|]. split; [done|].
  split; [vm_compute; reflexivity|].
  split; [reflexivity|]. split; [reflexivity|]. done.
Qed.

(** * Further properties of the handlers *)

Section null_in_required_column.

(** X1.  A create whose body carries the three required keys but gives one
    of them as null passes the presence check of the Flask handler, fails at
    the INSERT and is answered 500: nothing is inserted, and the three column
    defaults have read the clock.  The FastAPI schema rejects the same body
    with 422 before the handler runs. *)
Theorem create_with_null_required_column (data : payload.t) (w : World) :
  has_required data →
  nulls_required (payload.location data) (payload.power data)
                 (payload.type data) →
  Flask.serve (Flask.POST_chargers data) w
  = (Flask.internal_error, tick (tick (tick w)))
  ∧ FastAPI.handle (FastAPI.POST_chargers data) w
    = (mkResponse 422 JsonValidationErrors, w).
Proof.
  destruct data as [lo av po ty no]. unfold has_required, nulls_required.
  simpl. intros (Hlo & Hpo & Hty) Hnull.
  destruct lo as [|lo], po as [|po], ty as [|ty]; try discriminate.
  split.
  - unfold Flask.serve, Flask.respond. simpl. unfold Flask.add_charger.
    simpl. unfold item.
    rewrite !(bind_returns (ret _) _ _ _ _ eq_refl).
    assert (orm.not_null
              (mkCharger (Some (orm.next_rowid (chargers w))) lo
                 (Some (default true (get_default av (Some true)))) po ty
                 (get_default no (Some "")) (Some (clock w 0%nat))
                 (Some (clock w 1%nat)) (Some (clock w 2%nat))) = false)
      as Hnn.
    { unfold orm.not_null. simpl.
      destruct Hnull as [[= ->]|[[= ->]|[= ->]]]; simpl;
        rewrite ?andb_false_r; done. }
    pose proof (flask_add_commit_new lo (get_default av (Some true)) po ty
                  (get_default no (Some "")) w) as Hadd.
    cbn zeta in Hadd. rewrite Hnn in Hadd.
    by rewrite (bind_raises _ _ _ _ _ Hadd).
  - unfold FastAPI.handle, FastAPI.respond. simpl.
    unfold ChargerCreate.parse. simpl.
    destruct lo, po, ty; try reflexivity.
    destruct Hnull as [?|[?|?]]; discriminate.
Qed.

(** A body with [location] null on the seeded table. *)
Lemma create_with_null_location_seeded :
  Flask.serve
    (Flask.POST_chargers
       (payload.mk (Present None) Absent (Present (Some "50kW"))
                   (Present (Some "CCS")) Absent)) flask_seeded
  = (Flask.internal_error, tick (tick (tick flask_seeded))).
Proof.
  apply (create_with_null_required_column
           (payload.mk (Present None) Absent (Present (Some "50kW"))
                       (Present (Some "CCS")) Absent) flask_seeded).
  - by repeat split.
  - by left.
Defined.

(** X2.  An update that sets one of [location], [power], [type] to null on
    a record that has them is answered 500 by both applications and leaves
    every row of the table as it was. *)
Theorem update_with_null_required_column
        (cid : Z) (data : payload.t) (u : ChargerUpdate.t)
        (w : World) (c : Charger) :
  orm.row cid (chargers w) = Some c →
  orm.not_null c = true →
  (nulls_required (payload.location data) (payload.power data)
                  (payload.type data) →
   (Flask.serve (Flask.PUT_charger cid data) w).1 = Flask.internal_error
   ∧ chargers (Flask.serve (Flask.PUT_charger cid data) w).2 = chargers w)
  ∧ (nulls_required (ChargerUpdate.location u) (ChargerUpdate.power u)
                    (ChargerUpdate.type u) →
     (FastAPI.handle (FastAPI.PUT_charger cid u) w).1
     = mkResponse 500 (PlainText "Internal Server Error")
     ∧ chargers (FastAPI.handle (FastAPI.PUT_charger cid u) w).2
       = chargers w).
Proof.
  intros Hrow Hnn.
  assert (∃ l p t, location c = Some l ∧ power c = Some p ∧ type c = Some t)
    as (l & p & t & Hl & Hp & Ht).
  { unfold orm.not_null in Hnn.
    apply andb_prop in Hnn as [Hnn H3]. apply andb_prop in Hnn as [H1 H2].
    apply bool_decide_eq_true in H1 as [l Hl].
    apply bool_decide_eq_true in H2 as [p Hp].
    apply bool_decide_eq_true in H3 as [t Ht]. by exists l, p, t. }
  assert (∀ (lo po ty : field string) obj w0,
            nulls_required lo po ty →
            location obj = get_default lo (location c) →
            power obj = get_default po (power c) →
            type obj = get_default ty (type c) →
            ∃ w1, orm.flush_dirty c obj w0 = (Raises IntegrityError, w1)
                  ∧ chargers w1 = chargers w0) as Hraise.
  { intros lo po ty obj w0 Hnull Holo Hopo Hoty.
    rewrite flush_dirty_unfold.
    assert (obj ≠ c) as Hne.
    { intros ->. rewrite Hl in Holo. rewrite Hp in Hopo. rewrite Ht in Hoty.
      destruct Hnull as [-> | [-> | ->]]; simpl in *; discriminate. }
    rewrite decide_False by done. cbn zeta.
    assert (orm.sets_null (location c) (location obj)
            || orm.sets_null (power c) (power obj)
            || orm.sets_null (type c) (type obj) = true) as Hs.
    { rewrite Holo, Hopo, Hoty, Hl, Hp, Ht.
      destruct Hnull as [-> | [-> | ->]]; simpl;
        rewrite ?orb_true_r; done. }
    destruct (bool_decide (updated_at obj = updated_at c)).
    - replace (location (set_updated_at (Some (clock w0 0%nat)) obj))
        with (location obj) by (by destruct obj).
      replace (power (set_updated_at (Some (clock w0 0%nat)) obj))
        with (power obj) by (by destruct obj).
      replace (type (set_updated_at (Some (clock w0 0%nat)) obj))
        with (type obj) by (by destruct obj).
      rewrite Hs. by eexists.
    - rewrite Hs. by eexists. }
  split; intros Hnull.
  - unfold Flask.serve, Flask.respond. simpl.
    rewrite (flask_update_unfold _ _ _ _ Hrow). cbn zeta.
    match goal with
    | |- context [orm.flush_dirty c ?obj] =>
        destruct (Hraise _ _ _ obj
                    (if bool_decide (payload.available data
                                     = Present (Some false))
                     then tick w else w) Hnull eq_refl eq_refl eq_refl)
          as (w1 & Hf & Hw1)
    end.
    rewrite (bind_raises _ _ _ _ _ Hf). simpl.
    split; [done|]. rewrite Hw1. by destruct (bool_decide _).
  - unfold FastAPI.handle, FastAPI.respond. simpl.
    rewrite (fastapi_update_unfold _ _ _ _ Hrow). cbn zeta.
    match goal with
    | |- context [orm.flush_dirty c ?obj] =>
        destruct (Hraise _ _ _ obj
                    (tick (if bool_decide
                                (ChargerUpdate.available u
                                 = Present (Some false)
                                 ∧ available c = Some true)
                           then tick w else w))
                    Hnull eq_refl eq_refl eq_refl)
          as (w1 & Hf & Hw1)
    end.
    rewrite (bind_raises _ _ _ _ _ Hf). simpl.
    split; [done|]. rewrite Hw1. simpl. by destruct (bool_decide _).
Qed.

(** Setting the location of the first sample charger to null. *)
Lemma update_with_null_location_seeded :
  (Flask.serve
     (Flask.PUT_charger 1 (payload.mk (Present None) Absent Absent Absent
                                      Absent)) flask_seeded).1
  = Flask.internal_error
  ∧ (FastAPI.handle
       (FastAPI.PUT_charger 1 (ChargerUpdate.mk Absent Absent Absent
                                                (Present None) Absent))
       fastapi_seeded).1
    = mkResponse 500 (PlainText "Internal Server Error").
Proof.
  split.
  - edestruct (update_with_null_required_column 1
                 (payload.mk (Present None) Absent Absent Absent Absent)
                 (ChargerUpdate.mk Absent Absent Absent Absent Absent)
                 flask_seeded) as [H _].
    + vm_compute. reflexivity.
    + vm_compute. reflexivity.
    + apply H. by left.
  - edestruct (update_with_null_required_column 1
                 (payload.mk Absent Absent Absent Absent Absent)
                 (ChargerUpdate.mk Absent Absent Absent (Present None) Absent)
                 fastapi_seeded) as [_ H].
    + vm_compute. reflexivity.
    + vm_compute. reflexivity.
    + apply H. right. by right.
Defined.

End null_in_required_column.

Section create_round_trip.

Lemma row_app_new (t : list Charger) (c : Charger) (cid : Z) :
  (∀ r, r ∈ t → id r ≠ Some cid) → id c = Some cid →
  orm.row cid (t ++ [c]) = Some c.
Proof.
  intros Hfresh Hid. unfold orm.row. rewrite filter_app.
  apply row_None in Hfresh. unfold orm.row in Hfresh.
  destruct (filter _ t) as [|r l]; [|done].
  by rewrite filter_cons_True.
Qed.

Lemma row_app_old (t l : list Charger) (c : Charger) (cid : Z) :
  orm.row cid t = Some c → orm.row cid (t ++ l) = Some c.
Proof.
  unfold orm.row. rewrite filter_app.
  by destruct (filter _ t).
Qed.

Lemma to_dict_returns (c : Charger) (w : World) (ca ua : datetime) :
  created_at c = Some ca → updated_at c = Some ua →
  to_dict c w
  = (Returns (dict.mk (id c) (location c) (available c) (power c) (type c)
                      (notes c) (last_used c) ca ua), w).
Proof. intros Hc Hu. unfold to_dict, dict_of. by rewrite Hc, Hu. Qed.

(** What a successful create of the Flask application leaves. *)
Lemma flask_create_returns data w d w' :
  Flask.serve (Flask.POST_chargers data) w
  = (mkResponse 201 (JsonCharger d), w') →
  ∃ c, id c = Some (orm.next_rowid (chargers w))
       ∧ dict_of c = Some d
       ∧ w' = mkWorld (chargers w ++ [c]) (clock (tick (tick (tick w)))).
Proof.
  destruct data as [lo av po ty no].
  unfold Flask.serve, Flask.respond. simpl. unfold Flask.add_charger.
  destruct lo as [|lo], po as [|po], ty as [|ty]; try discriminate.
  simpl. unfold item.
  rewrite !(bind_returns (ret _) _ _ _ _ eq_refl).
  pose proof (flask_add_commit_new lo (get_default av (Some true)) po ty
                (get_default no (Some "")) w) as Hadd.
  cbn zeta in Hadd. destruct (orm.not_null _).
  - rewrite (bind_returns _ _ _ _ _ Hadd).
    erewrite (bind_returns (to_dict _))
      by (apply to_dict_returns; reflexivity).
    intros H. injection H as <- <-.
    eexists. split; [|split]. 3: reflexivity. all: reflexivity.
  - by rewrite (bind_raises _ _ _ _ _ Hadd).
Qed.

(** What a successful create of the FastAPI application leaves. *)
Lemma fastapi_create_returns data w d w' :
  FastAPI.handle (FastAPI.POST_chargers data) w
  = (mkResponse 201 (JsonCharger d), w') →
  ∃ c, id c = Some (orm.next_rowid (chargers w))
       ∧ dict_of c = Some d
       ∧ w' = mkWorld (chargers w ++ [c]) (clock (tick (tick w))).
Proof.
  unfold FastAPI.handle, FastAPI.respond. simpl.
  destruct (ChargerCreate.parse data) as [charger|]; [|discriminate].
  unfold FastAPI.add_charger.
  pose proof (fastapi_add_commit_new
                (Some (ChargerCreate.location charger))
                (Some (ChargerCreate.available charger))
                (Some (ChargerCreate.power charger))
                (Some (ChargerCreate.type charger))
                (ChargerCreate.notes charger) w) as Hadd.
  cbn zeta in Hadd. destruct (orm.not_null _).
  - rewrite (bind_returns _ _ _ _ _ Hadd).
    erewrite (bind_returns (to_dict _))
      by (apply to_dict_returns; reflexivity).
    intros H. injection H as <- <-.
    eexists. split; [|split]. 3: reflexivity. all: reflexivity.
  - by rewrite (bind_raises _ _ _ _ _ Hadd).
Qed.

(** X3.  Create then get: when a create is answered 201 with a record, the
    record's id is one that no row had before, exactly one row has been
    appended to the table, and a get by that id is answered 200 with the same
    record, in both applications. *)
Theorem create_then_get (data : payload.t) (w w' : World) (d : dict.t) :
  let fresh := orm.next_rowid (chargers w) in
  (Flask.serve (Flask.POST_chargers data) w
   = (mkResponse 201 (JsonCharger d), w') →
   dict.id d = Some fresh
   ∧ (∀ r, r ∈ chargers w → id r ≠ Some fresh)
   ∧ (∃ c : Charger, chargers w' = (chargers w ++ [c])%list)
   ∧ Flask.serve (Flask.GET_charger fresh) w'
     = (mkResponse 200 (JsonCharger d), w'))
  ∧ (FastAPI.handle (FastAPI.POST_chargers data) w
     = (mkResponse 201 (JsonCharger d), w') →
     dict.id d = Some fresh
     ∧ (∀ r, r ∈ chargers w → id r ≠ Some fresh)
     ∧ (∃ c : Charger, chargers w' = (chargers w ++ [c])%list)
     ∧ FastAPI.handle (FastAPI.GET_charger fresh) w'
       = (mkResponse 200 (JsonCharger d), w')).
Proof.
  intros fresh.
  assert (∀ (c : Charger) clk,
            id c = Some fresh → dict_of c = Some d →
            orm.row fresh
                    (chargers (mkWorld (chargers w ++ [c]) clk)) = Some c)
    as Hrow.
  { intros c clk Hid Hd. simpl. apply row_app_new; [|done].
    intros r Hr. by apply next_rowid_fresh. }
  assert (∀ c, dict_of c = Some d → id c = Some fresh → dict.id d = Some fresh)
    as Hdid.
  { intros c Hd Hid. unfold dict_of in Hd.
    destruct (created_at c), (updated_at c); try discriminate.
    injection Hd as <-. done. }
  split; intros H.
  - apply flask_create_returns in H as (c & Hid & Hd & ->).
    split; [by eapply Hdid|].
    split; [intros r Hr; by apply next_rowid_fresh|].
    split; [by eexists|].
    unfold Flask.serve, Flask.respond. simpl. unfold Flask.get_charger.
    rewrite (bind_returns _ _ _ _ _
               (get_or_404_found _ _ _ (Hrow c _ Hid Hd))).
    unfold to_dict. by rewrite Hd.
  - pose proof (proj2 (fastapi_respond_charger _ _ _ _ _ H)) as Hv.
    apply fastapi_create_returns in H as (c & Hid & Hd & ->).
    split; [by eapply Hdid|].
    split; [intros r Hr; by apply next_rowid_fresh|].
    split; [by eexists|].
    by apply (fastapi_get_row _ c); [apply Hrow | |].
Qed.

(** Creating a charger on the table seeded at start-up, then getting it. *)
Lemma create_then_get_seeded :
  ∃ d w',
    Flask.serve (Flask.POST_chargers (minimal_body "Lot A" "50kW" "CCS"))
                flask_seeded
    = (mkResponse 201 (JsonCharger d), w')
    ∧ dict.id d = Some (orm.next_rowid (chargers flask_seeded))
    ∧ Flask.serve
        (Flask.GET_charger (orm.next_rowid (chargers flask_seeded))) w'
      = (mkResponse 200 (JsonCharger d), w').
Proof.
  destruct (Flask.serve
              (Flask.POST_chargers (minimal_body "Lot A" "50kW" "CCS"))
              flask_seeded) as [resp w'] eqn:H.
  pose proof H as H'. vm_compute in H'. injection H' as Hresp _.
  subst resp.
  eexists _, _. split; [reflexivity|].
  pose proof (proj1 (create_then_get (minimal_body "Lot A" "50kW" "CCS")
                       flask_seeded _ _) H) as (Hid & _ & _ & Hget).
  split; [exact Hid | exact Hget].
Defined.

End create_round_trip.

(** ** Properties that every request keeps *)

Section keeps_generic.

Context (I : World → Prop).

Lemma keeps_ret {A} (a : A) : keeps I (ret a).
Proof. by intros w. Qed.

Lemma keeps_raise {A} e : keeps I (@raise A e).
Proof. by intros w. Qed.

Lemma keeps_bind {A B} (m : M A) (k : A → M B) :
  keeps I m → (∀ a, keeps I (k a)) → keeps I (bind m k).
Proof.
  intros Hm Hk w Hw. unfold bind.
  specialize (Hm w Hw). destruct (m w) as [[a|e] w1]; simpl in *.
  - by apply Hk.
  - done.
Qed.

Lemma keeps_readonly {A} (m : M A) : readonly m → keeps I m.
Proof. intros Hm w Hw. by rewrite Hm. Qed.

Lemma readonly_ret {A} (a : A) : readonly (ret a).
Proof. by intros w. Qed.

Lemma readonly_raise {A} e : readonly (@raise A e).
Proof. by intros w. Qed.

Lemma readonly_bind {A B} (m : M A) (k : A → M B) :
  readonly m → (∀ a, readonly (k a)) → readonly (bind m k).
Proof.
  intros Hm Hk w. unfold bind. specialize (Hm w).
  destruct (m w) as [[a|e] w1]; simpl in *; subst w1; [apply Hk | done].
Qed.

Lemma readonly_to_dict c : readonly (to_dict c).
Proof.
  unfold to_dict. destruct (dict_of c);
    [apply readonly_ret | apply readonly_raise].
Qed.

Lemma readonly_traverse {A B} (f : A → M B) (l : list A) :
  (∀ x, readonly (f x)) → readonly (traverse f l).
Proof.
  intros Hf. induction l as [|x l IH]; simpl.
  - apply readonly_ret.
  - apply readonly_bind; [apply Hf|]. intros y.
    apply readonly_bind; [apply IH|]. intros ys. apply readonly_ret.
Qed.

Lemma readonly_item {A} (f : field A) : readonly (item f).
Proof. destruct f; [apply readonly_raise | apply readonly_ret]. Qed.

Lemma readonly_get cid : readonly (orm.get cid).
Proof. intros w. apply get_world. Qed.

Lemma readonly_get_or_404 cid : readonly (Flask.get_or_404 cid).
Proof.
  unfold Flask.get_or_404. apply readonly_bind; [apply readonly_get|].
  intros [c|]; [apply readonly_ret | apply readonly_raise].
Qed.

Lemma readonly_first_or_404 cid : readonly (FastAPI.first_or_404 cid).
Proof.
  unfold FastAPI.first_or_404. apply readonly_bind; [apply readonly_get|].
  intros [c|]; [apply readonly_ret | apply readonly_raise].
Qed.

Lemma readonly_flask_get_chargers args : readonly (Flask.get_chargers args).
Proof.
  unfold Flask.get_chargers.
  apply readonly_bind; [by intros w|]. intros t.
  apply readonly_bind; [apply readonly_traverse, readonly_to_dict|].
  intros ds. apply readonly_ret.
Qed.

Lemma readonly_flask_get_charger cid : readonly (Flask.get_charger cid).
Proof.
  unfold Flask.get_charger.
  apply readonly_bind; [apply readonly_get_or_404|]. intros c.
  apply readonly_bind; [apply readonly_to_dict|].
  intros d. apply readonly_ret.
Qed.

Lemma readonly_flask_stats : readonly Flask.get_charger_stats.
Proof.
  unfold Flask.get_charger_stats.
  apply readonly_bind; [by intros w|]. intros t. apply readonly_ret.
Qed.

Lemma readonly_fastapi_get_chargers a ty :
  readonly (FastAPI.get_chargers a ty).
Proof.
  unfold FastAPI.get_chargers.
  apply readonly_bind; [by intros w|]. intros t.
  apply readonly_bind; [apply readonly_traverse, readonly_to_dict|].
  intros ds. apply readonly_ret.
Qed.

Lemma readonly_fastapi_get_charger cid : readonly (FastAPI.get_charger cid).
Proof.
  unfold FastAPI.get_charger.
  apply readonly_bind; [apply readonly_first_or_404|]. intros c.
  apply readonly_bind; [apply readonly_to_dict|].
  intros d. apply readonly_ret.
Qed.

Lemma readonly_fastapi_stats : readonly FastAPI.get_charger_stats.
Proof.
  unfold FastAPI.get_charger_stats.
  apply readonly_bind; [by intros w|]. intros t.
  apply readonly_bind; [|intros; apply readonly_ret].
  unfold FastAPI.session_getattr.
  destruct (decide _); [apply readonly_ret | apply readonly_raise].
Qed.

Lemma flask_respond_world (h : M Response) w :
  (Flask.respond h w).2 = (h w).2.
Proof. unfold Flask.respond. by destruct (h w) as [[r|[]] w1]. Qed.

Lemma fastapi_respond_world (h : M Response) w :
  (FastAPI.respond h w).2 = (h w).2.
Proof.
  unfold FastAPI.respond. destruct (h w) as [[r|[]] w1]; try done.
  by destruct (FastAPI.response_model _).
Qed.

(** The handlers that write: once they keep [I], every request does. *)
Section writers.

Hypothesis Hdelete : ∀ c, keeps I (orm.DELETE c).
Hypothesis Hflask_add :
  ∀ lo av po ty no, keeps I (Flask.add_commit (models.new lo av po ty no)).
Hypothesis Hfastapi_add :
  ∀ lo av po ty no, keeps I (FastAPI.add_commit (models.new lo av po ty no)).
Hypothesis Hflask_update : ∀ cid data, keeps I (Flask.update_charger cid data).
Hypothesis Hfastapi_update :
  ∀ cid u, keeps I (FastAPI.update_charger cid u).

Lemma keeps_seed (add : Charger → M Charger) :
  (∀ lo av po ty no, keeps I (add (models.new lo av po ty no))) →
  keeps I (traverse add sample_chargers).
Proof.
  intros Hadd.
  assert (Forall (λ x, keeps I (add x)) sample_chargers) as Hall
    by (unfold sample_chargers;
        repeat (apply Forall_cons; split; [apply Hadd|]);
        apply Forall_nil_2).
  induction Hall as [|x l Hx Hl IH]; simpl.
  - apply keeps_ret.
  - apply keeps_bind; [done|]. intros y.
    apply keeps_bind; [apply IH|]. intros ys. apply keeps_ret.
Qed.

Lemma keeps_flask_route r : keeps I (Flask.route r).
Proof.
  destruct r as [args|cid|data|cid data|cid data|cid|]; simpl.
  - apply keeps_readonly, readonly_flask_get_chargers.
  - apply keeps_readonly, readonly_flask_get_charger.
  - unfold Flask.add_charger.
    destruct (List.find _ _); [apply keeps_ret|].
    repeat (apply keeps_bind;
            [apply keeps_readonly, readonly_item|]; intros ?).
    apply keeps_bind; [apply Hflask_add|]. intros c.
    apply keeps_bind; [apply keeps_readonly, readonly_to_dict|].
    intros d. apply keeps_ret.
  - apply Hflask_update.
  - apply Hflask_update.
  - unfold Flask.delete_charger.
    apply keeps_bind; [apply keeps_readonly, readonly_get_or_404|].
    intros c. apply keeps_bind; [apply Hdelete|].
    intros _. apply keeps_ret.
  - apply keeps_readonly, readonly_flask_stats.
Qed.

Lemma keeps_fastapi_route r : keeps I (FastAPI.route r).
Proof.
  destruct r as [a ty|cid|data|cid u|cid u|cid|]; simpl.
  - apply keeps_readonly, readonly_fastapi_get_chargers.
  - apply keeps_readonly, readonly_fastapi_get_charger.
  - destruct (ChargerCreate.parse data) as [charger|];
      [|apply keeps_raise].
    unfold FastAPI.add_charger.
    apply keeps_bind; [apply Hfastapi_add|]. intros c.
    apply keeps_bind; [apply keeps_readonly, readonly_to_dict|].
    intros d. apply keeps_ret.
  - apply Hfastapi_update.
  - rewrite partial_update_is_update. apply Hfastapi_update.
  - unfold FastAPI.delete_charger.
    apply keeps_bind; [apply keeps_readonly, readonly_first_or_404|].
    intros c. apply keeps_bind; [apply Hdelete|].
    intros _. apply keeps_ret.
  - apply keeps_readonly, readonly_fastapi_stats.
Qed.

Lemma keeps_init_db : keeps I Flask.init_db.
Proof.
  unfold Flask.init_db.
  apply keeps_bind; [by intros w|]. intros t.
  destruct (decide _); [|apply keeps_ret].
  apply keeps_bind; [|intros; apply keeps_ret].
  apply keeps_seed, Hflask_add.
Qed.

Lemma keeps_add_sample_data : keeps I FastAPI.add_sample_data.
Proof.
  unfold FastAPI.add_sample_data.
  apply keeps_bind; [by intros w|]. intros t.
  destruct (decide _); [apply keeps_ret|].
  apply keeps_bind; [|intros; apply keeps_ret].
  apply keeps_seed, Hfastapi_add.
Qed.

Lemma keeps_flask_serve r w : I w → I (Flask.serve r w).2.
Proof.
  intros Hw. unfold Flask.serve. rewrite flask_respond_world.
  by apply keeps_flask_route.
Qed.

Lemma keeps_fastapi_handle r w : I w → I (FastAPI.handle r w).2.
Proof.
  intros Hw. unfold FastAPI.handle. rewrite fastapi_respond_world.
  by apply keeps_fastapi_route.
Qed.

Lemma keeps_fastapi_serve r w : I w → I (FastAPI.serve r w).2.
Proof.
  intros Hw. unfold FastAPI.serve. rewrite fastapi_respond_world.
  unfold FastAPI.initialize_db.
  apply keeps_bind; [apply keeps_add_sample_data | | done].
  intros _. apply keeps_fastapi_route.
Qed.

Lemma keeps_flask_reachable w0 w : I w0 → Flask.reachable w0 w → I w.
Proof.
  intros H0. induction 1 as [|r w Hreach IH].
  - by apply keeps_init_db.
  - by apply keeps_flask_serve.
Qed.

Lemma keeps_fastapi_reachable w0 w : I w0 → FastAPI.reachable w0 w → I w.
Proof.
  intros H0. induction 1 as [|r w Hreach IH].
  - done.
  - by apply keeps_fastapi_serve.
Qed.

End writers.

End keeps_generic.

(** X4.  The reading requests (list, get by id, statistics) leave the
    table and the clock exactly as they were, whatever they answer; in the
    FastAPI application the only change a reading request can bring is the
    seeding its middleware does on an empty table. *)
Theorem reading_requests_change_nothing
        (args : gmap string string) (a : option bool) (ty : option string)
        (cid : Z) (w : World) :
  (Flask.serve (Flask.GET_chargers args) w).2 = w
  ∧ (Flask.serve (Flask.GET_charger cid) w).2 = w
  ∧ (Flask.serve Flask.GET_stats w).2 = w
  ∧ (FastAPI.handle (FastAPI.GET_chargers a ty) w).2 = w
  ∧ (FastAPI.handle (FastAPI.GET_charger cid) w).2 = w
  ∧ (FastAPI.handle FastAPI.GET_stats_summary w).2 = w
  ∧ (FastAPI.serve (FastAPI.GET_chargers a ty) w).2
    = (FastAPI.add_sample_data w).2
  ∧ (FastAPI.serve (FastAPI.GET_charger cid) w).2
    = (FastAPI.add_sample_data w).2
  ∧ (FastAPI.serve FastAPI.GET_stats_summary w).2
    = (FastAPI.add_sample_data w).2.
Proof.
  rewrite !fastapi_serve_handle.
  unfold Flask.serve, FastAPI.handle.
  rewrite !flask_respond_world, !fastapi_respond_world. simpl.
  repeat split;
    first [ apply readonly_flask_get_chargers
          | apply readonly_flask_get_charger
          | apply readonly_flask_stats
          | apply readonly_fastapi_get_chargers
          | apply readonly_fastapi_get_charger
          | apply readonly_fastapi_stats ].
Qed.

Section table_constraints.

Lemma fmap_id_replaced (c : Charger) (t : list Charger) :
  id <$> replaced c t = id <$> t.
Proof.
  unfold replaced. rewrite <-list_fmap_compose.
  apply list_fmap_ext. intros _ r _. simpl.
  by destruct (decide (id r = id c)).
Qed.

Lemma NoDup_fmap_filter (P : Charger → Prop) `{!∀ c, Decision (P c)}
      (t : list Charger) :
  NoDup (id <$> t) → NoDup (id <$> filter P t).
Proof.
  induction t as [|c t IH]; [done|].
  rewrite fmap_cons, filter_cons. intros [Hc Ht]%NoDup_cons.
  destruct (decide (P c)); [|by apply IH].
  rewrite fmap_cons. apply NoDup_cons. split; [|by apply IH].
  intros Hin. apply Hc.
  apply list_elem_of_fmap in Hin as (r & -> & Hr).
  apply list_elem_of_filter in Hr as [_ Hr].
  by apply list_elem_of_fmap_2.
Qed.

Lemma Keyed_same_table w w' :
  chargers w' = chargers w → Keyed w → Keyed w'.
Proof. unfold Keyed. by intros ->. Qed.

Lemma Keyed_append w clk (c : Charger) :
  Keyed w → id c = Some (orm.next_rowid (chargers w)) →
  orm.not_null c = true →
  Keyed (mkWorld (chargers w ++ [c]) clk).
Proof.
  intros [Hnd Hall] Hid Hnn. split; simpl.
  - rewrite fmap_app. apply NoDup_app. split; [done|]. split.
    + intros x Hx [->|Hin%elem_of_nil]%elem_of_cons; [|done].
      apply list_elem_of_fmap in Hx as (r & Hr & Hin).
      apply next_rowid_fresh in Hin. congruence.
    + apply NoDup_singleton.
  - apply Forall_app. split; [done|].
    apply Forall_singleton. split; [by rewrite Hid | done].
Qed.

Lemma keeps_Keyed_DELETE c : keeps Keyed (orm.DELETE c).
Proof.
  intros w [Hnd Hall]. split; simpl.
  - by apply NoDup_fmap_filter.
  - apply Forall_forall. intros r Hr.
    apply list_elem_of_filter in Hr as [_ Hr].
    by eapply Forall_forall in Hall.
Qed.

Lemma keeps_Keyed_flask_add lo av po ty no :
  keeps Keyed (Flask.add_commit (models.new lo av po ty no)).
Proof.
  intros w Hw. rewrite flask_add_commit_new. cbn zeta.
  destruct (orm.not_null _) eqn:Hnn; simpl.
  - by apply Keyed_append.
  - by eapply Keyed_same_table.
Qed.

Lemma keeps_Keyed_fastapi_add lo av po ty no :
  keeps Keyed (FastAPI.add_commit (models.new lo av po ty no)).
Proof.
  intros w Hw. rewrite fastapi_add_commit_new. cbn zeta.
  destruct (orm.not_null _) eqn:Hnn; simpl.
  - by apply Keyed_append.
  - by eapply Keyed_same_table.
Qed.

Lemma not_null_kept (c obj : Charger) :
  orm.not_null c = true →
  orm.sets_null (location c) (location obj)
  || orm.sets_null (power c) (power obj)
  || orm.sets_null (type c) (type obj) = false →
  orm.not_null obj = true.
Proof.
  unfold orm.not_null. intros Hnn Hs.
  apply andb_prop in Hnn as [Hnn H3]. apply andb_prop in Hnn as [H1 H2].
  apply bool_decide_eq_true in H1 as [l Hl].
  apply bool_decide_eq_true in H2 as [p Hp].
  apply bool_decide_eq_true in H3 as [t Ht].
  rewrite Hl, Hp, Ht in Hs.
  destruct (location obj), (power obj), (type obj); simpl in Hs;
    try discriminate.
  done.
Qed.

(** The flush keeps the constraints when the object was loaded from the
    table and kept its key. *)
Lemma flush_dirty_Keyed (c obj : Charger) (w : World) (cid : Z) :
  Keyed w → orm.row cid (chargers w) = Some c → id obj = id c →
  Keyed (orm.flush_dirty c obj w).2.
Proof.
  intros Hw Hrow Hid. rewrite flush_dirty_unfold.
  destruct (decide (obj = c)); [done|]. cbn zeta.
  pose proof Hw as [Hnd Hall].
  pose proof (row_Some_elem_of _ _ _ Hrow) as Hin.
  pose proof (row_Some_id _ _ _ Hrow) as Hcid.
  eapply Forall_forall in Hall as [Hsome Hnn]; [|exact Hin].
  set (obj' := if bool_decide (updated_at obj = updated_at c)
               then set_updated_at (Some (clock w 0%nat)) obj else obj).
  set (w1 := if bool_decide (updated_at obj = updated_at c)
             then tick w else w).
  assert (chargers w1 = chargers w) as Hw1
    by (subst w1; by destruct (bool_decide _)).
  assert (id obj' = id c) as Hid'
    by (subst obj'; destruct (bool_decide _); by destruct obj).
  destruct (_ || _) eqn:Hs; simpl.
  - by eapply Keyed_same_table.
  - destruct Hw as [_ Hall]. split; simpl.
    + by rewrite fmap_id_replaced.
    + apply Forall_replaced; [|done]. split.
      * by rewrite Hid'.
      * by eapply not_null_kept.
Qed.

Lemma keeps_Keyed_flask_update cid data :
  keeps Keyed (Flask.update_charger cid data).
Proof.
  intros w Hw.
  destruct (orm.row cid (chargers w)) as [c|] eqn:Hrow;
    [|by rewrite flask_update_missing].
  rewrite (flask_update_unfold _ _ _ _ Hrow). cbn zeta.
  rewrite commit_world.
  destruct (bool_decide _).
  - by apply flush_dirty_Keyed with cid.
  - by apply flush_dirty_Keyed with cid.
Qed.

Lemma keeps_Keyed_fastapi_update cid u :
  keeps Keyed (FastAPI.update_charger cid u).
Proof.
  intros w Hw.
  destruct (orm.row cid (chargers w)) as [c|] eqn:Hrow;
    [|by rewrite fastapi_update_missing].
  rewrite (fastapi_update_unfold _ _ _ _ Hrow). cbn zeta.
  rewrite commit_world.
  destruct (bool_decide _).
  - by apply flush_dirty_Keyed with cid.
  - by apply flush_dirty_Keyed with cid.
Qed.

Lemma Keyed_empty w : chargers w = [] → Keyed w.
Proof.
  intros He. unfold Keyed. rewrite He. split; [apply NoDup_nil_2 | done].
Qed.

Lemma flask_reachable_Keyed w0 w :
  chargers w0 = [] → Flask.reachable w0 w → Keyed w.
Proof.
  intros He.
  apply (keeps_flask_reachable Keyed keeps_Keyed_DELETE
           keeps_Keyed_flask_add keeps_Keyed_flask_update).
  by apply Keyed_empty.
Qed.

Lemma fastapi_reachable_Keyed w0 w :
  chargers w0 = [] → FastAPI.reachable w0 w → Keyed w.
Proof.
  intros He.
  apply (keeps_fastapi_reachable Keyed keeps_Keyed_DELETE
           keeps_Keyed_fastapi_add keeps_Keyed_fastapi_update).
  by apply Keyed_empty.
Qed.

End table_constraints.

Section keyed_tables.

Lemma Keyed_row (w : World) (c : Charger) (i : Z) :
  Keyed w → c ∈ chargers w → id c = Some i →
  orm.row i (chargers w) = Some c.
Proof.
  intros [Hnd _] Hin Hid. unfold orm.row.
  induction (chargers w) as [|r t IH]; [by apply elem_of_nil in Hin|].
  rewrite fmap_cons in Hnd. apply NoDup_cons in Hnd as [Hr Hnd].
  apply elem_of_cons in Hin as [->|Hin].
  - by rewrite filter_cons_True.
  - rewrite filter_cons_False; [by apply IH|].
    intros Hri. apply Hr. rewrite Hri, <-Hid.
    by apply list_elem_of_fmap_2.
Qed.

Lemma Keyed_filter_id (w : World) (c : Charger) (i : Z) :
  Keyed w → c ∈ chargers w → id c = Some i →
  filter (λ r, id r ≠ Some i) (chargers w)
  = filter (λ r, r ≠ c) (chargers w).
Proof.
  intros Hw Hin Hid.
  assert (∀ r, r ∈ chargers w → id r ≠ Some i ↔ r ≠ c) as Hiff.
  { intros r Hr. split.
    - intros Hne ->. done.
    - intros Hne Hri. apply Hne.
      pose proof (Keyed_row w r i Hw Hr Hri) as H1.
      pose proof (Keyed_row w c i Hw Hin Hid) as H2. congruence. }
  clear Hw Hin. induction (chargers w) as [|r t IH]; [done|].
  rewrite !filter_cons, IH by (intros; apply Hiff; by right).
  pose proof (Hiff r (list_elem_of_here _ _)) as Hr.
  destruct (decide (id r ≠ Some i)), (decide (r ≠ c)); naive_solver.
Qed.

Lemma length_filter_one (t : list Charger) (c : Charger) :
  NoDup t → c ∈ t → S (length (filter (λ r, r ≠ c) t)) = length t.
Proof.
  induction 1 as [|r t Hr Hnd IH]; intros Hin.
  - by apply elem_of_nil in Hin.
  - apply elem_of_cons in Hin as [->|Hin].
    + rewrite filter_cons_False by (intros H; by apply H). simpl. f_equal.
      clear IH. induction t as [|x t IH]; [done|].
      apply not_elem_of_cons in Hr as [Hne Hr].
      apply NoDup_cons in Hnd as [_ Hnd].
      rewrite filter_cons_True by done. simpl. f_equal. by apply IH.
    + rewrite filter_cons_True by (intros ->; done). simpl. f_equal.
      by apply IH.
Qed.

End keyed_tables.

(** X5.  The constraints of the table hold in every world that either
    application reaches from an empty table: every row has an id and its
    location, power and type set, no two rows share an id, and a lookup by
    the id of a row finds that row. *)
Theorem reachable_tables_are_keyed (w0 w : World) :
  chargers w0 = [] →
  Flask.reachable w0 w ∨ FastAPI.reachable w0 w →
  NoDup (id <$> chargers w)
  ∧ (∀ c, c ∈ chargers w →
          is_Some (id c) ∧ is_Some (location c) ∧ is_Some (power c)
          ∧ is_Some (type c))
  ∧ (∀ c i, c ∈ chargers w → id c = Some i →
            orm.row i (chargers w) = Some c).
Proof.
  intros He Hreach.
  assert (Keyed w) as Hw.
  { destruct Hreach;
      [by eapply flask_reachable_Keyed | by eapply fastapi_reachable_Keyed]. }
  split; [by destruct Hw|]. split.
  - intros c Hc. destruct Hw as [_ Hall].
    eapply Forall_forall in Hall as [Hid Hnn]; [|done].
    unfold orm.not_null in Hnn.
    apply andb_prop in Hnn as [Hnn H3]. apply andb_prop in Hnn as [H1 H2].
    apply bool_decide_eq_true in H1, H2, H3. done.
  - intros c i. by apply Keyed_row.
Qed.

(** The table seeded at start-up. *)
Lemma flask_seeded_is_keyed : NoDup (id <$> chargers flask_seeded).
Proof.
  apply (reachable_tables_are_keyed (mkWorld [] ticking) flask_seeded).
  - reflexivity.
  - left. apply Flask.reach_start.
Defined.

(** X6.  On a table whose ids are distinct, a successful delete removes
    exactly the one record: the table is one row shorter and holds the same
    rows as before except that one, in both applications. *)
Theorem delete_removes_one_row (cid : Z) (w : World) (c : Charger) :
  Keyed w →
  orm.row cid (chargers w) = Some c →
  let w1 := (Flask.serve (Flask.DELETE_charger cid) w).2 in
  let w2 := (FastAPI.handle (FastAPI.DELETE_charger cid) w).2 in
  chargers w1 = filter (λ r, r ≠ c) (chargers w)
  ∧ chargers w2 = filter (λ r, r ≠ c) (chargers w)
  ∧ S (length (chargers w1)) = length (chargers w)
  ∧ S (length (chargers w2)) = length (chargers w).
Proof.
  intros Hw Hrow w1 w2.
  pose proof (row_Some_id _ _ _ Hrow) as Hid.
  pose proof (row_Some_elem_of _ _ _ Hrow) as Hin.
  assert (chargers w1 = filter (λ r, r ≠ c) (chargers w)) as H1.
  { subst w1. unfold Flask.serve. rewrite flask_respond_world. simpl.
    unfold Flask.delete_charger.
    rewrite (bind_returns _ _ _ _ _ (get_or_404_found _ _ _ Hrow)).
    unfold orm.DELETE. munfold. rewrite Hid. by apply Keyed_filter_id. }
  assert (chargers w2 = filter (λ r, r ≠ c) (chargers w)) as H2.
  { subst w2. unfold FastAPI.handle. rewrite fastapi_respond_world. simpl.
    unfold FastAPI.delete_charger.
    rewrite (bind_returns _ _ _ _ _ (first_or_404_found _ _ _ Hrow)).
    unfold orm.DELETE. munfold. rewrite Hid. by apply Keyed_filter_id. }
  assert (NoDup (chargers w)) as Hnd.
  { destruct Hw as [Hnd _]. by eapply NoDup_fmap_1. }
  rewrite H1, H2. repeat split; by apply length_filter_one.
Qed.

(** Charger 1 of the seeded table is deleted. *)
Lemma delete_removes_one_row_seeded :
  S (length (chargers (Flask.serve (Flask.DELETE_charger 1) flask_seeded).2))
  = length (chargers flask_seeded).
Proof.
  assert (Keyed flask_seeded) as Hk.
  { apply (flask_reachable_Keyed (mkWorld [] ticking)); [reflexivity|].
    apply Flask.reach_start. }
  assert (∃ c, orm.row 1 (chargers flask_seeded) = Some c) as [c Hc]
    by (vm_compute; eauto).
  apply (delete_removes_one_row 1 flask_seeded c Hk Hc).
Defined.

Section statistics.

Lemma length_filter_split (P : Charger → Prop) `{!∀ c, Decision (P c)}
      (t : list Charger) :
  (length (filter P t) + length (filter (λ c, ¬ P c) t))%nat = length t.
Proof.
  induction t as [|c t IH]; [done|].
  rewrite !filter_cons.
  destruct (decide (P c)), (decide (¬ P c)); simpl; try done; lia.
Qed.

End statistics.

(** X7.  The statistics of the Flask application, on every table it
    reaches from an empty one: the request is answered 200 and changes
    nothing; the total is the number of rows; the available count is the
    number of rows whose [available] is true and the unavailable count is
    the number of all other rows, those with a null [available] included;
    [chargerTypes] has exactly one entry per type present, with the number
    of rows of that type, and its values add up to the total. *)
Theorem flask_statistics (w0 w : World) :
  chargers w0 = [] →
  Flask.reachable w0 w →
  ∃ s,
    Flask.serve Flask.GET_stats w = (mkResponse 200 (JsonStats s), w)
    ∧ totalChargers s = Z.of_nat (length (chargers w))
    ∧ availableChargers s
      = Z.of_nat (length (filter (λ c, available c = Some true)
                                 (chargers w)))
    ∧ unavailableChargers s
      = Z.of_nat (length (filter (λ c, ¬ available c = Some true)
                                 (chargers w)))
    ∧ totalChargers s = availableChargers s + unavailableChargers s
    ∧ (∀ ty, chargerTypes s !! ty
             = if decide (ty ∈ type <$> chargers w)
               then Some (count_type ty (chargers w)) else None)
    ∧ sum_values (chargerTypes s) = totalChargers s.
Proof.
  intros He Hreach.
  assert (Forall (λ c, is_Some (id c)) (chargers w)) as Hid.
  { pose proof (flask_reachable_Keyed _ _ He Hreach) as [_ Hall].
    eapply Forall_impl; [done|]. by intros c [? _]. }
  destruct (flask_stats w Hid) as (s & Hs & Ht & Ha & Hu & Hsum & Hty & Hv).
  exists s. split.
  { unfold Flask.serve, Flask.respond.
    change (Flask.route Flask.GET_stats) with Flask.get_charger_stats.
    by rewrite Hs. }
  repeat split; try done.
  rewrite Hu, Ht, Ha.
  pose proof (length_filter_split (λ c, available c = Some true)
                                  (chargers w)). lia.
Qed.

(** The statistics of the table seeded at start-up. *)
Lemma flask_statistics_seeded :
  ∃ s, Flask.serve Flask.GET_stats flask_seeded
       = (mkResponse 200 (JsonStats s), flask_seeded)
       ∧ totalChargers s = 6.
Proof.
  destruct (flask_statistics (mkWorld [] ticking) flask_seeded eq_refl
              (Flask.reach_start _)) as (s & Hs & Ht & _).
  exists s. split; [exact Hs|]. rewrite Ht. reflexivity.
Defined.

Section timed_tables.

Lemma Timed_tick w : Timed w → Timed (tick w).
Proof.
  intros [Hm Hall]. split.
  - intros n. apply Hm.
  - simpl. eapply Forall_impl; [done|].
    intros c (tu & Hu & Hle). exists tu. split; [done|].
    specialize (Hm 0%nat). lia.
Qed.

Lemma Timed_row w cid c :
  Timed w → orm.row cid (chargers w) = Some c →
  ∃ tu, updated_at c = Some tu ∧ tu ≤ clock w 0%nat.
Proof.
  intros [_ Hall] Hrow. apply row_Some_elem_of in Hrow.
  by eapply Forall_forall in Hall.
Qed.

Lemma keeps_Timed_DELETE c : keeps Timed (orm.DELETE c).
Proof.
  intros w [Hm Hall]. split; [done|]. simpl.
  apply Forall_forall. intros r Hr.
  apply list_elem_of_filter in Hr as [_ Hr].
  by eapply Forall_forall in Hall.
Qed.

Lemma Timed_append w k (c : Charger) tu :
  Timed w → updated_at c = Some tu → tu ≤ clock w k →
  (∀ n, clock (Nat.iter k tick w) n = clock w (k + n)%nat) →
  Timed (mkWorld (chargers w ++ [c]) (clock (Nat.iter k tick w))).
Proof.
  intros [Hm Hall] Hu Hle Hclk. split.
  - intros n. simpl. rewrite !Hclk, Nat.add_succ_r. apply Hm.
  - simpl. rewrite Hclk, Nat.add_0_r. apply Forall_app. split.
    + eapply Forall_impl; [done|]. intros r (t & Ht & Hlt).
      exists t. split; [done|].
      pose proof (monotone_le _ 0%nat k Hm). simpl in *. lia.
    + apply Forall_singleton. by exists tu.
Qed.

Lemma keeps_Timed_flask_add lo av po ty no :
  keeps Timed (Flask.add_commit (models.new lo av po ty no)).
Proof.
  intros w Hw. rewrite flask_add_commit_new. cbn zeta.
  destruct (orm.not_null _); simpl.
  - apply (Timed_append w 3) with (clock w 2%nat); try done.
    destruct Hw as [Hm _]. apply Hm.
  - by do 3 apply Timed_tick.
Qed.

Lemma keeps_Timed_fastapi_add lo av po ty no :
  keeps Timed (FastAPI.add_commit (models.new lo av po ty no)).
Proof.
  intros w Hw. rewrite fastapi_add_commit_new. cbn zeta.
  destruct (orm.not_null _); simpl.
  - apply (Timed_append w 2) with (clock w 1%nat); try done.
    destruct Hw as [Hm _]. apply Hm.
  - by do 2 apply Timed_tick.
Qed.

Lemma flush_dirty_Timed (c obj : Charger) (w : World) :
  Timed w →
  (∃ tu, updated_at obj = Some tu ∧ tu ≤ clock w 0%nat) →
  Timed (orm.flush_dirty c obj w).2.
Proof.
  intros Hw Hobj. rewrite flush_dirty_unfold.
  destruct (decide (obj = c)); [done|]. cbn zeta.
  destruct (bool_decide (updated_at obj = updated_at c)).
  - destruct (_ || _); simpl; [by apply Timed_tick|].
    pose proof (Timed_tick w Hw) as [Hm' Hall'].
    split; [done|]. simpl.
    apply Forall_replaced; [|done].
    exists (clock w 0%nat). split; [done|].
    destruct Hw as [Hm _]. apply Hm.
  - destruct (_ || _); simpl; [done|].
    destruct Hw as [Hm Hall]. split; [done|]. simpl.
    by apply Forall_replaced.
Qed.

Lemma keeps_Timed_flask_update cid data :
  keeps Timed (Flask.update_charger cid data).
Proof.
  intros w Hw.
  destruct (orm.row cid (chargers w)) as [c|] eqn:Hrow;
    [|by rewrite flask_update_missing].
  rewrite (flask_update_unfold _ _ _ _ Hrow). cbn zeta.
  rewrite commit_world.
  destruct (Timed_row _ _ _ Hw Hrow) as (tu & Hu & Hle).
  destruct (bool_decide _).
  - apply flush_dirty_Timed; [by apply Timed_tick|].
    exists tu. split; [done|]. simpl.
    destruct Hw as [Hm _]. specialize (Hm 0%nat). lia.
  - apply flush_dirty_Timed; [done|]. by exists tu.
Qed.

Lemma keeps_Timed_fastapi_update cid u :
  keeps Timed (FastAPI.update_charger cid u).
Proof.
  intros w Hw.
  destruct (orm.row cid (chargers w)) as [c|] eqn:Hrow;
    [|by rewrite fastapi_update_missing].
  rewrite (fastapi_update_unfold _ _ _ _ Hrow). cbn zeta.
  rewrite commit_world.
  pose proof Hw as [Hm _].
  pose proof (Hm 0%nat). pose proof (Hm 1%nat).
  destruct (bool_decide _).
  - apply flush_dirty_Timed; [by do 2 apply Timed_tick|].
    exists (clock w 1%nat). split; [done|]. simpl. lia.
  - apply flush_dirty_Timed; [by apply Timed_tick|].
    exists (clock w 0%nat). split; [done|]. simpl. lia.
Qed.

Lemma Timed_empty w : monotone (clock w) → chargers w = [] → Timed w.
Proof. intros Hm He. split; [done|]. rewrite He. constructor. Qed.

Lemma flask_reachable_Timed w0 w :
  monotone (clock w0) → chargers w0 = [] → Flask.reachable w0 w → Timed w.
Proof.
  intros Hm He.
  apply (keeps_flask_reachable Timed keeps_Timed_DELETE
           keeps_Timed_flask_add keeps_Timed_flask_update).
  by apply Timed_empty.
Qed.

Lemma fastapi_reachable_Timed w0 w :
  monotone (clock w0) → chargers w0 = [] → FastAPI.reachable w0 w → Timed w.
Proof.
  intros Hm He.
  apply (keeps_fastapi_reachable Timed keeps_Timed_DELETE
           keeps_Timed_fastapi_add keeps_Timed_fastapi_update).
  by apply Timed_empty.
Qed.

(** An update does not move [updated_at] back, Flask handler. *)
Lemma flask_update_advances cid data w resp w' :
  Timed w →
  Flask.update_charger cid data w = (Returns resp, w') →
  ∃ c c' tu tu',
    orm.row cid (chargers w) = Some c
    ∧ orm.row cid (chargers w') = Some c'
    ∧ updated_at c = Some tu ∧ updated_at c' = Some tu' ∧ tu ≤ tu'.
Proof.
  intros Hw H.
  destruct (orm.row cid (chargers w)) as [c|] eqn:Hrow;
    [|by rewrite flask_update_missing in H].
  rewrite (flask_update_unfold _ _ _ _ Hrow) in H. cbn zeta in H.
  destruct (Timed_row _ _ _ Hw Hrow) as (tu & Hu & Hle).
  pose proof Hw as [Hm _]. pose proof (Hm 0%nat) as Hm0.
  set (hit := bool_decide _) in *.
  apply (commit_row cid) in H
      as (c' & d & _ & _ & Hrow' & _ & Hcases);
    [| by destruct hit | done].
  exists c, c', tu.
  destruct Hcases as [(_ & -> & _)|[(_ & _ & Hc')|(_ & Hne & _)]].
  - exists tu. repeat split; try done; lia.
  - exists (clock (if hit then tick w else w) 0%nat).
    repeat split; try done. destruct hit; simpl; lia.
  - by destruct Hne.
Qed.

(** An update does not move [updated_at] back, FastAPI handler. *)
Lemma fastapi_update_advances cid u w resp w' :
  Timed w →
  FastAPI.update_charger cid u w = (Returns resp, w') →
  ∃ c c' tu tu',
    orm.row cid (chargers w) = Some c
    ∧ orm.row cid (chargers w') = Some c'
    ∧ updated_at c = Some tu ∧ updated_at c' = Some tu' ∧ tu ≤ tu'.
Proof.
  intros Hw H.
  destruct (orm.row cid (chargers w)) as [c|] eqn:Hrow;
    [|by rewrite fastapi_update_missing in H].
  rewrite (fastapi_update_unfold _ _ _ _ Hrow) in H. cbn zeta in H.
  destruct (Timed_row _ _ _ Hw Hrow) as (tu & Hu & Hle).
  pose proof Hw as [Hm _].
  pose proof (Hm 0%nat) as Hm0. pose proof (Hm 1%nat) as Hm1.
  set (hit := bool_decide _) in *.
  apply (commit_row cid) in H
      as (c' & d & _ & _ & Hrow' & _ & Hcases);
    [| by destruct hit | done].
  exists c, c', tu.
  destruct Hcases as [(_ & -> & _)|[(_ & _ & Hc')|(_ & _ & Hc')]].
  - exists tu. repeat split; try done; lia.
  - exists (clock (tick (if hit then tick w else w)) 0%nat).
    repeat split; try done. destruct hit; simpl; lia.
  - exists (clock (if hit then tick w else w) 0%nat).
    repeat split; try done. destruct hit; simpl; lia.
Qed.

End timed_tables.

(** X8.  With a clock that never goes back, no update moves [updated_at]
    back: on every table an application reaches from an empty one, a
    successful update leaves the record with an [updated_at] that is not
    before the one it had, in the Flask handler and in the FastAPI PUT and
    PATCH handlers. *)
Theorem updated_at_never_decreases
        (cid : Z) (data : payload.t) (u : ChargerUpdate.t)
        (w0 w w' : World) (resp : Response) :
  monotone (clock w0) →
  chargers w0 = [] →
  (Flask.reachable w0 w →
   Flask.update_charger cid data w = (Returns resp, w') →
   ∃ c c' tu tu',
     orm.row cid (chargers w) = Some c
     ∧ orm.row cid (chargers w') = Some c'
     ∧ updated_at c = Some tu ∧ updated_at c' = Some tu' ∧ tu ≤ tu')
  ∧ (FastAPI.reachable w0 w →
     FastAPI.update_charger cid u w = (Returns resp, w')
     ∨ FastAPI.partial_update_charger cid u w = (Returns resp, w') →
     ∃ c c' tu tu',
       orm.row cid (chargers w) = Some c
       ∧ orm.row cid (chargers w') = Some c'
       ∧ updated_at c = Some tu ∧ updated_at c' = Some tu' ∧ tu ≤ tu').
Proof.
  intros Hm He. split.
  - intros Hreach H. eapply flask_update_advances; [|done].
    by eapply flask_reachable_Timed.
  - intros Hreach H.
    assert (FastAPI.update_charger cid u w = (Returns resp, w')) as H'
      by (destruct H as [H|H]; [done | by rewrite partial_update_is_update in H]).
    eapply fastapi_update_advances; [|done].
    by eapply fastapi_reachable_Timed.
Qed.

(** Marking the first sample charger unavailable. *)
Lemma updated_at_never_decreases_seeded :
  ∃ c c' tu tu',
    orm.row 1 (chargers flask_seeded) = Some c
    ∧ orm.row 1
        (chargers
           (Flask.update_charger 1
              (payload.mk Absent (Present (Some false)) Absent Absent Absent)
              flask_seeded).2) = Some c'
    ∧ updated_at c = Some tu ∧ updated_at c' = Some tu' ∧ tu ≤ tu'.
Proof.
  assert (∃ resp,
            Flask.update_charger 1
              (payload.mk Absent (Present (Some false)) Absent Absent Absent)
              flask_seeded
            = (Returns resp,
               (Flask.update_charger 1
                  (payload.mk Absent (Present (Some false)) Absent Absent
                              Absent) flask_seeded).2)) as [resp H].
  { eexists. vm_compute. reflexivity. }
  assert (monotone (clock (mkWorld [] ticking))) as Hm
    by (intros n; unfold ticking; simpl; lia).
  exact (proj1 (updated_at_never_decreases 1
                  (payload.mk Absent (Present (Some false)) Absent Absent
                              Absent)
                  (ChargerUpdate.mk Absent Absent Absent Absent Absent)
                  (mkWorld [] ticking) flask_seeded _ resp Hm eq_refl)
               (Flask.reach_start _) H).
Defined.

Section isolation.

Lemma row_filter_other (cid : Z) (k : option Z) (t : list Charger) :
  k ≠ Some cid →
  orm.row cid (filter (λ r, id r ≠ k) t) = orm.row cid t.
Proof.
  intros Hk. unfold orm.row. induction t as [|r t IH]; [done|].
  destruct (decide (id r = k)) as [Hr|Hr].
  - rewrite (filter_cons_False (λ r, id r ≠ k)) by (intros H; by apply H).
    rewrite (filter_cons_False (λ c, id c = Some cid)) by congruence.
    apply IH.
  - rewrite (filter_cons_True (λ r, id r ≠ k)) by done.
    destruct (decide (id r = Some cid)).
    + by rewrite !filter_cons_True.
    + by rewrite !filter_cons_False.
Qed.

Lemma row_replaced_other (cid : Z) (o : Charger) (t : list Charger) :
  id o ≠ Some cid →
  orm.row cid (replaced o t) = orm.row cid t.
Proof.
  intros Ho. unfold orm.row, replaced. induction t as [|r t IH]; [done|].
  rewrite fmap_cons.
  destruct (decide (id r = id o)) as [Hr|Hr].
  - rewrite filter_cons_False by done.
    rewrite filter_cons_False by congruence. apply IH.
  - destruct (decide (id r = Some cid)).
    + rewrite !filter_cons_True by done. simpl. done.
    + by rewrite !filter_cons_False.
Qed.

(** The table a commit of a loaded and assigned object leaves: the old one,
    or the old one with the object's row replaced. *)
Lemma flush_dirty_table (c obj : Charger) (w : World) :
  id obj = id c →
  chargers (orm.flush_dirty c obj w).2 = chargers w
  ∨ ∃ o, id o = id c
         ∧ chargers (orm.flush_dirty c obj w).2 = replaced o (chargers w).
Proof.
  intros Hid. rewrite flush_dirty_unfold.
  destruct (decide (obj = c)); [by left|]. cbn zeta.
  destruct (bool_decide _).
  - destruct (_ || _); [by left|]. right.
    eexists. split. 2: reflexivity. done.
  - destruct (_ || _); [by left|]. right.
    eexists. split. 2: reflexivity. done.
Qed.

Lemma flask_update_table cid data w :
  chargers (Flask.update_charger cid data w).2 = chargers w
  ∨ ∃ o, id o = Some cid
         ∧ chargers (Flask.update_charger cid data w).2
           = replaced o (chargers w).
Proof.
  destruct (orm.row cid (chargers w)) as [c|] eqn:Hrow;
    [|left; by rewrite flask_update_missing].
  rewrite (flask_update_unfold _ _ _ _ Hrow). cbn zeta.
  rewrite commit_world. rewrite <- (row_Some_id _ _ _ Hrow).
  set (hit := bool_decide _).
  match goal with
  | |- context [orm.flush_dirty c ?obj] =>
      destruct (flush_dirty_table c obj (if hit then tick w else w) eq_refl)
        as [H|(o & Ho & H)]
  end.
  - left. rewrite H. by destruct hit.
  - right. exists o. split; [done|]. rewrite H. by destruct hit.
Qed.

Lemma fastapi_update_table cid u w :
  chargers (FastAPI.update_charger cid u w).2 = chargers w
  ∨ ∃ o, id o = Some cid
         ∧ chargers (FastAPI.update_charger cid u w).2
           = replaced o (chargers w).
Proof.
  destruct (orm.row cid (chargers w)) as [c|] eqn:Hrow;
    [|left; by rewrite fastapi_update_missing].
  rewrite (fastapi_update_unfold _ _ _ _ Hrow). cbn zeta.
  rewrite commit_world. rewrite <- (row_Some_id _ _ _ Hrow).
  set (hit := bool_decide _).
  match goal with
  | |- context [orm.flush_dirty c ?obj] =>
      destruct (flush_dirty_table c obj (tick (if hit then tick w else w))
                                  eq_refl) as [H|(o & Ho & H)]
  end.
  - left. rewrite H. by destruct hit.
  - right. exists o. split; [done|]. rewrite H. by destruct hit.
Qed.

Lemma flask_add_charger_table data w :
  chargers (Flask.add_charger data w).2 = chargers w
  ∨ ∃ c : Charger,
      chargers (Flask.add_charger data w).2 = (chargers w ++ [c])%list.
Proof.
  unfold Flask.add_charger.
  destruct (List.find _ _); [by left|].
  destruct (payload.location data) as [|lo]; [by left|].
  destruct (payload.power data) as [|po]; [by left|].
  destruct (payload.type data) as [|ty]; [by left|].
  unfold item. rewrite !(bind_returns (ret _) _ _ _ _ eq_refl).
  pose proof (flask_add_commit_new lo
                (get_default (payload.available data) (Some true)) po ty
                (get_default (payload.notes data) (Some "")) w) as Hadd.
  cbn zeta in Hadd. destruct (orm.not_null _).
  - rewrite (bind_returns _ _ _ _ _ Hadd).
    erewrite (bind_returns (to_dict _))
      by (apply to_dict_returns; reflexivity).
    right. by eexists.
  - rewrite (bind_raises _ _ _ _ _ Hadd). by left.
Qed.

Lemma fastapi_add_charger_table charger w :
  chargers (FastAPI.add_charger charger w).2 = chargers w
  ∨ ∃ c : Charger,
      chargers (FastAPI.add_charger charger w).2 = (chargers w ++ [c])%list.
Proof.
  unfold FastAPI.add_charger.
  pose proof (fastapi_add_commit_new
                (Some (ChargerCreate.location charger))
                (Some (ChargerCreate.available charger))
                (Some (ChargerCreate.power charger))
                (Some (ChargerCreate.type charger))
                (ChargerCreate.notes charger) w) as Hadd.
  cbn zeta in Hadd. destruct (orm.not_null _).
  - rewrite (bind_returns _ _ _ _ _ Hadd).
    unfold format_charger.
    erewrite (bind_returns (to_dict _))
      by (apply to_dict_returns; reflexivity).
    right. by eexists.
  - rewrite (bind_raises _ _ _ _ _ Hadd). by left.
Qed.

Lemma flask_delete_table cid w :
  chargers (Flask.delete_charger cid w).2
  = match orm.row cid (chargers w) with
    | Some _ => filter (λ r, id r ≠ Some cid) (chargers w)
    | None => chargers w
    end.
Proof.
  unfold Flask.delete_charger.
  destruct (orm.row cid (chargers w)) as [c|] eqn:Hrow.
  - rewrite (bind_returns _ _ _ _ _ (get_or_404_found _ _ _ Hrow)).
    unfold orm.DELETE. munfold. by rewrite (row_Some_id _ _ _ Hrow).
  - by rewrite (bind_raises _ _ _ _ _ (get_or_404_missing _ _ Hrow)).
Qed.

Lemma fastapi_delete_table cid w :
  chargers (FastAPI.delete_charger cid w).2
  = match orm.row cid (chargers w) with
    | Some _ => filter (λ r, id r ≠ Some cid) (chargers w)
    | None => chargers w
    end.
Proof.
  unfold FastAPI.delete_charger.
  destruct (orm.row cid (chargers w)) as [c|] eqn:Hrow.
  - rewrite (bind_returns _ _ _ _ _ (first_or_404_found _ _ _ Hrow)).
    unfold orm.DELETE. munfold. by rewrite (row_Some_id _ _ _ Hrow).
  - by rewrite (bind_raises _ _ _ _ _ (first_or_404_missing _ _ Hrow)).
Qed.

Lemma flask_route_isolates (cid : Z) (c : Charger) r w :
  flask_target r ≠ Some cid →
  orm.row cid (chargers w) = Some c →
  orm.row cid (chargers (Flask.route r w).2) = Some c.
Proof.
  intros Ht Hrow.
  assert (∀ i data, i ≠ cid →
            orm.row cid (chargers (Flask.update_charger i data w).2)
            = Some c) as Hupd.
  { intros i data Hi.
    destruct (flask_update_table i data w) as [->|(o & Ho & ->)]; [done|].
    rewrite row_replaced_other; [done | congruence]. }
  destruct r as [args|i|data|i data|i data|i|];
    cbn [Flask.route flask_target] in *.
  - by rewrite readonly_flask_get_chargers.
  - by rewrite readonly_flask_get_charger.
  - destruct (flask_add_charger_table data w) as [->|[n ->]]; [done|].
    by apply row_app_old.
  - apply Hupd. congruence.
  - apply Hupd. congruence.
  - rewrite flask_delete_table. destruct (orm.row i _); [|done].
    rewrite row_filter_other; [done | congruence].
  - by rewrite readonly_flask_stats.
Qed.

Lemma fastapi_route_isolates (cid : Z) (c : Charger) r w :
  fastapi_target r ≠ Some cid →
  orm.row cid (chargers w) = Some c →
  orm.row cid (chargers (FastAPI.route r w).2) = Some c.
Proof.
  intros Ht Hrow.
  assert (∀ i u, i ≠ cid →
            orm.row cid (chargers (FastAPI.update_charger i u w).2)
            = Some c) as Hupd.
  { intros i u Hi.
    destruct (fastapi_update_table i u w) as [->|(o & Ho & ->)]; [done|].
    rewrite row_replaced_other; [done | congruence]. }
  destruct r as [a ty|i|data|i u|i u|i|];
    cbn [FastAPI.route fastapi_target] in *.
  - by rewrite readonly_fastapi_get_chargers.
  - by rewrite readonly_fastapi_get_charger.
  - destruct (ChargerCreate.parse data) as [charger|]; [|done].
    destruct (fastapi_add_charger_table charger w) as [->|[n ->]]; [done|].
    by apply row_app_old.
  - apply Hupd. congruence.
  - rewrite partial_update_is_update. apply Hupd. congruence.
  - rewrite fastapi_delete_table. destruct (orm.row i _); [|done].
    rewrite row_filter_other; [done | congruence].
  - by rewrite readonly_fastapi_stats.
Qed.

End isolation.

(** X9.  A request touches no record but its own: a record that is in the
    table is there unchanged, every column included, after any request that
    does not update or delete that very id, in the Flask application and in
    the FastAPI application (middleware included). *)
Theorem other_records_untouched (cid : Z) (c : Charger) (w : World) :
  orm.row cid (chargers w) = Some c →
  (∀ r, flask_target r ≠ Some cid →
        orm.row cid (chargers (Flask.serve r w).2) = Some c)
  ∧ (∀ r, fastapi_target r ≠ Some cid →
          orm.row cid (chargers (FastAPI.serve r w).2) = Some c).
Proof.
  intros Hrow. split; intros r Hr.
  - unfold Flask.serve. rewrite flask_respond_world.
    by apply flask_route_isolates.
  - rewrite fastapi_serve_nonempty.
    + unfold FastAPI.handle. rewrite fastapi_respond_world.
      by apply fastapi_route_isolates.
    + intros He. by rewrite He in Hrow.
Qed.

(** Deleting charger 2 leaves charger 1 of the seeded table as it is. *)
Lemma other_records_untouched_seeded :
  orm.row 1 (chargers (Flask.serve (Flask.DELETE_charger 2) flask_seeded).2)
  = orm.row 1 (chargers flask_seeded).
Proof.
  assert (∃ c, orm.row 1 (chargers flask_seeded) = Some c) as [c Hrow]
    by (eexists; vm_compute; reflexivity).
  rewrite Hrow.
  pose proof (proj1 (other_records_untouched 1 c flask_seeded Hrow)) as T.
  apply T. cbn [flask_target]. discriminate.
Defined.

Section seeding_start.

Lemma init_db_nonempty w :
  chargers w ≠ [] → Flask.init_db w = (Returns tt, w).
Proof.
  intros Hne. unfold Flask.init_db.
  rewrite (bind_returns read_table _ _ _ _ eq_refl).
  destruct (decide (length (chargers w) = 0%nat)) as [Hn|]; [|done].
  by destruct (chargers w).
Qed.

End seeding_start.

(** X10.  Seeding never fails and fills only an empty table: on a table with
    a row, [init_db] and [add_sample_data] change nothing; on an empty table
    they insert the six sample rows, in order, with the ids 1 to 6.  Seeding
    a second time changes nothing, and a request to the FastAPI application
    is its route handler run on the seeded table. *)
Theorem seeding_fills_only_an_empty_table (w : World) :
  ∃ w1 w2,
    Flask.init_db w = (Returns tt, w1)
    ∧ FastAPI.add_sample_data w = (Returns tt, w2)
    ∧ (chargers w ≠ [] → w1 = w ∧ w2 = w)
    ∧ (chargers w = [] →
       id <$> chargers w1 = Some <$> [1; 2; 3; 4; 5; 6]
       ∧ id <$> chargers w2 = Some <$> [1; 2; 3; 4; 5; 6]
       ∧ as_added <$> chargers w1 = sample_chargers
       ∧ as_added <$> chargers w2 = sample_chargers)
    ∧ Flask.init_db w1 = (Returns tt, w1)
    ∧ FastAPI.add_sample_data w2 = (Returns tt, w2)
    ∧ ∀ r, FastAPI.serve r w = FastAPI.handle r w2.
Proof.
  destruct (decide (chargers w = [])) as [He|Hne].
  - destruct w as [t clk]. simpl in He. subst t.
    eexists _, _.
    split; [vm_compute; reflexivity|].
    split; [vm_compute; reflexivity|].
    split; [done|].
    split; [intros _; repeat split; vm_compute; reflexivity|].
    split; [vm_compute; reflexivity|].
    split; [vm_compute; reflexivity|].
    intros r. rewrite fastapi_serve_handle. f_equal.
  - exists w, w.
    rewrite init_db_nonempty, add_sample_data_nonempty by done.
    repeat split; try done.
    intros r. by apply fastapi_serve_nonempty.
Qed.

(** Start-up on an empty table under the ticking clock. *)
Lemma seeding_an_empty_table :
  id <$> chargers flask_seeded = Some <$> [1; 2; 3; 4; 5; 6]
  ∧ as_added <$> chargers fastapi_seeded = sample_chargers.
Proof.
  destruct (seeding_fills_only_an_empty_table (mkWorld [] ticking))
    as (w1 & w2 & H1 & H2 & _ & Hempty & _).
  destruct (Hempty eq_refl) as (Hid1 & _ & _ & Has2).
  unfold flask_seeded, fastapi_seeded. rewrite H1, H2. by split.
Defined.

Section failures.

(** A commit of a loaded and assigned object whose timestamps are set either
    is answered 200 or raises with the table as it was. *)
Lemma commit_outcome (c obj : Charger) (w0 : World) :
  dated obj →
  (∃ resp w',
     (c' <- orm.flush_dirty c obj ;;
      d <- to_dict c' ;;
      ret (mkResponse 200 (JsonCharger d))) w0 = (Returns resp, w')
     ∧ status resp = 200)
  ∨ chargers ((c' <- orm.flush_dirty c obj ;;
               d <- to_dict c' ;;
               ret (mkResponse 200 (JsonCharger d))) w0).2 = chargers w0.
Proof.
  intros [[ca Hca] [ua Hua]].
  destruct (orm.flush_dirty c obj w0) as [[c'|e] w1] eqn:Hf.
  - left. rewrite (bind_returns _ _ _ _ _ Hf).
    assert (∃ ua', created_at c' = Some ca ∧ updated_at c' = Some ua')
      as (ua' & Hca' & Hua').
    { rewrite flush_dirty_unfold in Hf.
      destruct (decide (obj = c)).
      - injection Hf as <- _. by exists ua.
      - cbn zeta in Hf. destruct (bool_decide _).
        + destruct (_ || _); [done|]. injection Hf as <- _. by eexists.
        + destruct (_ || _); [done|]. injection Hf as <- _. by exists ua. }
    rewrite (bind_returns _ _ _ _ _ (to_dict_returns c' w1 ca ua' Hca' Hua')).
    by eexists _, _.
  - right. rewrite (bind_raises _ _ _ _ _ Hf). simpl.
    rewrite flush_dirty_unfold in Hf.
    destruct (decide (obj = c)); [done|].
    cbn zeta in Hf. destruct (bool_decide _).
    + destruct (_ || _); [|done]. by injection Hf as _ <-.
    + destruct (_ || _); [|done]. by injection Hf as _ <-.
Qed.

Lemma flask_update_outcome cid data w :
  Forall dated (chargers w) →
  (∃ resp w', Flask.update_charger cid data w = (Returns resp, w')
              ∧ status resp = 200)
  ∨ chargers (Flask.update_charger cid data w).2 = chargers w.
Proof.
  intros Hall.
  destruct (orm.row cid (chargers w)) as [c|] eqn:Hrow;
    [|right; by rewrite flask_update_missing].
  assert (dated c) as Hc
    by (eapply Forall_forall in Hall; [done | by eapply row_Some_elem_of]).
  rewrite (flask_update_unfold _ _ _ _ Hrow). cbn zeta.
  set (hit := bool_decide _).
  match goal with
  | |- context [orm.flush_dirty c ?obj] =>
      destruct (commit_outcome c obj (if hit then tick w else w))
        as [H|H]; [done | by left |]
  end.
  right. rewrite H. by destruct hit.
Qed.

Lemma fastapi_update_outcome cid u w :
  Forall dated (chargers w) →
  (∃ resp w', FastAPI.update_charger cid u w = (Returns resp, w')
              ∧ status resp = 200)
  ∨ chargers (FastAPI.update_charger cid u w).2 = chargers w.
Proof.
  intros Hall.
  destruct (orm.row cid (chargers w)) as [c|] eqn:Hrow;
    [|right; by rewrite fastapi_update_missing].
  assert (dated c) as [Hc _]
    by (eapply Forall_forall in Hall; [done | by eapply row_Some_elem_of]).
  rewrite (fastapi_update_unfold _ _ _ _ Hrow). cbn zeta.
  set (hit := bool_decide _).
  match goal with
  | |- context [orm.flush_dirty c ?obj] =>
      destruct (commit_outcome c obj (tick (if hit then tick w else w)))
        as [H|H]; [by split | by left |]
  end.
  right. unfold format_charger. rewrite H. by destruct hit.
Qed.

Lemma flask_add_charger_outcome data w :
  (∃ resp w', Flask.add_charger data w = (Returns resp, w')
              ∧ status resp = 201)
  ∨ chargers (Flask.add_charger data w).2 = chargers w.
Proof.
  unfold Flask.add_charger.
  destruct (List.find _ _); [by right|].
  destruct (payload.location data) as [|lo]; [by right|].
  destruct (payload.power data) as [|po]; [by right|].
  destruct (payload.type data) as [|ty]; [by right|].
  unfold item. rewrite !(bind_returns (ret _) _ _ _ _ eq_refl).
  pose proof (flask_add_commit_new lo
                (get_default (payload.available data) (Some true)) po ty
                (get_default (payload.notes data) (Some "")) w) as Hadd.
  cbn zeta in Hadd. destruct (orm.not_null _).
  - rewrite (bind_returns _ _ _ _ _ Hadd).
    erewrite (bind_returns (to_dict _))
      by (apply to_dict_returns; reflexivity).
    left. by eexists _, _.
  - rewrite (bind_raises _ _ _ _ _ Hadd). by right.
Qed.

Lemma fastapi_add_charger_outcome charger w :
  (∃ resp w', FastAPI.add_charger charger w = (Returns resp, w')
              ∧ status resp = 201)
  ∨ chargers (FastAPI.add_charger charger w).2 = chargers w.
Proof.
  unfold FastAPI.add_charger.
  pose proof (fastapi_add_commit_new
                (Some (ChargerCreate.location charger))
                (Some (ChargerCreate.available charger))
                (Some (ChargerCreate.power charger))
                (Some (ChargerCreate.type charger))
                (ChargerCreate.notes charger) w) as Hadd.
  cbn zeta in Hadd. destruct (orm.not_null _).
  - rewrite (bind_returns _ _ _ _ _ Hadd).
    unfold format_charger.
    erewrite (bind_returns (to_dict _))
      by (apply to_dict_returns; reflexivity).
    left. by eexists _, _.
  - rewrite (bind_raises _ _ _ _ _ Hadd). by right.
Qed.

Lemma flask_delete_outcome cid w :
  (∃ resp w', Flask.delete_charger cid w = (Returns resp, w')
              ∧ status resp = 200)
  ∨ chargers (Flask.delete_charger cid w).2 = chargers w.
Proof.
  unfold Flask.delete_charger.
  destruct (orm.row cid (chargers w)) as [c|] eqn:Hrow.
  - left. rewrite (bind_returns _ _ _ _ _ (get_or_404_found _ _ _ Hrow)).
    by eexists _, _.
  - right. by rewrite (bind_raises _ _ _ _ _ (get_or_404_missing _ _ Hrow)).
Qed.

Lemma fastapi_delete_outcome cid w :
  (∃ resp w', FastAPI.delete_charger cid w = (Returns resp, w')
              ∧ status resp = 200)
  ∨ chargers (FastAPI.delete_charger cid w).2 = chargers w.
Proof.
  unfold FastAPI.delete_charger.
  destruct (orm.row cid (chargers w)) as [c|] eqn:Hrow.
  - left. rewrite (bind_returns _ _ _ _ _ (first_or_404_found _ _ _ Hrow)).
    by eexists _, _.
  - right.
    by rewrite (bind_raises _ _ _ _ _ (first_or_404_missing _ _ Hrow)).
Qed.

Lemma flask_route_outcome r w :
  Forall dated (chargers w) →
  (∃ resp w', Flask.route r w = (Returns resp, w') ∧ status resp < 400)
  ∨ chargers (Flask.route r w).2 = chargers w.
Proof.
  intros Hall.
  destruct r as [args|i|data|i data|i data|i|]; cbn [Flask.route].
  - right. by rewrite readonly_flask_get_chargers.
  - right. by rewrite readonly_flask_get_charger.
  - destruct (flask_add_charger_outcome data w)
      as [(resp & w' & H & Hs)|H]; [left | by right].
    exists resp, w'. split; [done | lia].
  - destruct (flask_update_outcome i data w Hall)
      as [(resp & w' & H & Hs)|H]; [left | by right].
    exists resp, w'. split; [done | lia].
  - destruct (flask_update_outcome i data w Hall)
      as [(resp & w' & H & Hs)|H]; [left | by right].
    exists resp, w'. split; [done | lia].
  - destruct (flask_delete_outcome i w)
      as [(resp & w' & H & Hs)|H]; [left | by right].
    exists resp, w'. split; [done | lia].
  - right. by rewrite readonly_flask_stats.
Qed.

Lemma fastapi_route_outcome r w :
  Forall dated (chargers w) →
  (∃ resp w', FastAPI.route r w = (Returns resp, w') ∧ status resp < 400)
  ∨ chargers (FastAPI.route r w).2 = chargers w.
Proof.
  intros Hall.
  destruct r as [a ty|i|data|i u|i u|i|]; cbn [FastAPI.route].
  - right. by rewrite readonly_fastapi_get_chargers.
  - right. by rewrite readonly_fastapi_get_charger.
  - destruct (ChargerCreate.parse data) as [charger|]; [|by right].
    destruct (fastapi_add_charger_outcome charger w)
      as [(resp & w' & H & Hs)|H]; [left | by right].
    exists resp, w'. split; [done | lia].
  - destruct (fastapi_update_outcome i u w Hall)
      as [(resp & w' & H & Hs)|H]; [left | by right].
    exists resp, w'. split; [done | lia].
  - rewrite partial_update_is_update.
    destruct (fastapi_update_outcome i u w Hall)
      as [(resp & w' & H & Hs)|H]; [left | by right].
    exists resp, w'. split; [done | lia].
  - destruct (fastapi_delete_outcome i w)
      as [(resp & w' & H & Hs)|H]; [left | by right].
    exists resp, w'. split; [done | lia].
  - right. by rewrite readonly_fastapi_stats.
Qed.

End failures.

(** X11.  A request that fails changes no row: on a table whose rows have
    their two timestamps, every request that the Flask application answers
    with a status of 400 or more (400, 404, 500) leaves the table exactly as
    it was, and so does every request on which a route handler of the
    FastAPI application raises, or which its request validation refuses. *)
Theorem failed_requests_change_no_row (w : World) :
  Forall dated (chargers w) →
  (∀ r, 400 ≤ status (Flask.serve r w).1 →
        chargers (Flask.serve r w).2 = chargers w)
  ∧ (∀ r e w', FastAPI.route r w = (Raises e, w') →
               chargers w' = chargers w
               ∧ chargers (FastAPI.handle r w).2 = chargers w).
Proof.
  intros Hall. split.
  - intros r Hs. unfold Flask.serve in *. rewrite flask_respond_world.
    destruct (flask_route_outcome r w Hall)
      as [(resp & w' & H & Hlt)|H]; [|done].
    unfold Flask.respond in Hs. rewrite H in Hs. simpl in Hs. lia.
  - intros r e w' Hr. unfold FastAPI.handle. rewrite fastapi_respond_world.
    destruct (fastapi_route_outcome r w Hall)
      as [(resp & w1 & H & Hlt)|H]; [congruence|].
    rewrite Hr in *. by split.
Qed.

(** A delete of an id that the seeded table does not have. *)
Lemma failed_delete_changes_no_row_seeded :
  chargers (Flask.serve (Flask.DELETE_charger 99) flask_seeded).2
  = chargers flask_seeded.
Proof.
  assert (Forall dated (chargers flask_seeded)) as Hall.
  { vm_compute chargers.
    repeat (apply Forall_cons; split; [split; eexists; reflexivity|]).
    apply Forall_nil_2. }
  apply (failed_requests_change_no_row flask_seeded Hall).
  vm_compute. discriminate.
Defined.

Section list_and_get.

Lemma traverse_to_dict_inv rows w ds w' :
  traverse to_dict rows w = (Returns ds, w') → serialized rows ds ∧ w' = w.
Proof.
  revert ds. induction rows as [|c rows IH]; intros ds H; simpl in H.
  - injection H as <- <-. split; [constructor | done].
  - apply bind_inv in H as (d & w1 & Hd & H).
    apply bind_inv in H as (ds' & w2 & Hds & H).
    injection H as <- <-.
    unfold to_dict in Hd. destruct (dict_of c) as [d'|] eqn:Hc; [|done].
    injection Hd as <- <-.
    destruct (IH _ Hds) as [Hser ->].
    split; [by constructor | done].
Qed.

Lemma listing_inv rows w ds w' :
  listing rows w = (Returns (mkResponse 200 (JsonList ds)), w') →
  serialized rows ds.
Proof.
  unfold listing. intros H.
  apply bind_inv in H as (ds' & w1 & Hds & H).
  injection H as <- _. by eapply traverse_to_dict_inv.
Qed.

Lemma serialized_elem_of_row rows ds c d :
  serialized rows ds → c ∈ rows → dict_of c = Some d → d ∈ ds.
Proof.
  induction 1 as [|c' d' rows ds Hc Hser IH]; intros Hin Hd.
  - by apply elem_of_nil in Hin.
  - apply elem_of_cons in Hin as [->|Hin].
    + assert (d = d') as -> by congruence. apply elem_of_cons. by left.
    + apply elem_of_cons. right. by apply IH.
Qed.

Lemma dict_of_id c d : dict_of c = Some d → dict.id d = id c.
Proof.
  unfold dict_of. destruct (created_at c), (updated_at c); try done.
  by intros [= <-].
Qed.

Lemma flask_list_returns args w ds w' :
  Flask.serve (Flask.GET_chargers args) w
  = (mkResponse 200 (JsonList ds), w') →
  Flask.get_chargers args w = (Returns (mkResponse 200 (JsonList ds)), w').
Proof.
  unfold Flask.serve, Flask.respond. cbn [Flask.route].
  destruct (Flask.get_chargers args w) as [[resp|e] w1]; [congruence|].
  by destruct e.
Qed.

Lemma fastapi_list_returns a ty w ds w' :
  FastAPI.handle (FastAPI.GET_chargers a ty) w
  = (mkResponse 200 (JsonList ds), w') →
  FastAPI.get_chargers a ty w
  = (Returns (mkResponse 200 (JsonList ds)), w')
  ∧ ∀ d, d ∈ ds → ChargerResponse.validate d = true.
Proof.
  unfold FastAPI.handle, FastAPI.respond. cbn [FastAPI.route].
  destruct (FastAPI.get_chargers a ty w) as [[resp|e] w1]; [|by destruct e].
  destruct (FastAPI.response_model (content resp)) eqn:Hv; [|discriminate].
  intros [= -> ->]. split; [done|].
  intros d Hd. cbn [content FastAPI.response_model] in Hv.
  rewrite forallb_forall in Hv. apply Hv. by apply list_elem_of_In.
Qed.

Lemma flask_get_row i c d w :
  orm.row i (chargers w) = Some c → dict_of c = Some d →
  Flask.serve (Flask.GET_charger i) w = (mkResponse 200 (JsonCharger d), w).
Proof.
  intros Hrow Hd. unfold Flask.serve, Flask.respond. cbn [Flask.route].
  unfold Flask.get_charger.
  rewrite (bind_returns _ _ _ _ _ (get_or_404_found _ _ _ Hrow)).
  unfold to_dict. by rewrite Hd.
Qed.

Lemma flask_get_row_inv i d w w' :
  Flask.serve (Flask.GET_charger i) w = (mkResponse 200 (JsonCharger d), w') →
  ∃ c, orm.row i (chargers w) = Some c ∧ dict_of c = Some d.
Proof.
  unfold Flask.serve, Flask.respond. cbn [Flask.route].
  unfold Flask.get_charger.
  destruct (orm.row i (chargers w)) as [c|] eqn:Hrow.
  - rewrite (bind_returns _ _ _ _ _ (get_or_404_found _ _ _ Hrow)).
    unfold to_dict. destruct (dict_of c) as [d'|] eqn:Hd; [|done].
    unfold bind, ret, Flask.jsonify. intros H. injection H as <- _.
    by exists c.
  - rewrite (bind_raises _ _ _ _ _ (get_or_404_missing _ _ Hrow)).
    by destruct (decide _).
Qed.

Lemma fastapi_get_row_inv i d w w' :
  FastAPI.handle (FastAPI.GET_charger i) w
  = (mkResponse 200 (JsonCharger d), w') →
  ∃ c, orm.row i (chargers w) = Some c ∧ dict_of c = Some d.
Proof.
  intros H. apply fastapi_respond_charger in H as [H _].
  cbn [FastAPI.route] in H. unfold FastAPI.get_charger in H.
  destruct (orm.row i (chargers w)) as [c|] eqn:Hrow.
  - rewrite (bind_returns _ _ _ _ _ (first_or_404_found _ _ _ Hrow)) in H.
    unfold format_charger, to_dict in H.
    destruct (dict_of c) as [d'|] eqn:Hd; [|done].
    unfold bind, ret in H. injection H as <- _.
    by exists c.
  - by rewrite (bind_raises _ _ _ _ _ (first_or_404_missing _ _ Hrow)) in H.
Qed.

(** On a keyed table, a record that is listed can be fetched, and an
    unfiltered list has every record that can be fetched. *)
Lemma listed_then_fetched (w : World) (P : Charger → Prop)
      `{!∀ c, Decision (P c)} (ds : list dict.t) :
  Keyed w →
  serialized (filter P (chargers w)) ds →
  ∀ d, d ∈ ds →
       ∃ i c, dict.id d = Some i ∧ orm.row i (chargers w) = Some c
              ∧ dict_of c = Some d.
Proof.
  intros Hk Hser d Hd.
  destruct (serialized_elem_of _ _ _ Hser Hd) as (c & Hin & Hc).
  apply list_elem_of_filter in Hin as [_ Hin].
  assert (is_Some (id c)) as [i Hi].
  { destruct Hk as [_ Hall]. eapply Forall_forall in Hall; [|done].
    by destruct Hall. }
  exists i, c. split; [by rewrite (dict_of_id _ _ Hc)|].
  split; [by apply Keyed_row | done].
Qed.

End list_and_get.

(** X12.  List and get agree.  On a table whose ids are set and distinct,
    every record of a successful list response, filtered or not, has an id,
    and a get by that id is answered 200 with the same record; and a list
    without filters has every record that a get returns.  Both
    applications. *)
Theorem list_and_get_agree (w : World) (args : gmap string string)
        (a : option bool) (ty : option string) (ds : list dict.t) :
  Keyed w →
  (Flask.serve (Flask.GET_chargers args) w
   = (mkResponse 200 (JsonList ds), w) →
   (∀ d, d ∈ ds →
         ∃ i, dict.id d = Some i
              ∧ Flask.serve (Flask.GET_charger i) w
                = (mkResponse 200 (JsonCharger d), w))
   ∧ (args !! "available" = None →
      ∀ i d, Flask.serve (Flask.GET_charger i) w
             = (mkResponse 200 (JsonCharger d), w) → d ∈ ds))
  ∧ (FastAPI.handle (FastAPI.GET_chargers a ty) w
     = (mkResponse 200 (JsonList ds), w) →
     (∀ d, d ∈ ds →
           ∃ i, dict.id d = Some i
                ∧ FastAPI.handle (FastAPI.GET_charger i) w
                  = (mkResponse 200 (JsonCharger d), w))
     ∧ (a = None → ty = None →
        ∀ i d, FastAPI.handle (FastAPI.GET_charger i) w
               = (mkResponse 200 (JsonCharger d), w) → d ∈ ds)).
Proof.
  intros Hk. split; intros H.
  - apply flask_list_returns in H.
    rewrite flask_get_chargers_listing in H. apply listing_inv in H.
    split.
    + intros d Hd.
      destruct (listed_then_fetched _ _ _ Hk H d Hd) as (i & c & Hi & Hrow & Hc).
      exists i. split; [done|]. by eapply flask_get_row.
    + intros Hnone i d Hget. rewrite Hnone in H.
      apply flask_get_row_inv in Hget as (c & Hrow & Hc).
      eapply serialized_elem_of_row; [done | | done].
      apply list_elem_of_filter. split; [|by eapply row_Some_elem_of].
      split; intros ? [=].
  - apply fastapi_list_returns in H as [H Hv].
    rewrite fastapi_get_chargers_listing in H. apply listing_inv in H.
    split.
    + intros d Hd.
      destruct (listed_then_fetched _ _ _ Hk H d Hd) as (i & c & Hi & Hrow & Hc).
      exists i. split; [done|]. eapply fastapi_get_row; [done | done |].
      by apply Hv.
    + intros -> -> i d Hget.
      apply fastapi_get_row_inv in Hget as (c & Hrow & Hc).
      eapply serialized_elem_of_row; [done | | done].
      apply list_elem_of_filter. split; [|by eapply row_Some_elem_of].
      split; intros ? [=].
Qed.

(** Every charger listed from the seeded table can be fetched by its id. *)
Lemma list_and_get_agree_seeded :
  ∃ ds,
    Flask.serve (Flask.GET_chargers ∅) flask_seeded
    = (mkResponse 200 (JsonList ds), flask_seeded)
    ∧ ∀ d, d ∈ ds →
           ∃ i, dict.id d = Some i
                ∧ Flask.serve (Flask.GET_charger i) flask_seeded
                  = (mkResponse 200 (JsonCharger d), flask_seeded).
Proof.
  assert (Keyed flask_seeded) as Hk.
  { apply (flask_reachable_Keyed (mkWorld [] ticking)); [reflexivity|].
    apply Flask.reach_start. }
  assert (∃ ds, Flask.serve (Flask.GET_chargers ∅) flask_seeded
                = (mkResponse 200 (JsonList ds), flask_seeded)) as [ds H].
  { eexists. vm_compute. reflexivity. }
  exists ds. split; [exact H|].
  exact (proj1 (proj1 (list_and_get_agree flask_seeded ∅ None None ds Hk) H)).
Defined.

(** X13.  A create whose [location], [power] and [type] are strings stores
    and returns what was sent.  [available] is the boolean of the request and
    true when the key is absent; [notes] is the request's value.  The two
    applications part on null and absent keys: [available: null] is stored as
    true by the Flask application and refused with 422 by the FastAPI
    application, and absent [notes] are the empty string in the Flask
    application and null in the FastAPI application. *)
Theorem create_returns_what_was_sent
        (l p t : string) (av : field bool) (no : field string) (w : World) :
  let data := payload.mk (Present (Some l)) av (Present (Some p))
                         (Present (Some t)) no in
  let fresh := orm.next_rowid (chargers w) in
  let b := default true (get_default av (Some true)) in
  let flask_row := mkCharger (Some fresh) (Some l) (Some b) (Some p) (Some t)
                             (get_default no (Some ""))
                             (Some (clock w 0%nat)) (Some (clock w 1%nat))
                             (Some (clock w 2%nat)) in
  let fast_row := mkCharger (Some fresh) (Some l) (Some b) (Some p) (Some t)
                            (get_default no None) None
                            (Some (clock w 0%nat)) (Some (clock w 1%nat)) in
  Flask.serve (Flask.POST_chargers data) w
  = (mkResponse 201
       (JsonCharger (dict.mk (Some fresh) (Some l) (Some b) (Some p) (Some t)
                             (get_default no (Some ""))
                             (Some (clock w 0%nat))
                             (clock w 1%nat) (clock w 2%nat))),
     mkWorld (chargers w ++ [flask_row]) (clock (tick (tick (tick w)))))
  ∧ FastAPI.handle (FastAPI.POST_chargers data) w
    = (if decide (av = Present None)
       then (mkResponse 422 JsonValidationErrors, w)
       else (mkResponse 201
               (JsonCharger (dict.mk (Some fresh) (Some l) (Some b) (Some p)
                                     (Some t) (get_default no None) None
                                     (clock w 0%nat) (clock w 1%nat))),
             mkWorld (chargers w ++ [fast_row]) (clock (tick (tick w))))).
Proof.
  intros data fresh b flask_row fast_row. subst data fresh b flask_row fast_row.
  split.
  - destruct av as [|[[]|]], no as [|[]]; reflexivity.
  - destruct av as [|[[]|]], no as [|[]]; reflexivity.
Qed.

Section update_round_trip.

Lemma flask_respond_charger (h : M Response) w s d w' :
  Flask.respond h w = (mkResponse s (JsonCharger d), w') →
  h w = (Returns (mkResponse s (JsonCharger d)), w').
Proof.
  unfold Flask.respond.
  destruct (h w) as [[r|e] w1]; [congruence|]. by destruct e.
Qed.

Lemma flask_update_stored cid data w d w' :
  Flask.update_charger cid data w
  = (Returns (mkResponse 200 (JsonCharger d)), w') →
  ∃ c', orm.row cid (chargers w') = Some c' ∧ dict_of c' = Some d.
Proof.
  intros H.
  destruct (orm.row cid (chargers w)) as [c|] eqn:Hrow;
    [|by rewrite flask_update_missing in H].
  rewrite (flask_update_unfold _ _ _ _ Hrow) in H. cbn zeta in H.
  set (hit := bool_decide _) in *.
  apply (commit_row cid) in H
      as (c' & d' & Hresp & Hd & Hrow' & _);
    [| by destruct hit | done].
  injection Hresp as ->. by exists c'.
Qed.

Lemma fastapi_update_stored cid u w d w' :
  FastAPI.update_charger cid u w
  = (Returns (mkResponse 200 (JsonCharger d)), w') →
  ∃ c', orm.row cid (chargers w') = Some c' ∧ dict_of c' = Some d.
Proof.
  intros H.
  destruct (orm.row cid (chargers w)) as [c|] eqn:Hrow;
    [|by rewrite fastapi_update_missing in H].
  rewrite (fastapi_update_unfold _ _ _ _ Hrow) in H. cbn zeta in H.
  set (hit := bool_decide _) in *.
  apply (commit_row cid) in H
      as (c' & d' & Hresp & Hd & Hrow' & _);
    [| by destruct hit | done].
  injection Hresp as ->. by exists c'.
Qed.

End update_round_trip.

(** X14.  Update then get: when an update (PUT or PATCH) is answered 200
    with a record, the record carries the id of the request, and a get by
    that id right after is answered 200 with the same record.  Both
    applications. *)
Theorem update_then_get (cid : Z) (data : payload.t) (u : ChargerUpdate.t)
        (w w' : World) (d : dict.t) :
  (Flask.serve (Flask.PUT_charger cid data) w
   = (mkResponse 200 (JsonCharger d), w')
   ∨ Flask.serve (Flask.PATCH_charger cid data) w
     = (mkResponse 200 (JsonCharger d), w') →
   dict.id d = Some cid
   ∧ Flask.serve (Flask.GET_charger cid) w'
     = (mkResponse 200 (JsonCharger d), w'))
  ∧ (FastAPI.handle (FastAPI.PUT_charger cid u) w
     = (mkResponse 200 (JsonCharger d), w')
     ∨ FastAPI.handle (FastAPI.PATCH_charger cid u) w
       = (mkResponse 200 (JsonCharger d), w') →
     dict.id d = Some cid
     ∧ FastAPI.handle (FastAPI.GET_charger cid) w'
       = (mkResponse 200 (JsonCharger d), w')).
Proof.
  split; intros H.
  - assert (Flask.update_charger cid data w
            = (Returns (mkResponse 200 (JsonCharger d)), w')) as Hupd
      by (destruct H as [H|H]; by apply flask_respond_charger in H).
    apply flask_update_stored in Hupd as (c' & Hrow & Hd).
    split; [|by eapply flask_get_row].
    rewrite (dict_of_id _ _ Hd). by eapply row_Some_id.
  - assert (FastAPI.update_charger cid u w
            = (Returns (mkResponse 200 (JsonCharger d)), w')) as Hupd
      by (destruct H as [H|H]; by apply fastapi_respond_charger in H as [H _]).
    assert (ChargerResponse.validate d = true) as Hv
      by (destruct H as [H|H]; by apply fastapi_respond_charger in H as [_ H]).
    apply fastapi_update_stored in Hupd as (c' & Hrow & Hd).
    split; [|by eapply fastapi_get_row].
    rewrite (dict_of_id _ _ Hd). by eapply row_Some_id.
Qed.

(** Marking the first sample charger unavailable, then getting it. *)
Lemma update_then_get_seeded :
  ∃ d w',
    Flask.serve
      (Flask.PATCH_charger 1
         (payload.mk Absent (Present (Some false)) Absent Absent Absent))
      flask_seeded
    = (mkResponse 200 (JsonCharger d), w')
    ∧ dict.available d = Some false
    ∧ Flask.serve (Flask.GET_charger 1) w'
      = (mkResponse 200 (JsonCharger d), w').
Proof.
  destruct (Flask.serve
              (Flask.PATCH_charger 1
                 (payload.mk Absent (Present (Some false)) Absent Absent
                             Absent)) flask_seeded) as [resp w'] eqn:H.
  pose proof H as H'. vm_compute in H'. injection H' as Hresp _.
  subst resp.
  eexists _, _. split; [reflexivity|]. split; [reflexivity|].
  exact (proj2 (proj1 (update_then_get 1 _ (ChargerUpdate.mk Absent Absent
                                              Absent Absent Absent) _ _ _)
                  (or_intror H))).
Defined.
